(** * Peer tutoring: availability, fair assignment and booking

    A shallow embedding of the scheduling core of the peer-tutoring
    application ([app/models.py], [app/student_routes.py],
    [app/tutor_routes.py]) together with the properties its specification
    states about it.

    Conventions of the embedding.
    - A [datetime.date] is its proleptic Gregorian ordinal, from 1
      (0001-01-01) to 3652059 (9999-12-31).
    - A [datetime.time] is the number of microseconds since midnight.
    - A naive [datetime.datetime] is the number of microseconds since
      midnight of ordinal 0, so that comparison is [Z] comparison; adding a
      [timedelta] is addition, and raises [OverflowError] when the sum
      leaves the years 1 to 9999.
    - The database is an explicit [Store] of tables; an ORM relationship such
      as [tutor.bookings] is the selection of the rows carrying the tutor's
      foreign key. An integer bound to a parameter of a statement is
      refused by the driver of the configured SQLite store, with
      [OverflowError], when it does not fit in 64 bits.
    - An exception that no handler catches leaves the function as
      [Raises]; a view that lets it through answers with status 500.
    - A [while] loop is a recursion on fuel that returns [None] when the fuel
      runs out. *)

From Stdlib Require Import ZArith Lia List String Ascii Permutation.
From stdpp Require Import base option list gmap fin_maps.
Import ListNotations.

Local Open Scope Z_scope.

(* ===================================================================== *)
(** ** Dates, times and time deltas *)
(* ===================================================================== *)

Module Clock.

Definition US_PER_SECOND : Z := 1000000.
Definition US_PER_MINUTE : Z := 60 * US_PER_SECOND.
Definition US_PER_HOUR : Z := 60 * US_PER_MINUTE.
Definition US_PER_DAY : Z := 24 * US_PER_HOUR.

(** [dt.time(h, m, s)] *)
Definition time (h m s : Z) : Z :=
  h * US_PER_HOUR + m * US_PER_MINUTE + s * US_PER_SECOND.

(** [dt.datetime.combine(date, time)] *)
Definition combine (date time : Z) : Z := date * US_PER_DAY + time.

(** [datetime.date()] *)
Definition date_of (d : Z) : Z := d / US_PER_DAY.

(** [datetime.time()] *)
Definition time_of (d : Z) : Z := d mod US_PER_DAY.

(** [date.weekday()], Monday is 0: [(toordinal() + 6) % 7]. *)
Definition weekday (date : Z) : Z := (date + 6) mod 7.

(** The length of [m] minutes, in microseconds. *)
Definition timedelta_minutes (m : Z) : Z := m * US_PER_MINUTE.

(** A time of day as a column of type [Time] holds it. *)
Definition valid_time (t : Z) : Prop := 0 <= t < US_PER_DAY.

(** [date.min.toordinal()] and [date.max.toordinal()] *)
Definition MINORDINAL : Z := 1.
Definition MAXORDINAL : Z := 3652059.

(** A date the interpreter can represent. *)
Definition valid_date (date : Z) : Prop := MINORDINAL <= date <= MAXORDINAL.

(** [datetime.min] and [datetime.max] *)
Definition datetime_min : Z := combine MINORDINAL 0.
Definition datetime_max : Z := combine MAXORDINAL (US_PER_DAY - 1).

(** The largest number of days of a [timedelta], in either direction. *)
Definition MAX_DELTA_DAYS : Z := 999999999.

End Clock.

Import Clock.

(* ===================================================================== *)
(** ** Exceptions *)
(* ===================================================================== *)

(** The exceptions that leave the functions below uncaught. *)
Inductive Exception : Set :=
| OverflowError.

(** What a call comes back with. *)
Inductive Outcome (A : Type) :=
| Returns (value : A)
| Raises (e : Exception).

Arguments Returns {A} value.
Arguments Raises {A} e.

(** [dt.timedelta(minutes=m)]: the number of whole days of the result is
    kept within [MAX_DELTA_DAYS]. *)
Definition timedelta (minutes : Z) : Outcome Z :=
  let delta := timedelta_minutes minutes in
  if (- MAX_DELTA_DAYS <=? delta / US_PER_DAY)
     && (delta / US_PER_DAY <=? MAX_DELTA_DAYS)
  then Returns delta
  else Raises OverflowError.

(** [datetime + timedelta]: the sum is kept within [datetime.min] and
    [datetime.max]. *)
Definition datetime_add (d delta : Z) : Outcome Z :=
  let sum := d + delta in
  if (datetime_min <=? sum) && (sum <=? datetime_max)
  then Returns sum
  else Raises OverflowError.

(** An integer parameter that the SQLite driver accepts. *)
Definition sqlite_integer (n : Z) : bool :=
  (- 2 ^ 63 <=? n) && (n <? 2 ^ 63).

(* ===================================================================== *)
(** ** Tables ([app/models.py]) *)
(* ===================================================================== *)

Module Subject.
Record t := mk {
  id : Z;
  name : string;
  category : string;
  sort_order : Z
}.
End Subject.

Module Tutor.
Record t := mk {
  id : Z;
  name : string;
  phone : string;
  pin_hash : string;
  created_at : Z;
  is_active : bool
}.
End Tutor.

Module TutorSubject.
Record t := mk {
  id : Z;
  tutor_id : Z;
  subject_id : Z
}.
End TutorSubject.

Module WeeklyAvailability.
Record t := mk {
  id : Z;
  tutor_id : Z;
  day_of_week : Z;
  start_time : Z;
  end_time : Z
}.
End WeeklyAvailability.

Module TutorException.
Record t := mk {
  id : Z;
  tutor_id : Z;
  date : Z;
  start_time : option Z;
  end_time : option Z;
  note : option string
}.
End TutorException.

Module Booking.
Record t := mk {
  id : Z;
  tutor_id : Z;
  subject_id : option Z;
  student_name : string;
  student_phone : string;
  start_time : Z;
  end_time : Z;
  created_at : Z;
  is_canceled : bool;
  canceled_at : option Z;
  cancel_reason : option string
}.
End Booking.

(** The persistent store: one list of rows per table. *)
Record Store := mkStore {
  subjects : list Subject.t;
  tutors : list Tutor.t;
  tutor_subjects : list TutorSubject.t;
  weekly_availability : list WeeklyAvailability.t;
  tutor_exceptions : list TutorException.t;
  bookings : list Booking.t
}.

(** A slot is a pair (start, end) of datetimes. *)
Abbreviation Slot := (Z * Z)%type.

(* ===================================================================== *)
(** ** [WeeklyAvailability.generate_slots] *)
(* ===================================================================== *)

(** The [while cursor + step <= end_dt] loop; [slots] is the list built so
    far, [None] means the fuel ran out before the loop was left. The sum
    [cursor + step] of the condition is computed before it is compared, and
    raises when it is no datetime; the body repeats that sum, for the end of
    the slot and for the new cursor. *)
Fixpoint generate_slots_loop (fuel : nat) (step end_dt cursor : Z)
    (slots : list Slot) : option (Outcome (list Slot)) :=
  match fuel with
  | O => None
  | S fuel' =>
      match datetime_add cursor step with
      | Raises e => Some (Raises e)
      | Returns next =>
          if next <=? end_dt
          then generate_slots_loop fuel' step end_dt next
                 (slots ++ [(cursor, next)])
          else Some (Returns slots)
      end
  end.

Definition generate_slots (fuel : nat) (self : WeeklyAvailability.t)
    (date : Z) (slot_minutes : Z) : option (Outcome (list Slot)) :=
  let start_dt := combine date (WeeklyAvailability.start_time self) in
  let end_dt := combine date (WeeklyAvailability.end_time self) in
  match timedelta slot_minutes with
  | Raises e => Some (Raises e)
  | Returns step =>
      let cursor := start_dt in
      generate_slots_loop fuel step end_dt cursor []
  end.

(** The [k]-th slot of a walk that starts at [start] and advances by [step]. *)
Definition nth_slot (start step : Z) (k : nat) : Slot :=
  (start + Z.of_nat k * step, start + (Z.of_nat k + 1) * step).

(** Number of whole steps that fit between [start] and [end_dt]. *)
Definition slot_count (start end_dt step : Z) : nat :=
  Z.to_nat ((end_dt - start) / step).

(** The sum [cursor + step] that ends a walk with a positive step: the first
    one beyond [end_dt]. *)
Definition last_probe (start end_dt step : Z) : Z :=
  start + (Z.of_nat (slot_count start end_dt step) + 1) * step.

(* ===================================================================== *)
(** ** [Tutor]: relationships and availability *)
(* ===================================================================== *)

(** [tutor.bookings], [tutor.weekly_availability], [tutor.exceptions]:
    the rows whose foreign key is the tutor's id. *)
Definition bookings_of (db : Store) (self : Tutor.t) : list Booking.t :=
  List.filter (fun b => Booking.tutor_id b =? Tutor.id self) (bookings db).

Definition weekly_availability_of (db : Store) (self : Tutor.t)
    : list WeeklyAvailability.t :=
  List.filter (fun a => WeeklyAvailability.tutor_id a =? Tutor.id self)
    (weekly_availability db).

Definition exceptions_of (db : Store) (self : Tutor.t) : list TutorException.t :=
  List.filter (fun x => TutorException.tutor_id x =? Tutor.id self)
    (tutor_exceptions db).

(** [Tutor.total_bookings] *)
Definition total_bookings (db : Store) (self : Tutor.t) : nat :=
  length (List.filter (fun booking => negb (Booking.is_canceled booking))
            (bookings_of db self)).

(** [Tutor.availability_for_day] *)
Definition availability_for_day (db : Store) (self : Tutor.t) (weekday : Z)
    : list WeeklyAvailability.t :=
  List.filter (fun avail => WeeklyAvailability.day_of_week avail =? weekday)
    (weekly_availability_of db self).

(** [TutorException.is_full_day] *)
Definition is_full_day (self : TutorException.t) : bool :=
  match TutorException.start_time self, TutorException.end_time self with
  | None, None => true
  | _, _ => false
  end.

(** [TutorException.overlaps] *)
Definition overlaps (self : TutorException.t) (start_dt end_dt : Z) : bool :=
  if negb (TutorException.date self =? date_of start_dt) then false
  else if is_full_day self then true
  else
    match TutorException.start_time self, TutorException.end_time self with
    | Some start_time, Some end_time =>
        let exc_start := combine (TutorException.date self) start_time in
        let exc_end := combine (TutorException.date self) end_time in
        (start_dt <? exc_end) && (end_dt >? exc_start)
    | _, _ => true
    end.

(** The test of the first loop of [is_available_for_slot]. *)
Definition exception_hit (db : Store) (self : Tutor.t) (start_dt end_dt : Z) : bool :=
  existsb (fun exception => overlaps exception start_dt end_dt)
    (exceptions_of db self).

(** [block_matches] of [is_available_for_slot]. *)
Definition block_matches (db : Store) (self : Tutor.t) (start_dt end_dt : Z) : bool :=
  let blocks := availability_for_day db self (weekday (date_of start_dt)) in
  existsb (fun block =>
             (WeeklyAvailability.start_time block <=? time_of start_dt)
             && (WeeklyAvailability.end_time block >=? time_of end_dt))
    blocks.

(** The test of the last loop of [is_available_for_slot]: canceled bookings
    are skipped. *)
Definition booking_hit (db : Store) (self : Tutor.t) (start_dt end_dt : Z) : bool :=
  existsb (fun booking =>
             if Booking.is_canceled booking then false
             else (Booking.start_time booking <? end_dt)
                  && (Booking.end_time booking >? start_dt))
    (bookings_of db self).

(** [Tutor.is_available_for_slot]: each loop returns [False] at its first
    hit. *)
Definition is_available_for_slot (db : Store) (self : Tutor.t)
    (start_dt end_dt : Z) : bool :=
  if exception_hit db self start_dt end_dt then false
  else if negb (block_matches db self start_dt end_dt) then false
  else if booking_hit db self start_dt end_dt then false
  else true.

(** The three gates, to be evaluated in an arbitrary order with exit at the
    first one that fails. *)
Inductive Gate := ExceptionGate | BlockGate | BookingGate.

Definition gate_passes (db : Store) (self : Tutor.t) (start_dt end_dt : Z)
    (g : Gate) : bool :=
  match g with
  | ExceptionGate => negb (exception_hit db self start_dt end_dt)
  | BlockGate => block_matches db self start_dt end_dt
  | BookingGate => negb (booking_hit db self start_dt end_dt)
  end.

Fixpoint check_gates (db : Store) (self : Tutor.t) (start_dt end_dt : Z)
    (order : list Gate) : bool :=
  match order with
  | [] => true
  | g :: rest =>
      if gate_passes db self start_dt end_dt g
      then check_gates db self start_dt end_dt rest
      else false
  end.

(** The half-open interval [start_dt, end_dt) meets the calendar day [date]. *)
Definition intersects_date (start_dt end_dt date : Z) : Prop :=
  start_dt < combine (date + 1) 0 /\ combine date 0 < end_dt.

(* ===================================================================== *)
(** ** Queries over tutors *)
(* ===================================================================== *)

(** [Tutor.query.join(TutorSubject).filter(TutorSubject.subject_id ==
    subject_id, Tutor.is_active.is_(True)).all()]: the rows the query
    selects, for a [subject_id] that the driver accepts. *)
Definition active_tutors_for_subject (db : Store) (subject_id : Z) : list Tutor.t :=
  List.filter
    (fun tutor =>
       Tutor.is_active tutor
       && existsb (fun ts => (TutorSubject.tutor_id ts =? Tutor.id tutor)
                             && (TutorSubject.subject_id ts =? subject_id))
            (tutor_subjects db))
    (tutors db).

(** [available_tutors_for_slot]; its caller [book] passes a subject id that
    [Subject.query.get] has accepted. *)
Definition available_tutors_for_slot (db : Store) (subject_id : Z)
    (start_dt end_dt : Z) : list Tutor.t :=
  let tutors := active_tutors_for_subject db subject_id in
  List.filter (fun tutor => is_available_for_slot db tutor start_dt end_dt) tutors.

(** The number of non-canceled bookings that carry the tutor id [k]: the
    load, as a function of the id alone. *)
Definition load_of_id (db : Store) (k : Z) : nat :=
  length (List.filter (fun booking => negb (Booking.is_canceled booking))
            (List.filter (fun b => Booking.tutor_id b =? k) (bookings db))).

(** [min] of a non-empty sequence; [None] stands for the [ValueError] on an
    empty one. *)
Definition py_min (l : list nat) : option nat :=
  match l with
  | [] => None
  | x :: rest => Some (fold_left Nat.min rest x)
  end.

(** [random.choice(seq)]: [seq[randbelow(len(seq))]], the random source being
    the number [rnd]; [None] stands for the [IndexError] on an empty list. *)
Definition random_choice {A : Type} (rnd : nat) (seq : list A) : option A :=
  nth_error seq (rnd mod length seq)%nat.

(** The dict comprehension of [pick_fair_tutor]: a later candidate with the
    same id overwrites the entry of an earlier one. *)
Definition booking_counts_of (db : Store) (candidates : list Tutor.t) : gmap Z nat :=
  fold_left
    (fun counts tutor =>
       <[Tutor.id tutor :=
           length (List.filter (fun booking => negb (Booking.is_canceled booking))
                     (bookings_of db tutor))]> counts)
    candidates ∅.

(** [pick_fair_tutor]; the result is [None] for an empty candidate list (and
    on the error paths of [min], of the dict lookup and of [random.choice],
    which the theorems below show are never taken). *)
Definition pick_fair_tutor (db : Store) (rnd : nat) (candidates : list Tutor.t)
    : option Tutor.t :=
  match candidates with
  | [] => None
  | _ =>
      let booking_counts := booking_counts_of db candidates in
      match py_min (snd <$> map_to_list booking_counts) with
      | None => None
      | Some min_count =>
          let smallest :=
            List.filter
              (fun tutor =>
                 match booking_counts !! Tutor.id tutor with
                 | Some c => Nat.eqb c min_count
                 | None => false
                 end)
              candidates in
          random_choice rnd smallest
      end
  end.

(** [slots.setdefault(start_dt, []).append(tutor)] *)
Definition setdefault_append (slots : gmap Z (list Tutor.t)) (start_dt : Z)
    (tutor : Tutor.t) : gmap Z (list Tutor.t) :=
  <[start_dt := default [] (slots !! start_dt) ++ [tutor]]> slots.

(** Body of the innermost loop of [collect_open_slots]. *)
Definition collect_slot (db : Store) (tutor : Tutor.t)
    (slots : gmap Z (list Tutor.t)) (slot : Slot) : gmap Z (list Tutor.t) :=
  let '(start_dt, end_dt) := slot in
  if is_available_for_slot db tutor start_dt end_dt
  then setdefault_append slots start_dt tutor
  else slots.

(** One iteration of [for block in availabilities]; nothing is done once
    an exception is on its way or the fuel is spent. *)
Definition collect_block (fuel : nat) (slot_minutes : Z) (db : Store)
    (target_date : Z) (tutor : Tutor.t)
    (slots : option (Outcome (gmap Z (list Tutor.t))))
    (block : WeeklyAvailability.t)
    : option (Outcome (gmap Z (list Tutor.t))) :=
  match slots with
  | Some (Returns slots) =>
      match generate_slots fuel block target_date slot_minutes with
      | None => None
      | Some (Raises e) => Some (Raises e)
      | Some (Returns generated) =>
          Some (Returns (fold_left (collect_slot db tutor) generated slots))
      end
  | stopped => stopped
  end.

(** One iteration of [for tutor in tutors]. *)
Definition collect_tutor (fuel : nat) (slot_minutes : Z) (db : Store)
    (target_date : Z) (slots : option (Outcome (gmap Z (list Tutor.t))))
    (tutor : Tutor.t)
    : option (Outcome (gmap Z (list Tutor.t))) :=
  let weekday := weekday target_date in
  let availabilities := availability_for_day db tutor weekday in
  match availabilities with
  | [] => slots
  | _ => fold_left (collect_block fuel slot_minutes db target_date tutor)
           availabilities slots
  end.

(** [collect_open_slots]; [slot_minutes] is the configured
    [BOOKING_SLOT_MINUTES]. The query of the tutors binds [subject_id]. The
    result is [None] when the fuel does not suffice for one of the calls of
    [generate_slots]. *)
Definition collect_open_slots (fuel : nat) (slot_minutes : Z) (db : Store)
    (subject_id : Z) (target_date : Z)
    : option (Outcome (gmap Z (list Tutor.t))) :=
  if sqlite_integer subject_id then
    let tutors := active_tutors_for_subject db subject_id in
    fold_left (collect_tutor fuel slot_minutes db target_date) tutors
      (Some (Returns ∅))
  else Some (Raises OverflowError).

(** No key of the mapping is bound to an empty list of tutors. *)
Definition no_empty_list (slots : gmap Z (list Tutor.t)) : Prop :=
  forall (k : Z) (tutors : list Tutor.t), slots !! k = Some tutors -> tutors <> [].

(** [k] is the start of a slot generated from [block] for the date at which
    [tutor] is available. *)
Definition open_slot_of_block (slot_minutes : Z) (db : Store) (target_date : Z)
    (tutor : Tutor.t) (block : WeeklyAvailability.t) (k : Z) : Prop :=
  exists (fuel : nat) (generated : list Slot) (end_dt : Z),
    generate_slots fuel block target_date slot_minutes = Some (Returns generated)
    /\ In (k, end_dt) generated
    /\ is_available_for_slot db tutor k end_dt = true.

(** [k] is such a start for one of the tutor's blocks of the date's weekday. *)
Definition open_slot_of_tutor (slot_minutes : Z) (db : Store) (target_date : Z)
    (tutor : Tutor.t) (k : Z) : Prop :=
  exists block : WeeklyAvailability.t,
    In block (availability_for_day db tutor (weekday target_date))
    /\ open_slot_of_block slot_minutes db target_date tutor block k.

(* ===================================================================== *)
(** ** Interpreter library and request environment *)
(* ===================================================================== *)

(** The functions of the Python library that the routes call on strings,
    kept abstract. [None] stands for the [ValueError] that [int] and
    [strptime] raise. *)
Class PyLib := {
  py_strip : string -> string;                (* str.strip() *)
  py_isdigit : ascii -> bool;                 (* ch.isdigit() *)
  py_int : string -> option Z;                (* int(s) *)
  strptime_date : string -> option Z;         (* strptime(s, '%Y-%m-%d').date() *)
  strptime_time : string -> option Z;         (* strptime(s, '%H:%M').time() *)
  strftime_long : Z -> string                 (* date.strftime('%B %d, %Y') *)
}.

(** What a request reads from its surroundings. *)
Record Env := mkEnv {
  pacific_now : Z;             (* _pacific_now(): wall clock in America/Los_Angeles *)
  utcnow : Z;                  (* dt.datetime.utcnow() *)
  BOOKING_SLOT_MINUTES : Z;    (* app.config['BOOKING_SLOT_MINUTES'] *)
  random_index : nat;          (* the draw of the module-level random generator *)
  storage_fault : bool         (* the store fails for a reason of its own *)
}.

(** Truth value of a string: empty strings are false. *)
Definition str_bool (s : string) : bool :=
  match s with
  | EmptyString => false
  | String _ _ => true
  end.

(** [reason[:n]] *)
Definition str_prefix (n : nat) (s : string) : string := substring 0 n s.

(* ===================================================================== *)
(** ** Booking window ([app/student_routes.py]) *)
(* ===================================================================== *)

(** [_minimum_bookable_date]; a missing [now] is read from the clock. *)
Definition _minimum_bookable_date (env : Env) (now : option Z) : Z :=
  let now := match now with None => pacific_now env | Some now => now end in
  let min_date := date_of now + 1 in
  if time_of now >=? time 22 0 0 then min_date + 1 else min_date.

Definition same_day_reason : string := "Same-day bookings are not available.".
Definition after_cutoff_reason : string :=
  "After 10:00 PM Pacific, next-day sessions close.".

(** [_booking_window_status] *)
Definition _booking_window_status `{PyLib} (env : Env) (target_date : Z)
    : bool * string * Z :=
  let now := pacific_now env in
  let min_date := _minimum_bookable_date env (Some now) in
  if target_date <? min_date then
    let reason :=
      if target_date <=? date_of now then same_day_reason
      else after_cutoff_reason in
    let message :=
      (reason ++ " Earliest available date is " ++ strftime_long min_date)%string in
    (false, message, min_date)
  else (true, ""%string, min_date).

(** [_normalize_phone] *)
Fixpoint _normalize_phone `{PyLib} (raw : string) : string :=
  match raw with
  | EmptyString => EmptyString
  | String ch rest =>
      if py_isdigit ch then String ch (_normalize_phone rest)
      else _normalize_phone rest
  end.

(** [_slot_minutes]: the configuration value is already an integer. *)
Definition _slot_minutes (env : Env) : Z := BOOKING_SLOT_MINUTES env.

(* ===================================================================== *)
(** ** Responses and the store's commit *)
(* ===================================================================== *)

Inductive Response :=
| RenderBookingPage (message category : string)
    (* flash(message, category); _render_booking_page(form_values) *)
| RenderConfirmation (booking : Booking.t) (tutor : Tutor.t) (subject : Subject.t)
| Redirect (endpoint message category : string)
    (* flash(message, category); redirect(url_for(endpoint)) *)
| Abort404
    (* abort(404) *)
| Abort500.
    (* an exception leaves the view: status 500 *)

(** The exceptions [db.session.commit()] raises. *)
Inductive CommitError :=
| IntegrityError      (* a uniqueness constraint is violated *)
| OperationalError.   (* any other failure of the store *)

(** [UniqueConstraint('tutor_id', 'start_time', name='uq_tutor_booking_start')]:
    canceled rows keep their key. *)
Definition violates_uq_tutor_booking_start (db : Store) (row : Booking.t) : bool :=
  existsb (fun b => (Booking.tutor_id b =? Booking.tutor_id row)
                    && (Booking.start_time b =? Booking.start_time row))
    (bookings db).

(** The autoincremented primary key. *)
Definition next_booking_id (db : Store) : Z :=
  1 + fold_left Z.max (List.map Booking.id (bookings db)) 0.

Definition with_booking_id (id : Z) (b : Booking.t) : Booking.t :=
  Booking.mk id (Booking.tutor_id b) (Booking.subject_id b)
    (Booking.student_name b) (Booking.student_phone b)
    (Booking.start_time b) (Booking.end_time b) (Booking.created_at b)
    (Booking.is_canceled b) (Booking.canceled_at b) (Booking.cancel_reason b).

Definition with_bookings (db : Store) (rows : list Booking.t) : Store :=
  mkStore (subjects db) (tutors db) (tutor_subjects db)
    (weekly_availability db) (tutor_exceptions db) rows.

(** [db.session.add(booking); db.session.commit()]: the row is stored, with
    its key, or nothing is. *)
Definition commit_new_booking (env : Env) (db : Store) (row : Booking.t)
    : CommitError + (Store * Booking.t) :=
  if storage_fault env then inl OperationalError
  else if violates_uq_tutor_booking_start db row then inl IntegrityError
  else
    let stored := with_booking_id (next_booking_id db) row in
    inr (with_bookings db (bookings db ++ [stored]), stored).

(* ===================================================================== *)
(** ** [book] ([app/student_routes.py]) *)
(* ===================================================================== *)

Record BookForm := mkBookForm {
  form_student_name : string;
  form_student_phone : string;
  form_subject_id : string;
  form_date : string;
  form_start_time : string
}.

Definition capacity_message : string :=
  "Sorry, that time was just booked. Please choose another slot.".
Definition commit_failed_message : string :=
  "Unable to confirm booking. Please try another time slot.".

(** What [book] has in hand once its input is validated. *)
Record BookRequest := mkBookRequest {
  req_name : string;
  req_phone : string;
  req_subject_id : Z;
  req_subject : Subject.t;
  req_start_dt : Z;
  req_end_dt : Z
}.

(** [book], first part: reading and validating the form, the booking window,
    and the interval asked for. Each failure flashes its message and renders
    the booking page again. Two exceptions are not caught and end the
    request with status 500: the one of the driver on a subject id that
    does not fit in 64 bits, and the one of an interval whose end is no
    datetime. *)
Definition book_validate `{PyLib} (env : Env) (form_values : BookForm) (db : Store)
    : Response + BookRequest :=
  let name := py_strip (form_student_name form_values) in
  let phone := _normalize_phone (form_student_phone form_values) in
  let subject_id_raw := form_subject_id form_values in
  let date_str := form_date form_values in
  let start_time_str := form_start_time form_values in
  if negb (str_bool name && str_bool phone && str_bool subject_id_raw
           && str_bool date_str && str_bool start_time_str)
  then inl (RenderBookingPage "Please complete all booking details." "danger")
  else
    match py_int subject_id_raw with
    | None => inl (RenderBookingPage "Invalid subject selection." "danger")
    | Some subject_id =>
        if negb (sqlite_integer subject_id) then inl Abort500
        else
        match List.find (fun s => Subject.id s =? subject_id) (subjects db) with
        | None =>
            inl (RenderBookingPage "Selected subject no longer exists." "danger")
        | Some subject =>
            match strptime_date date_str, strptime_time start_time_str with
            | Some target_date, Some start_time =>
                let '(allowed, window_message, _) :=
                  _booking_window_status env target_date in
                if negb allowed
                then inl (RenderBookingPage window_message "warning")
                else
                  let start_dt := combine target_date start_time in
                  match timedelta (_slot_minutes env) with
                  | Raises _ => inl Abort500
                  | Returns delta =>
                      match datetime_add start_dt delta with
                      | Raises _ => inl Abort500
                      | Returns end_dt =>
                          inr (mkBookRequest name phone subject_id subject
                                 start_dt end_dt)
                      end
                  end
            | _, _ =>
                inl (RenderBookingPage "Invalid date or time value." "danger")
            end
        end
    end.

(** [book], second part: the eligible tutors are derived afresh, one is
    selected, and the [Booking] object is built. The result is the response
    of an early return, or the row to insert with its tutor and subject. *)
Definition book_prepare `{PyLib} (env : Env) (form_values : BookForm) (db : Store)
    : Response + (Booking.t * Tutor.t * Subject.t) :=
  match book_validate env form_values db with
  | inl response => inl response
  | inr request =>
      let candidates :=
        available_tutors_for_slot db (req_subject_id request)
          (req_start_dt request) (req_end_dt request) in
      match pick_fair_tutor db (random_index env) candidates with
      | None => inl (RenderBookingPage capacity_message "warning")
      | Some tutor =>
          let booking :=
            Booking.mk 0 (Tutor.id tutor) (Some (Subject.id (req_subject request)))
              (req_name request) (req_phone request)
              (req_start_dt request) (req_end_dt request) (utcnow env)
              false None None in
          inr (booking, tutor, req_subject request)
      end
  end.

(** [book], last part: the prepared row is committed; any exception of the commit is
    caught by the single [except Exception] clause. The notifier called
    after a successful commit does not touch the store and is left out. *)
Definition book `{PyLib} (env : Env) (form_values : BookForm) (db : Store)
    : Response * Store :=
  match book_prepare env form_values db with
  | inl response => (response, db)
  | inr (booking, tutor, subject) =>
      match commit_new_booking env db booking with
      | inl _ => (RenderBookingPage commit_failed_message "danger", db)
      | inr (db', stored) => (RenderConfirmation stored tutor subject, db')
      end
  end.

(* ===================================================================== *)
(** ** [cancel_booking] ([app/tutor_routes.py]) *)
(* ===================================================================== *)

(** [get_current_tutor]; the session holds the tutor id, if any. *)
Definition get_current_tutor (session_tutor_id : option Z) (db : Store)
    : option Tutor.t :=
  match session_tutor_id with
  | None => None
  | Some tutor_id =>
      if tutor_id =? 0 then None
      else List.find (fun t => Tutor.id t =? tutor_id) (tutors db)
  end.

(** The three assignments of [cancel_booking]. *)
Definition mark_canceled (now : Z) (reason : option string) (b : Booking.t)
    : Booking.t :=
  Booking.mk (Booking.id b) (Booking.tutor_id b) (Booking.subject_id b)
    (Booking.student_name b) (Booking.student_phone b)
    (Booking.start_time b) (Booking.end_time b) (Booking.created_at b)
    true (Some now)
    (match reason with
     | Some reason => Some (str_prefix 255 reason)
     | None => None
     end).

(** The row with primary key [booking_id] is replaced by its update. *)
Definition update_booking (booking_id : Z) (f : Booking.t -> Booking.t)
    (rows : list Booking.t) : list Booking.t :=
  List.map (fun b => if Booking.id b =? booking_id then f b else b) rows.

Definition login_message : string := "Please log in to access the tutor portal.".

(** [cancel_booking], with the [tutor_login_required] wrapper. An exception
    of the commit is not caught: the request fails and the transaction is
    discarded. Neither is the one of the driver on a [booking_id] that does
    not fit in 64 bits: [get_or_404] then raises instead of aborting with
    404; no stored row has such a key, so this is a lookup that finds
    none. *)
Definition cancel_booking `{PyLib} (env : Env) (session_tutor_id : option Z)
    (booking_id : Z) (form_cancel_reason : string) (db : Store)
    : Response * Store :=
  match get_current_tutor session_tutor_id db with
  | None => (Redirect "tutor.login" login_message "warning", db)
  | Some tutor =>
      match List.find (fun b => Booking.id b =? booking_id) (bookings db) with
      | None => (if sqlite_integer booking_id then Abort404 else Abort500, db)
      | Some booking =>
          if negb (Booking.tutor_id booking =? Tutor.id tutor)
          then (Redirect "tutor.dashboard"
                  "You cannot modify another tutor's booking." "danger", db)
          else if Booking.is_canceled booking
          then (Redirect "tutor.dashboard"
                  "That booking is already canceled." "info", db)
          else
            let stripped := py_strip form_cancel_reason in
            let reason := if str_bool stripped then Some stripped else None in
            if storage_fault env then (Abort500, db)
            else
              (Redirect "tutor.dashboard"
                 "Booking canceled. Please notify the student if possible." "info",
               with_bookings db
                 (update_booking booking_id
                    (mark_canceled (utcnow env) reason) (bookings db)))
      end
  end.

(* ===================================================================== *)
(** ** Sequences of core operations *)
(* ===================================================================== *)

Inductive Op :=
| OpBook (env : Env) (form_values : BookForm)
| OpCancel (env : Env) (session_tutor_id : option Z) (booking_id : Z)
    (form_cancel_reason : string).

Definition step `{PyLib} (db : Store) (op : Op) : Store :=
  match op with
  | OpBook env form_values => snd (book env form_values db)
  | OpCancel env session_tutor_id booking_id reason =>
      snd (cancel_booking env session_tutor_id booking_id reason db)
  end.

Definition run `{PyLib} (ops : list Op) (db : Store) : Store :=
  fold_left step ops db.

(** Two bookings of one tutor, both not canceled, whose intervals meet: the
    test [is_available_for_slot] applies. *)
Definition conflicting (b1 b2 : Booking.t) : Prop :=
  Booking.tutor_id b1 = Booking.tutor_id b2
  /\ Booking.is_canceled b1 = false
  /\ Booking.is_canceled b2 = false
  /\ Booking.start_time b1 < Booking.end_time b2
  /\ Booking.start_time b2 < Booking.end_time b1.

(** The invariant: no two entries of the bookings table conflict. *)
Definition no_double_booking (db : Store) : Prop :=
  forall (i j : nat) (b1 b2 : Booking.t),
    i <> j ->
    bookings db !! i = Some b1 ->
    bookings db !! j = Some b2 ->
    ~ conflicting b1 b2.

(* ===================================================================== *)
(** ** [group_subjects] ([app/utils/subjects.py]) *)
(* ===================================================================== *)

(** Truth value of a list: empty lists are false. *)
Definition list_bool {A : Type} (l : list A) : bool :=
  match l with
  | [] => false
  | _ :: _ => true
  end.

(** [current_category or ''] *)
Definition or_empty_string (current_category : option string) : string :=
  match current_category with
  | Some category => if str_bool category then category else ""%string
  | None => ""%string
  end.

(** [subject.category != current_category]; the initial [None] differs from
    every string. *)
Definition category_differs (category : string) (current_category : option string)
    : bool :=
  match current_category with
  | Some current => negb (String.eqb category current)
  | None => true
  end.

(** [if bucket: grouped.append((current_category or '', bucket))] *)
Definition append_bucket (grouped : list (string * list Subject.t))
    (current_category : option string) (bucket : list Subject.t)
    : list (string * list Subject.t) :=
  if list_bool bucket
  then grouped ++ [(or_empty_string current_category, bucket)]
  else grouped.

(** Body of the loop of [group_subjects] on the state
    [(grouped, current_category, bucket)]. *)
Definition group_subjects_step
    (state : list (string * list Subject.t) * option string * list Subject.t)
    (subject : Subject.t)
    : list (string * list Subject.t) * option string * list Subject.t :=
  let '(grouped, current_category, bucket) := state in
  if category_differs (Subject.category subject) current_category
  then (append_bucket grouped current_category bucket,
        Some (Subject.category subject), [subject])
  else (grouped, current_category, bucket ++ [subject]).

(** [group_subjects] *)
Definition group_subjects (subjects : list Subject.t)
    : list (string * list Subject.t) :=
  let '(grouped, current_category, bucket) :=
    fold_left group_subjects_step subjects ([], None, []) in
  append_bucket grouped current_category bucket.

(** Neighbours in the list are different. *)
Fixpoint adjacent_distinct (labels : list string) : Prop :=
  match labels with
  | a :: (b :: _) as rest => a <> b /\ adjacent_distinct rest
  | _ => True
  end.

(** What holds of the loop state after the subjects [done] are processed. *)
Definition group_subjects_invariant (done : list Subject.t)
    (state : list (string * list Subject.t) * option string * list Subject.t)
    : Prop :=
  let '(grouped, current_category, bucket) := state in
  concat (List.map snd grouped) ++ bucket = done
  /\ Forall (fun g => g.2 <> []
                      /\ Forall (fun s => Subject.category s = g.1) g.2) grouped
  /\ adjacent_distinct (List.map fst grouped)
  /\ match bucket with
     | [] => grouped = [] /\ current_category = None
     | _ :: _ =>
         exists category : string,
           current_category = Some category
           /\ Forall (fun s => Subject.category s = category) bucket
           /\ forall y : string, last (List.map fst grouped) = Some y -> y <> category
     end.

(* ===================================================================== *)
(** ** Phone numbers *)
(* ===================================================================== *)

(** Every character of the string satisfies [p]. *)
Fixpoint str_forall (p : ascii -> bool) (s : string) : bool :=
  match s with
  | EmptyString => true
  | String ch rest => p ch && str_forall p rest
  end.

(** [_format_phone_display] of [app/student_routes.py] and
    [app/admin_routes.py]: [digits[:3]-digits[3:6]-digits[6:]] for ten
    characters. *)
Definition _format_phone_display (digits : string) : string :=
  if (String.length digits =? 10)%nat
  then (substring 0 3 digits ++ "-" ++ substring 3 3 digits ++ "-"
        ++ substring 6 (String.length digits - 6) digits)%string
  else digits.


(* ===================================================================== *)
(** ** Constraints of the bookings table *)
(* ===================================================================== *)

(** The primary key: no two rows share an id. *)
Definition unique_booking_ids (db : Store) : Prop :=
  NoDup (List.map Booking.id (bookings db)).

(** [uq_tutor_booking_start]: no two rows share tutor and start time. *)
Definition unique_booking_keys (db : Store) : Prop :=
  NoDup (List.map (fun b => (Booking.tutor_id b, Booking.start_time b))
           (bookings db)).

(** The test one row contributes to [booking_hit]. *)
Definition row_hits (t : Tutor.t) (s e : Z) (b : Booking.t) : bool :=
  (Booking.tutor_id b =? Tutor.id t)
  && negb (Booking.is_canceled b)
  && (Booking.start_time b <? e) && (Booking.end_time b >? s).

(** Every tutor listed under a key of the mapping is one that
    [available_tutors_for_slot] returns for the slot starting at that key. *)
Definition listed_tutors_available (slot_minutes : Z) (db : Store)
    (subject_id : Z) (slots : gmap Z (list Tutor.t)) : Prop :=
  forall (k : Z) (tutors : list Tutor.t) (t : Tutor.t),
    slots !! k = Some tutors ->
    In t tutors ->
    In t (available_tutors_for_slot db subject_id k
            (k + timedelta_minutes slot_minutes)).

(* ===================================================================== *)
(** ** The tutor portal ([app/tutor_routes.py]) *)
(* ===================================================================== *)

(** What the routes of the tutor and admin portals answer. *)
Inductive Reply :=
| ReplyRedirect (endpoint message category : string)
    (* flash(message, category); redirect(url_for(endpoint)) *)
| ReplyTemplate (template message category : string)
    (* flash(message, category); render_template(template) *)
| ReplyAbort (status : Z).

(** [generate_password_hash] of werkzeug; the salt it draws is left out. *)
Class PyHash := {
  generate_password_hash : string -> string
}.

(** Truth value of an optional form field: a missing field is [None]. *)
Definition opt_str_bool (field : option string) : bool :=
  match field with
  | Some s => str_bool s
  | None => false
  end.

(** A library call on an optional field: [None] raises [TypeError]. *)
Definition on_field {A : Type} (parse : string -> option A) (field : option string)
    : option A :=
  match field with
  | Some s => parse s
  | None => None
  end.

(** [sid.isdigit()] on a string: not empty and digits only. *)
Definition str_isdigit `{PyLib} (s : string) : bool :=
  str_bool s && str_forall py_isdigit s.

(** [[int(sid) for sid in values if sid.isdigit()]]; [None] stands for the
    [ValueError] of [int]. *)
Fixpoint selected_ids `{PyLib} (values : list string) : option (list Z) :=
  match values with
  | [] => Some []
  | sid :: rest =>
      if str_isdigit sid then
        match py_int sid with
        | None => None
        | Some n =>
            match selected_ids rest with
            | None => None
            | Some ids => Some (n :: ids)
            end
        end
      else selected_ids rest
  end.

(** [Subject.query.filter(Subject.id.in_(ids)).all()], for ids that the
    driver accepts. *)
Definition subjects_in (db : Store) (ids : list Z) : list Subject.t :=
  List.filter (fun s => existsb (fun n => n =? Subject.id s) ids) (subjects db).

(** The ids of that query are all accepted by the driver. *)
Definition sqlite_integers (ids : list Z) : bool := forallb sqlite_integer ids.

(** The autoincremented primary key after the given ones. *)
Definition next_id (ids : list Z) : Z := 1 + fold_left Z.max ids 0.

(** The first row that satisfies [p] is replaced by its image under [f]. *)
Fixpoint update_first {A : Type} (p : A -> bool) (f : A -> A) (rows : list A)
    : list A :=
  match rows with
  | [] => []
  | r :: rest => if p r then f r :: rest else r :: update_first p f rest
  end.

(** The first row that satisfies [p] is removed. *)
Fixpoint remove_first {A : Type} (p : A -> bool) (rows : list A) : list A :=
  match rows with
  | [] => []
  | r :: rest => if p r then rest else r :: remove_first p rest
  end.

Definition with_weekly_availability (db : Store)
    (rows : list WeeklyAvailability.t) : Store :=
  mkStore (subjects db) (tutors db) (tutor_subjects db) rows
    (tutor_exceptions db) (bookings db).

Definition with_tutor_exceptions (db : Store) (rows : list TutorException.t)
    : Store :=
  mkStore (subjects db) (tutors db) (tutor_subjects db)
    (weekly_availability db) rows (bookings db).

Definition with_tutor_subjects (db : Store) (rows : list TutorSubject.t) : Store :=
  mkStore (subjects db) (tutors db) rows
    (weekly_availability db) (tutor_exceptions db) (bookings db).

Definition with_tutors (db : Store) (rows : list Tutor.t) : Store :=
  mkStore (subjects db) rows (tutor_subjects db)
    (weekly_availability db) (tutor_exceptions db) (bookings db).

(** The test of [tutor_login_required]: [session.get('tutor_id')] is truthy. *)
Definition tutor_logged_in (session_tutor_id : option Z) : bool :=
  match session_tutor_id with
  | Some tutor_id => negb (tutor_id =? 0)
  | None => false
  end.

Definition login_redirect : Reply :=
  ReplyRedirect "tutor.login" login_message "warning".

(** [add_availability]. A session whose tutor is gone fails on [tutor.id];
    an exception of the commit is not caught, the one of the driver on a day
    that does not fit in 64 bits included. *)
Definition add_availability `{PyLib} (env : Env) (session_tutor_id : option Z)
    (day start end_ : option string) (db : Store) : Reply * Store :=
  if negb (tutor_logged_in session_tutor_id) then (login_redirect, db)
  else
    let tutor := get_current_tutor session_tutor_id db in
    match on_field py_int day, on_field strptime_time start,
          on_field strptime_time end_ with
    | Some day_idx, Some start_time, Some end_time =>
        if end_time <=? start_time
        then (ReplyRedirect "tutor.dashboard"
                "End time must be after start time." "danger", db)
        else
          match tutor with
          | None => (ReplyAbort 500, db)
          | Some tutor =>
              let availability :=
                WeeklyAvailability.mk
                  (next_id (List.map WeeklyAvailability.id (weekly_availability db)))
                  (Tutor.id tutor) day_idx start_time end_time in
              if storage_fault env || negb (sqlite_integer day_idx)
              then (ReplyAbort 500, db)
              else (ReplyRedirect "tutor.dashboard" "Availability added." "success",
                    with_weekly_availability db
                      (weekly_availability db ++ [availability]))
          end
    | _, _, _ =>
        (ReplyRedirect "tutor.dashboard" "Invalid availability input." "danger", db)
    end.

(** [get_or_404] on a key that finds no row: status 404, or the uncaught
    exception of the driver when the key does not fit in 64 bits. No stored
    row has such a key. *)
Definition not_found (key : Z) : Reply :=
  ReplyAbort (if sqlite_integer key then 404 else 500).

(** [delete_availability] *)
Definition delete_availability (env : Env) (session_tutor_id : option Z)
    (availability_id : Z) (db : Store) : Reply * Store :=
  if negb (tutor_logged_in session_tutor_id) then (login_redirect, db)
  else
    match List.find (fun a => WeeklyAvailability.id a =? availability_id)
            (weekly_availability db) with
    | None => (not_found availability_id, db)
    | Some availability =>
        match get_current_tutor session_tutor_id db with
        | None => (ReplyAbort 500, db)
        | Some tutor =>
            if negb (WeeklyAvailability.tutor_id availability =? Tutor.id tutor)
            then (ReplyRedirect "tutor.dashboard"
                    "You cannot modify another tutor's availability." "danger", db)
            else if storage_fault env then (ReplyAbort 500, db)
            else (ReplyRedirect "tutor.dashboard" "Availability removed." "info",
                  with_weekly_availability db
                    (remove_first
                       (fun a => WeeklyAvailability.id a =? availability_id)
                       (weekly_availability db)))
        end
    end.

(** [dt.time.min] and [dt.time.max] *)
Definition time_min : Z := 0.
Definition time_max : Z := US_PER_DAY - 1.

(** [UniqueConstraint('tutor_id', 'date', 'start_time', 'end_time')]: as the
    store has it, a missing time never equals another. *)
Definition violates_uq_tutor_date_exception (db : Store) (row : TutorException.t)
    : bool :=
  existsb
    (fun x =>
       (TutorException.tutor_id x =? TutorException.tutor_id row)
       && (TutorException.date x =? TutorException.date row)
       && match TutorException.start_time x, TutorException.start_time row with
          | Some a, Some b => a =? b
          | _, _ => false
          end
       && match TutorException.end_time x, TutorException.end_time row with
          | Some a, Some b => a =? b
          | _, _ => false
          end)
    (tutor_exceptions db).

Definition already_marked_message : string :=
  "You already marked that time as unavailable.".

(** The time bounds [add_exception] reads from the form: a reply when they
    are refused, the two optional times otherwise. *)
Definition blackout_times `{PyLib} (start_str end_str : option string)
    : Reply + (option Z * option Z) :=
  if opt_str_bool start_str || opt_str_bool end_str then
    if negb (opt_str_bool start_str) || negb (opt_str_bool end_str)
    then inl (ReplyRedirect "tutor.dashboard"
                "Please provide both start and end time for a partial blackout."
                "danger")
    else
      match on_field strptime_time start_str, on_field strptime_time end_str with
      | Some start_time, Some end_time =>
          if end_time <=? start_time
          then inl (ReplyRedirect "tutor.dashboard"
                      "Blackout end time must be after the start time." "danger")
          else inr (Some start_time, Some end_time)
      | _, _ =>
          inl (ReplyRedirect "tutor.dashboard"
                 "Invalid time for blackout period." "danger")
      end
  else inr (None, None).

(** [add_exception]; every exception of the commit is caught and reported as
    a duplicate. *)
Definition add_exception `{PyLib} (env : Env) (session_tutor_id : option Z)
    (date_str start_str end_str : option string) (form_note : string)
    (db : Store) : Reply * Store :=
  if negb (tutor_logged_in session_tutor_id) then (login_redirect, db)
  else
    let tutor := get_current_tutor session_tutor_id db in
    let stripped := py_strip form_note in
    let note := if str_bool stripped then Some stripped else None in
    match on_field strptime_date date_str with
    | None =>
        (ReplyRedirect "tutor.dashboard" "Invalid date for unavailability." "danger",
         db)
    | Some date_obj =>
        match blackout_times start_str end_str with
        | inl reply => (reply, db)
        | inr (start_time, end_time) =>
            let provisional_start :=
              combine date_obj (default time_min start_time) in
            let provisional_end :=
              combine date_obj (default time_max end_time) in
            match tutor with
            | None => (ReplyAbort 500, db)
            | Some tutor =>
                if existsb
                     (fun existing =>
                        overlaps existing provisional_start provisional_end)
                     (exceptions_of db tutor)
                then (ReplyRedirect "tutor.dashboard"
                        "That blackout overlaps with an existing one." "warning", db)
                else
                  let exception :=
                    TutorException.mk
                      (next_id (List.map TutorException.id (tutor_exceptions db)))
                      (Tutor.id tutor) date_obj start_time end_time note in
                  if storage_fault env
                     || violates_uq_tutor_date_exception db exception
                  then (ReplyRedirect "tutor.dashboard"
                          already_marked_message "warning", db)
                  else (ReplyRedirect "tutor.dashboard"
                          "Unavailability added." "success",
                        with_tutor_exceptions db
                          (tutor_exceptions db ++ [exception]))
            end
        end
    end.

(** [delete_exception] *)
Definition delete_exception (env : Env) (session_tutor_id : option Z)
    (exception_id : Z) (db : Store) : Reply * Store :=
  if negb (tutor_logged_in session_tutor_id) then (login_redirect, db)
  else
    match List.find (fun x => TutorException.id x =? exception_id)
            (tutor_exceptions db) with
    | None => (not_found exception_id, db)
    | Some exception =>
        match get_current_tutor session_tutor_id db with
        | None => (ReplyAbort 500, db)
        | Some tutor =>
            if negb (TutorException.tutor_id exception =? Tutor.id tutor)
            then (ReplyRedirect "tutor.dashboard"
                    "You cannot modify another tutor's exception." "danger", db)
            else if storage_fault env then (ReplyAbort 500, db)
            else (ReplyRedirect "tutor.dashboard" "Exception removed." "info",
                  with_tutor_exceptions db
                    (remove_first (fun x => TutorException.id x =? exception_id)
                       (tutor_exceptions db)))
        end
    end.

(** The association rows after [tutor.subjects = chosen]: the rows of other
    tutors and the tutor's rows for chosen subjects stay, the tutor's other
    rows go, and a row is added for each chosen subject that had none. *)
Definition teaches (rows : list TutorSubject.t) (tutor_id subject_id : Z) : bool :=
  existsb (fun ts => (TutorSubject.tutor_id ts =? tutor_id)
                     && (TutorSubject.subject_id ts =? subject_id)) rows.

Fixpoint add_associations (rows : list TutorSubject.t) (tutor_id : Z)
    (chosen : list Subject.t) : list TutorSubject.t :=
  match chosen with
  | [] => rows
  | s :: rest =>
      if teaches rows tutor_id (Subject.id s)
      then add_associations rows tutor_id rest
      else add_associations
             (rows ++ [TutorSubject.mk (next_id (List.map TutorSubject.id rows))
                         tutor_id (Subject.id s)])
             tutor_id rest
  end.

Definition set_subjects (db : Store) (tutor_id : Z) (chosen : list Subject.t)
    : list TutorSubject.t :=
  let kept :=
    List.filter
      (fun ts => negb (TutorSubject.tutor_id ts =? tutor_id)
                 || existsb (fun s => Subject.id s =? TutorSubject.subject_id ts)
                      chosen)
      (tutor_subjects db) in
  add_associations kept tutor_id chosen.

(** [update_subjects]; the query of the subjects raises on an id that does
    not fit in 64 bits. *)
Definition update_subjects `{PyLib} (env : Env) (session_tutor_id : option Z)
    (form_subjects : list string) (db : Store) : Reply * Store :=
  if negb (tutor_logged_in session_tutor_id) then (login_redirect, db)
  else
    let tutor := get_current_tutor session_tutor_id db in
    match selected_ids form_subjects with
    | None => (ReplyAbort 500, db)
    | Some selected_subject_ids =>
        if negb (sqlite_integers selected_subject_ids) then (ReplyAbort 500, db)
        else
        match tutor with
        | None => (ReplyAbort 500, db)
        | Some tutor =>
            if storage_fault env then (ReplyAbort 500, db)
            else (ReplyRedirect "tutor.dashboard" "Subjects updated." "success",
                  with_tutor_subjects db
                    (set_subjects db (Tutor.id tutor)
                       (subjects_in db selected_subject_ids)))
        end
    end.

(** [signup], for a POST request; the result carries the tutor id the
    session holds afterwards. The new tutor gets an association row for each
    chosen subject. *)
Definition signup `{PyLib} `{PyHash} (env : Env) (session_tutor_id : option Z)
    (form_name form_phone form_pin : string) (form_subjects : list string)
    (db : Store) : Reply * option Z * Store :=
  let name := py_strip form_name in
  let phone := _normalize_phone form_phone in
  let pin := py_strip form_pin in
  if negb (str_bool name) || negb (str_bool phone) || negb (str_bool pin)
  then (ReplyTemplate "tutor/signup.html" "All fields are required." "danger",
        session_tutor_id, db)
  else if (String.length pin <? 4)%nat
  then (ReplyTemplate "tutor/signup.html"
          "PIN must be at least 4 characters." "danger", session_tutor_id, db)
  else if existsb (fun t => String.eqb (Tutor.phone t) phone) (tutors db)
  then (ReplyRedirect "tutor.login"
          "A tutor with that phone number already exists. Please log in instead."
          "danger", session_tutor_id, db)
  else
    let tutor :=
      Tutor.mk (next_id (List.map Tutor.id (tutors db))) name phone
        (generate_password_hash pin) (utcnow env) true in
    match selected_ids form_subjects with
    | None => (ReplyAbort 500, session_tutor_id, db)
    | Some selected_subject_ids =>
        if negb (sqlite_integers selected_subject_ids)
        then (ReplyAbort 500, session_tutor_id, db)
        else
        let chosen :=
          if list_bool selected_subject_ids
          then subjects_in db selected_subject_ids else [] in
        if storage_fault env then (ReplyAbort 500, session_tutor_id, db)
        else
          let db1 := with_tutors db (tutors db ++ [tutor]) in
          (ReplyRedirect "tutor.dashboard"
             "Welcome! You can now set up your availability." "success",
           Some (Tutor.id tutor),
           with_tutor_subjects db1
             (add_associations (tutor_subjects db) (Tutor.id tutor) chosen))
    end.

(* ===================================================================== *)
(** ** The admin portal ([app/admin_routes.py]) *)
(* ===================================================================== *)

Definition admin_login_redirect : Reply :=
  ReplyRedirect "admin.admin_login" "Please sign in as an administrator." "warning".

(** [add_tutor] *)
Definition add_tutor `{PyLib} `{PyHash} (env : Env) (admin_authenticated : bool)
    (form_name form_phone form_pin : string) (form_subjects : list string)
    (db : Store) : Reply * Store :=
  if negb admin_authenticated then (admin_login_redirect, db)
  else
    let name := py_strip form_name in
    let phone := _normalize_phone form_phone in
    let pin := py_strip form_pin in
    match selected_ids form_subjects with
    | None => (ReplyAbort 500, db)
    | Some subject_ids =>
        if negb (str_bool name && str_bool phone && str_bool pin)
        then (ReplyRedirect "admin.dashboard"
                "Name, phone, and PIN are required." "danger", db)
        else if (String.length pin <? 4)%nat
        then (ReplyRedirect "admin.dashboard"
                "PIN must be at least 4 characters." "danger", db)
        else if existsb (fun t => String.eqb (Tutor.phone t) phone) (tutors db)
        then (ReplyRedirect "admin.dashboard"
                "A tutor with that phone number already exists." "warning", db)
        else
          let tutor :=
            Tutor.mk (next_id (List.map Tutor.id (tutors db))) name phone
              (generate_password_hash pin) (utcnow env) true in
          if negb (sqlite_integers subject_ids) then (ReplyAbort 500, db)
          else
          let chosen :=
            if list_bool subject_ids then subjects_in db subject_ids else [] in
          if storage_fault env then (ReplyAbort 500, db)
          else
            let db1 := with_tutors db (tutors db ++ [tutor]) in
            (ReplyRedirect "admin.dashboard" "Tutor added successfully." "success",
             with_tutor_subjects db1
               (add_associations (tutor_subjects db) (Tutor.id tutor) chosen))
    end.

Definition toggle_active (t : Tutor.t) : Tutor.t :=
  Tutor.mk (Tutor.id t) (Tutor.name t) (Tutor.phone t) (Tutor.pin_hash t)
    (Tutor.created_at t) (negb (Tutor.is_active t)).

(** [toggle_tutor_active] *)
Definition toggle_tutor_active (env : Env) (admin_authenticated : bool)
    (tutor_id : Z) (db : Store) : Reply * Store :=
  if negb admin_authenticated then (admin_login_redirect, db)
  else
    match List.find (fun t => Tutor.id t =? tutor_id) (tutors db) with
    | None => (not_found tutor_id, db)
    | Some tutor =>
        if storage_fault env then (ReplyAbort 500, db)
        else
          let status :=
            if negb (Tutor.is_active tutor) then "activated"%string
            else "deactivated"%string in
          (ReplyRedirect "admin.dashboard" ("Tutor " ++ status ++ ".") "info",
           with_tutors db
             (update_first (fun t => Tutor.id t =? tutor_id) toggle_active
                (tutors db)))
    end.

(** [delete_tutor]: refused while the tutor has bookings, canceled ones
    included; otherwise the tutor goes with its availability blocks, its
    exceptions and its subject associations. *)
Definition delete_tutor (env : Env) (admin_authenticated : bool)
    (tutor_id : Z) (db : Store) : Reply * Store :=
  if negb admin_authenticated then (admin_login_redirect, db)
  else
    match List.find (fun t => Tutor.id t =? tutor_id) (tutors db) with
    | None => (not_found tutor_id, db)
    | Some tutor =>
        if list_bool (bookings_of db tutor)
        then (ReplyRedirect "admin.dashboard"
                "Cannot delete tutor with existing bookings. Deactivate instead."
                "warning", db)
        else if storage_fault env then (ReplyAbort 500, db)
        else
          (ReplyRedirect "admin.dashboard" "Tutor removed." "info",
           mkStore (subjects db)
             (remove_first (fun t => Tutor.id t =? tutor_id) (tutors db))
             (List.filter (fun ts => negb (TutorSubject.tutor_id ts =? tutor_id))
                (tutor_subjects db))
             (List.filter (fun a => negb (WeeklyAvailability.tutor_id a =? tutor_id))
                (weekly_availability db))
             (List.filter (fun x => negb (TutorException.tutor_id x =? tutor_id))
                (tutor_exceptions db))
             (bookings db))
    end.

(* ===================================================================== *)
(** ** Requests to the application *)
(* ===================================================================== *)

Inductive Request :=
| ReqBook (env : Env) (form_values : BookForm)
| ReqCancelBooking (env : Env) (session_tutor_id : option Z) (booking_id : Z)
    (form_cancel_reason : string)
| ReqAddAvailability (env : Env) (session_tutor_id : option Z)
    (day start end_ : option string)
| ReqDeleteAvailability (env : Env) (session_tutor_id : option Z)
    (availability_id : Z)
| ReqAddException (env : Env) (session_tutor_id : option Z)
    (date_str start_str end_str : option string) (form_note : string)
| ReqDeleteException (env : Env) (session_tutor_id : option Z) (exception_id : Z)
| ReqUpdateSubjects (env : Env) (session_tutor_id : option Z)
    (form_subjects : list string)
| ReqSignup (env : Env) (session_tutor_id : option Z)
    (form_name form_phone form_pin : string) (form_subjects : list string)
| ReqAddTutor (env : Env) (admin_authenticated : bool)
    (form_name form_phone form_pin : string) (form_subjects : list string)
| ReqToggleTutorActive (env : Env) (admin_authenticated : bool) (tutor_id : Z)
| ReqDeleteTutor (env : Env) (admin_authenticated : bool) (tutor_id : Z).

(** The store after a request. *)
Definition handle `{PyLib} `{PyHash} (db : Store) (request : Request) : Store :=
  match request with
  | ReqBook env form_values => (book env form_values db).2
  | ReqCancelBooking env session booking_id reason =>
      (cancel_booking env session booking_id reason db).2
  | ReqAddAvailability env session day start end_ =>
      (add_availability env session day start end_ db).2
  | ReqDeleteAvailability env session availability_id =>
      (delete_availability env session availability_id db).2
  | ReqAddException env session date_str start_str end_str note =>
      (add_exception env session date_str start_str end_str note db).2
  | ReqDeleteException env session exception_id =>
      (delete_exception env session exception_id db).2
  | ReqUpdateSubjects env session form_subjects =>
      (update_subjects env session form_subjects db).2
  | ReqSignup env session name phone pin form_subjects =>
      (signup env session name phone pin form_subjects db).2
  | ReqAddTutor env admin name phone pin form_subjects =>
      (add_tutor env admin name phone pin form_subjects db).2
  | ReqToggleTutorActive env admin tutor_id =>
      (toggle_tutor_active env admin tutor_id db).2
  | ReqDeleteTutor env admin tutor_id => (delete_tutor env admin tutor_id db).2
  end.

(** The store after a sequence of requests, served one after the other. *)
Definition serve `{PyLib} `{PyHash} (requests : list Request) (db : Store) : Store :=
  fold_left handle requests db.

(** Some row of the tutors table has the id [k]. *)
Definition has_tutor (db : Store) (k : Z) : Prop :=
  exists t : Tutor.t, In t (tutors db) /\ Tutor.id t = k.

(** Every foreign key of the store points to a row. *)
Definition references_resolve (db : Store) : Prop :=
  (forall a, In a (weekly_availability db) ->
             has_tutor db (WeeklyAvailability.tutor_id a))
  /\ (forall x, In x (tutor_exceptions db) ->
                has_tutor db (TutorException.tutor_id x))
  /\ (forall b, In b (bookings db) -> has_tutor db (Booking.tutor_id b))
  /\ (forall ts, In ts (tutor_subjects db) ->
                 has_tutor db (TutorSubject.tutor_id ts)
                 /\ exists s : Subject.t,
                      In s (subjects db)
                      /\ Subject.id s = TutorSubject.subject_id ts).

(** The constraints of the tutors table: ids and phones are unique. *)
Definition unique_tutors (db : Store) : Prop :=
  NoDup (List.map Tutor.id (tutors db))
  /\ NoDup (List.map Tutor.phone (tutors db)).

(** Every availability block ends after it starts. *)
Definition blocks_well_formed (db : Store) : Prop :=
  forall a, In a (weekly_availability db) ->
            WeeklyAvailability.start_time a < WeeklyAvailability.end_time a.

(** An exception has both time bounds or none, and the bounds of a partial
    one are times of day in increasing order. *)
Definition exception_well_shaped (x : TutorException.t) : Prop :=
  match TutorException.start_time x, TutorException.end_time x with
  | None, None => True
  | Some a, Some b => valid_time a /\ valid_time b /\ a < b
  | _, _ => False
  end.

(** Two exceptions of one tutor on one date whose times meet; a full-day
    exception meets every other. *)
Definition exceptions_clash (x y : TutorException.t) : Prop :=
  TutorException.tutor_id x = TutorException.tutor_id y
  /\ TutorException.date x = TutorException.date y
  /\ match TutorException.start_time x, TutorException.end_time x,
           TutorException.start_time y, TutorException.end_time y with
     | Some xa, Some xb, Some ya, Some yb => xa < yb /\ ya < xb
     | _, _, _, _ => True
     end.

(** No element of the list is related to a later one. *)
Fixpoint all_apart {A : Type} (R : A -> A -> Prop) (l : list A) : Prop :=
  match l with
  | [] => True
  | x :: rest => (forall y, In y rest -> ~ R x y) /\ all_apart R rest
  end.

(** The exceptions are well shaped and no two of them clash. *)
Definition blackouts_consistent (db : Store) : Prop :=
  (forall x, In x (tutor_exceptions db) -> exception_well_shaped x)
  /\ all_apart exceptions_clash (tutor_exceptions db).

(** [strptime(s, '%H:%M').time()] returns a time of day. *)
Definition strptime_time_valid `{PyLib} : Prop :=
  forall (s : string) (t : Z), strptime_time s = Some t -> valid_time t.

(** What a request can do to the store. *)
Inductive store_effect `{PyLib} (db : Store) : Store -> Prop :=
| effect_none : store_effect db db
| effect_book (stored : Booking.t) :
    has_tutor db (Booking.tutor_id stored) ->
    ~ In (Booking.id stored) (List.map Booking.id (bookings db)) ->
    ~ In (Booking.tutor_id stored, Booking.start_time stored)
        (List.map (fun b => (Booking.tutor_id b, Booking.start_time b))
           (bookings db)) ->
    (forall b, In b (bookings db) -> ~ conflicting b stored) ->
    store_effect db (with_bookings db (bookings db ++ [stored]))
| effect_cancel (booking_id now : Z) (reason : option string) :
    store_effect db
      (with_bookings db
         (update_booking booking_id (mark_canceled now reason) (bookings db)))
| effect_add_block (row : WeeklyAvailability.t) :
    has_tutor db (WeeklyAvailability.tutor_id row) ->
    WeeklyAvailability.start_time row < WeeklyAvailability.end_time row ->
    store_effect db
      (with_weekly_availability db (weekly_availability db ++ [row]))
| effect_remove_block (p : WeeklyAvailability.t -> bool) :
    store_effect db
      (with_weekly_availability db (remove_first p (weekly_availability db)))
| effect_add_exception (row : TutorException.t) :
    has_tutor db (TutorException.tutor_id row) ->
    match TutorException.start_time row, TutorException.end_time row with
    | None, None => True
    | Some a, Some b =>
        a < b /\ (exists s, strptime_time s = Some a)
        /\ (exists s, strptime_time s = Some b)
    | _, _ => False
    end ->
    (forall x, In x (tutor_exceptions db) ->
               TutorException.tutor_id x = TutorException.tutor_id row ->
               overlaps x
                 (combine (TutorException.date row)
                    (default time_min (TutorException.start_time row)))
                 (combine (TutorException.date row)
                    (default time_max (TutorException.end_time row))) = false) ->
    store_effect db (with_tutor_exceptions db (tutor_exceptions db ++ [row]))
| effect_remove_exception (p : TutorException.t -> bool) :
    store_effect db
      (with_tutor_exceptions db (remove_first p (tutor_exceptions db)))
| effect_set_subjects (tutor_id : Z) (chosen : list Subject.t) :
    has_tutor db tutor_id ->
    incl chosen (subjects db) ->
    store_effect db (with_tutor_subjects db (set_subjects db tutor_id chosen))
| effect_new_tutor (tutor : Tutor.t) (chosen : list Subject.t) :
    ~ In (Tutor.id tutor) (List.map Tutor.id (tutors db)) ->
    ~ In (Tutor.phone tutor) (List.map Tutor.phone (tutors db)) ->
    incl chosen (subjects db) ->
    store_effect db
      (with_tutor_subjects (with_tutors db (tutors db ++ [tutor]))
         (add_associations (tutor_subjects db) (Tutor.id tutor) chosen))
| effect_toggle (tutor_id : Z) :
    store_effect db
      (with_tutors db
         (update_first (fun t => Tutor.id t =? tutor_id) toggle_active (tutors db)))
| effect_delete_tutor (tutor_id : Z) :
    (forall b, In b (bookings db) -> Booking.tutor_id b <> tutor_id) ->
    store_effect db
      (mkStore (subjects db)
         (remove_first (fun t => Tutor.id t =? tutor_id) (tutors db))
         (List.filter (fun ts => negb (TutorSubject.tutor_id ts =? tutor_id))
            (tutor_subjects db))
         (List.filter (fun a => negb (WeeklyAvailability.tutor_id a =? tutor_id))
            (weekly_availability db))
         (List.filter (fun x => negb (TutorException.tutor_id x =? tutor_id))
            (tutor_exceptions db))
         (bookings db)).

(** The rows of the four tables owned by tutors that belong to a tutor other
    than [tutor_id]. *)
Definition foreign_rows (db : Store) (tutor_id : Z)
    : list WeeklyAvailability.t * list TutorException.t * list Booking.t
      * list TutorSubject.t :=
  (List.filter (fun a => negb (WeeklyAvailability.tutor_id a =? tutor_id))
     (weekly_availability db),
   List.filter (fun x => negb (TutorException.tutor_id x =? tutor_id))
     (tutor_exceptions db),
   List.filter (fun b => negb (Booking.tutor_id b =? tutor_id)) (bookings db),
   List.filter (fun ts => negb (TutorSubject.tutor_id ts =? tutor_id))
     (tutor_subjects db)).

(* ===================================================================== *)
(** ** The availability listing ([app/student_routes.py]) *)
(* ===================================================================== *)

(** The two formats the listing prints a slot start in. *)
Class PyTimeFormat := {
  strftime_HM : Z -> string;       (* start_dt.strftime('%H:%M') *)
  strftime_IMp : Z -> string       (* start_dt.strftime('%I:%M %p') *)
}.

(** [s.lstrip('0')] *)
Fixpoint lstrip_zero (s : string) : string :=
  match s with
  | String ch rest => if Ascii.eqb ch "0" then lstrip_zero rest else s
  | EmptyString => s
  end.

(** One entry of the ['slots'] list of the JSON answer. *)
Record SlotEntry := mkSlotEntry {
  entry_value : string;
  entry_label : string;
  entry_tutor_count : nat
}.

Inductive AvailabilityResponse :=
| AvailabilityError (error : string) (status : Z)
    (* jsonify({'error': error}), status *)
| AvailabilitySlots (slots : list SlotEntry) (message : option string)
    (* jsonify({'slots': slots, 'message': message}) *)
| AvailabilityUncaught (e : Exception).
    (* the exception leaves the view: status 500 *)

(** [sorted] on datetimes, by insertion. *)
Fixpoint insert_sorted (x : Z) (l : list Z) : list Z :=
  match l with
  | [] => [x]
  | y :: rest => if x <=? y then x :: l else y :: insert_sorted x rest
  end.

Definition py_sorted (l : list Z) : list Z := fold_right insert_sorted [] l.


(** [sorted(slots_map.keys())]: the keys in increasing order. *)
Definition sorted_keys (slots_map : gmap Z (list Tutor.t)) : list Z :=
  py_sorted (map_to_list slots_map).*1.

Definition slot_entry `{PyTimeFormat} (slots_map : gmap Z (list Tutor.t))
    (start_dt : Z) : SlotEntry :=
  mkSlotEntry (strftime_HM start_dt) (lstrip_zero (strftime_IMp start_dt))
    (length (default [] (slots_map !! start_dt))).

Definition no_sessions_message : string :=
  "No sessions available on that date. Please choose another.".

(** [availability]; the query arguments are optional strings, and
    [args.get('subject_id', type=int)] is [None] when the conversion fails.
    The view has no handler for an exception of [collect_open_slots]. The
    result is [None] when the fuel does not suffice for
    [collect_open_slots]. *)
Definition availability `{PyLib} `{PyTimeFormat} (fuel : nat) (env : Env)
    (arg_subject_id arg_date : option string) (db : Store)
    : option AvailabilityResponse :=
  let subject_id := on_field py_int arg_subject_id in
  let date_str := arg_date in
  let subject_given :=
    match subject_id with
    | Some n => negb (n =? 0)
    | None => false
    end in
  if negb subject_given || negb (opt_str_bool date_str)
  then Some (AvailabilityError "Missing subject or date." 400)
  else
    match subject_id, on_field strptime_date date_str with
    | Some subject_id, Some target_date =>
        let '(allowed, window_message, _) := _booking_window_status env target_date in
        if negb allowed
        then Some (AvailabilitySlots [] (Some window_message))
        else
          match collect_open_slots fuel (BOOKING_SLOT_MINUTES env) db
                  subject_id target_date with
          | None => None
          | Some (Raises e) => Some (AvailabilityUncaught e)
          | Some (Returns slots_map) =>
              let slots := List.map (slot_entry slots_map) (sorted_keys slots_map) in
              Some (AvailabilitySlots slots
                      (if list_bool slots then None
                       else Some (if str_bool window_message then window_message
                                  else no_sessions_message)))
          end
    | _, _ => Some (AvailabilityError "Invalid date format." 400)
    end.

(* ===================================================================== *)
(** ** Concrete data used by the examples *)
(* ===================================================================== *)

Module Examples.

(** 2024-01-01, a Monday, and the day after. *)
Definition monday : Z := 738886.
Definition tuesday : Z := 738887.

(** A block 15:00-17:00 on Mondays for tutor 1. *)
Definition block_15_17 : WeeklyAvailability.t :=
  WeeklyAvailability.mk 1 1 0 (time 15 0 0) (time 17 0 0).

(** 9999-12-31, a Friday: the last date of the calendar. *)
Definition last_day : Z := 3652059.

(** A block 23:00-23:59 on Fridays for tutor 1. *)
Definition block_23_00 : WeeklyAvailability.t :=
  WeeklyAvailability.mk 2 1 4 (time 23 0 0) (time 23 59 0).

(** A block 00:00-23:59 on Mondays for tutor 1. *)
Definition block_all_day : WeeklyAvailability.t :=
  WeeklyAvailability.mk 3 1 0 (time 0 0 0) (time 23 59 0).

(** The same hours as [block_15_17], for tutor 2. *)
Definition block_15_17_b : WeeklyAvailability.t :=
  WeeklyAvailability.mk 4 2 0 (time 15 0 0) (time 17 0 0).

Definition subject_im1 : Subject.t := Subject.mk 1 "IM1" "Math Subjects" 1.

Definition tutor_a : Tutor.t := Tutor.mk 1 "A" "5550000001" "" 0 true.
Definition tutor_b : Tutor.t := Tutor.mk 2 "B" "5550000002" "" 0 true.

Definition teaches_a : TutorSubject.t := TutorSubject.mk 1 1 1.
Definition teaches_b : TutorSubject.t := TutorSubject.mk 2 2 1.

(** Full-day blackouts of tutor 1. *)
Definition blackout_monday : TutorException.t :=
  TutorException.mk 1 1 monday None None None.
Definition blackout_tuesday : TutorException.t :=
  TutorException.mk 2 1 tuesday None None None.

(** A booking of tutor [tutor_id] on that Monday, from [h1:m1] to [h2:m2]. *)
Definition booking (id tutor_id h1 m1 h2 m2 : Z) (canceled : bool) : Booking.t :=
  Booking.mk id tutor_id (Some 1) "Sam" "5551230000"
    (combine monday (time h1 m1 0)) (combine monday (time h2 m2 0)) 0
    canceled (if canceled then Some 0 else None) None.

(** Tutor A alone, Monday 15:00-17:00, nothing booked. *)
Definition db_a : Store :=
  mkStore [subject_im1] [tutor_a] [teaches_a] [block_15_17] [] [].

(** Tutor A alone, Friday 23:00-23:59, nothing booked. *)
Definition db_a_late : Store :=
  mkStore [subject_im1] [tutor_a] [teaches_a] [block_23_00] [] [].

(** Tutor A with a booking 15:30-16:00. *)
Definition db_a_booked : Store :=
  mkStore [subject_im1] [tutor_a] [teaches_a] [block_15_17] []
    [booking 1 1 15 30 16 0 false].

(** Tutor A with a canceled booking 15:30-16:00. *)
Definition db_a_canceled : Store :=
  mkStore [subject_im1] [tutor_a] [teaches_a] [block_15_17] []
    [booking 1 1 15 30 16 0 true].

(** Tutor A, blacked out on the Monday. *)
Definition db_a_blackout : Store :=
  mkStore [subject_im1] [tutor_a] [teaches_a] [block_15_17] [blackout_monday] [].

(** Tutor A, available all Monday, blacked out on the Tuesday. *)
Definition db_a_night : Store :=
  mkStore [subject_im1] [tutor_a] [teaches_a] [block_all_day]
    [blackout_tuesday] [].

(** Tutors A (three active bookings) and B (five), both free at 15:00. *)
Definition db_ab : Store :=
  mkStore [subject_im1] [tutor_a; tutor_b] [teaches_a; teaches_b]
    [block_15_17; block_15_17_b] []
    [booking 1 1 9 0 9 30 false; booking 2 1 10 0 10 30 false;
     booking 3 1 11 0 11 30 false;
     booking 4 2 9 0 9 30 false; booking 5 2 10 0 10 30 false;
     booking 6 2 11 0 11 30 false; booking 7 2 12 0 12 30 false;
     booking 8 2 13 0 13 30 false].

(** Tutors A and B both free at 15:30; A has no active booking but a
    canceled one that starts at 15:30, B has one active booking. *)
Definition db_ab_canceled : Store :=
  mkStore [subject_im1] [tutor_a; tutor_b] [teaches_a; teaches_b]
    [block_15_17; block_15_17_b] []
    [booking 1 1 15 30 16 0 true; booking 2 2 9 0 9 30 false].

(** The library functions, on the strings the examples use. *)
Definition ascii_isdigit (ch : ascii) : bool :=
  ((48 <=? nat_of_ascii ch) && (nat_of_ascii ch <=? 57))%nat.

#[export] Instance lib : PyLib := {|
  py_strip := fun s => s;
  py_isdigit := ascii_isdigit;
  py_int := fun s =>
    if String.eqb s "1" then Some 1
    else if String.eqb s "99999999999999999999" then Some 99999999999999999999
    else None;
  strptime_date := fun s =>
    if String.eqb s "2024-01-01" then Some monday
    else if String.eqb s "2024-01-02" then Some tuesday
    else if String.eqb s "9999-12-31" then Some last_day
    else None;
  strptime_time := fun s =>
    if String.eqb s "15:00" then Some (time 15 0 0)
    else if String.eqb s "15:30" then Some (time 15 30 0)
    else if String.eqb s "23:45" then Some (time 23 45 0)
    else None;
  strftime_long := fun d =>
    if d =? monday then "January 01, 2024"%string
    else if d =? tuesday then "January 02, 2024"%string
    else ""%string
|}.

(** Saturday 2023-12-30, noon, Pacific time; the store works. *)
Definition env_ok : Env :=
  mkEnv (combine (monday - 2) (time 12 0 0)) (combine (monday - 2) (time 20 0 0))
    30 0 false.

(** The same moment, with a store that fails. *)
Definition env_fault : Env :=
  mkEnv (combine (monday - 2) (time 12 0 0)) (combine (monday - 2) (time 20 0 0))
    30 0 true.

(** Sunday 2023-12-31 at 22:30, Pacific time. *)
Definition env_late : Env :=
  mkEnv (combine (monday - 1) (time 22 30 0)) (combine monday (time 6 30 0))
    30 0 false.

Definition form_15_00 : BookForm :=
  mkBookForm "Sam" "555-123-0000" "1" "2024-01-01" "15:00".
Definition form_15_30 : BookForm :=
  mkBookForm "Sam" "555-123-0000" "1" "2024-01-01" "15:30".

(** A subject id of twenty digits. *)
Definition form_long_id : BookForm :=
  mkBookForm "Sam" "555-123-0000" "99999999999999999999" "2024-01-01" "15:00".

(** The last quarter of an hour of the calendar. *)
Definition form_last_day : BookForm :=
  mkBookForm "Sam" "555-123-0000" "1" "9999-12-31" "23:45".

End Examples.

Module MoreExamples.

Definition subject_bio : Subject.t := Subject.mk 2 "Biology" "Science Classes" 9.
Definition subject_im2 : Subject.t := Subject.mk 3 "IM2" "Math Subjects" 2.

Definition catalog : list Subject.t :=
  [Examples.subject_im1; subject_im2; subject_bio].

(** A store with the catalog and nothing else. *)
Definition db_empty : Store := mkStore catalog [] [] [] [] [].

#[export] Instance hash : PyHash := {|
  generate_password_hash := fun pin => ("pbkdf2:" ++ pin)%string
|}.

(** A tutor signs up, offers Tuesdays 15:00-15:30, blacks out the Monday,
    and the admin deactivates the tutor. *)
Definition session_requests : list Request :=
  [ReqSignup Examples.env_ok None "Ada" "555-000-0009" "1234" ["1"%string];
   ReqAddAvailability Examples.env_ok (Some 1)
     (Some "1"%string) (Some "15:00"%string) (Some "15:30"%string);
   ReqAddException Examples.env_ok (Some 1)
     (Some "2024-01-01"%string) None None "";
   ReqToggleTutorActive Examples.env_ok true 1].


End MoreExamples.

(* ===================================================================== *)
(** * Properties *)
(* ===================================================================== *)

(** ** Dates and times *)

Section ClockFacts.

Lemma US_PER_DAY_pos : 0 < US_PER_DAY.
Proof. reflexivity. Qed.

Lemma US_PER_MINUTE_pos : 0 < US_PER_MINUTE.
Proof. reflexivity. Qed.

Lemma timedelta_minutes_pos m : 1 <= m -> 0 < timedelta_minutes m.
Proof. unfold timedelta_minutes. pose proof US_PER_MINUTE_pos. nia. Qed.

Lemma timedelta_minutes_nonpos m : m <= 0 -> timedelta_minutes m <= 0.
Proof. unfold timedelta_minutes. pose proof US_PER_MINUTE_pos. nia. Qed.

Lemma date_of_combine date t : valid_time t -> date_of (combine date t) = date.
Proof.
  intros Ht. unfold date_of, combine.
  symmetry. apply (Z.div_unique_pos _ _ date t); [exact Ht | ring].
Qed.

Lemma time_of_combine date t : valid_time t -> time_of (combine date t) = t.
Proof.
  intros Ht. unfold time_of, combine.
  symmetry. apply (Z.mod_unique_pos _ _ date t); [exact Ht | ring].
Qed.

Lemma combine_date_time d : combine (date_of d) (time_of d) = d.
Proof.
  unfold combine, date_of, time_of.
  pose proof (Z.div_mod d US_PER_DAY) as H.
  pose proof US_PER_DAY_pos. lia.
Qed.

Lemma time_of_valid d : valid_time (time_of d).
Proof. apply Z.mod_pos_bound, US_PER_DAY_pos. Qed.

Lemma combine_sub date t1 t2 : combine date t2 - combine date t1 = t2 - t1.
Proof. unfold combine. ring. Qed.

(** A date and a time of day that the interpreter has make a datetime that
    it has. *)
Lemma combine_in_range date t :
  valid_date date -> valid_time t ->
  datetime_min <= combine date t <= datetime_max.
Proof.
  unfold valid_date, valid_time, datetime_min, datetime_max, combine,
    MINORDINAL, MAXORDINAL.
  pose proof US_PER_DAY_pos. nia.
Qed.

Lemma datetime_add_spec d delta :
  (datetime_min <= d + delta <= datetime_max
   /\ datetime_add d delta = Returns (d + delta))
  \/ (~ datetime_min <= d + delta <= datetime_max
      /\ datetime_add d delta = Raises OverflowError).
Proof.
  unfold datetime_add.
  destruct (Z.leb_spec datetime_min (d + delta)),
    (Z.leb_spec (d + delta) datetime_max); simpl; [left | right ..];
    (split; [lia | reflexivity]).
Qed.

Lemma datetime_add_returns d delta r :
  datetime_add d delta = Returns r ->
  r = d + delta /\ datetime_min <= r <= datetime_max.
Proof.
  destruct (datetime_add_spec d delta) as [[Hr ->]|[_ ->]]; [|discriminate].
  intros [= <-]. split; [reflexivity | exact Hr].
Qed.

Lemma timedelta_spec m :
  (- MAX_DELTA_DAYS <= timedelta_minutes m / US_PER_DAY <= MAX_DELTA_DAYS
   /\ timedelta m = Returns (timedelta_minutes m))
  \/ (~ - MAX_DELTA_DAYS <= timedelta_minutes m / US_PER_DAY <= MAX_DELTA_DAYS
      /\ timedelta m = Raises OverflowError).
Proof.
  unfold timedelta.
  destruct (Z.leb_spec (- MAX_DELTA_DAYS) (timedelta_minutes m / US_PER_DAY)),
    (Z.leb_spec (timedelta_minutes m / US_PER_DAY) MAX_DELTA_DAYS);
    simpl; [left | right ..]; (split; [lia | reflexivity]).
Qed.

Lemma timedelta_returns m delta :
  timedelta m = Returns delta -> delta = timedelta_minutes m.
Proof.
  destruct (timedelta_spec m) as [[_ ->]|[_ ->]]; [|discriminate].
  intros [= <-]. reflexivity.
Qed.

(** A length of time that [timedelta] refuses leads out of the calendar
    from any datetime, in its direction. *)
Lemma timedelta_raises_pos m d :
  0 <= m -> timedelta m = Raises OverflowError -> datetime_min <= d ->
  datetime_max < d + timedelta_minutes m.
Proof.
  intros Hm Hraise Hd.
  destruct (timedelta_spec m) as [[_ Heq]|[Hout _]]; [congruence|].
  assert (0 <= timedelta_minutes m / US_PER_DAY) as Hnn.
  { apply Z.div_pos; [|apply US_PER_DAY_pos].
    unfold timedelta_minutes. pose proof US_PER_MINUTE_pos. nia. }
  assert (MAX_DELTA_DAYS < timedelta_minutes m / US_PER_DAY) as Hbig
    by (unfold MAX_DELTA_DAYS in *; lia).
  pose proof (Z.mul_div_le (timedelta_minutes m) US_PER_DAY US_PER_DAY_pos) as Hle.
  revert Hd Hbig Hle.
  unfold datetime_min, datetime_max, combine, MINORDINAL, MAXORDINAL,
    MAX_DELTA_DAYS.
  generalize (timedelta_minutes m / US_PER_DAY), (timedelta_minutes m).
  intros q delta Hd Hbig Hle. pose proof US_PER_DAY_pos. nia.
Qed.

End ClockFacts.

(** ** The slot generator *)

Section SlotGenerator.

Variables step end_dt : Z.

(** More fuel does not change a result already obtained. *)
Lemma generate_slots_loop_mono fuel fuel' cursor acc r :
  generate_slots_loop fuel step end_dt cursor acc = Some r ->
  (fuel <= fuel')%nat ->
  generate_slots_loop fuel' step end_dt cursor acc = Some r.
Proof.
  revert fuel' cursor acc.
  induction fuel as [|fuel IH]; intros fuel' cursor acc Hrun Hle; [discriminate|].
  destruct fuel' as [|fuel']; [lia|].
  simpl in *. destruct (datetime_add cursor step) as [next|e]; [|exact Hrun].
  destruct (next <=? end_dt); [|exact Hrun].
  apply IH; [exact Hrun | lia].
Qed.

(** Every slot of the returned list has the length of the step. *)
Lemma generate_slots_loop_shape fuel cursor acc slots :
  generate_slots_loop fuel step end_dt cursor acc = Some (Returns slots) ->
  (forall slot : Slot, In slot acc -> slot.2 = slot.1 + step) ->
  forall slot : Slot, In slot slots -> slot.2 = slot.1 + step.
Proof.
  revert cursor acc. induction fuel as [|fuel IH]; intros cursor acc Hrun Hacc;
    [discriminate|].
  simpl in Hrun.
  destruct (datetime_add cursor step) as [next|e] eqn:Hadd; [|discriminate].
  apply datetime_add_returns in Hadd as [-> _].
  destruct (cursor + step <=? end_dt).
  - apply (IH _ _ Hrun). intros slot Hin.
    apply in_app_or in Hin as [Hin|[<-|[]]]; [apply Hacc, Hin | reflexivity].
  - injection Hrun as <-. exact Hacc.
Qed.

(** With a step of length zero, the loop never leaves a cursor that
    satisfies its condition. *)
Lemma generate_slots_loop_stuck fuel cursor acc :
  step = 0 -> datetime_min <= cursor <= datetime_max -> cursor <= end_dt ->
  generate_slots_loop fuel step end_dt cursor acc = None.
Proof.
  intros -> Hrange Hc. revert acc.
  induction fuel as [|fuel IH]; intros acc; [reflexivity|].
  simpl. destruct (datetime_add_spec cursor 0) as [[_ ->]|[Hout _]]; [|lia].
  rewrite Z.add_0_r.
  destruct (Z.leb_spec cursor end_dt) as [_|Hgt]; [apply IH | lia].
Qed.

(** With a step that goes back in time, the cursor walks down to
    [datetime.min], where the sum of the condition is no datetime. *)
Lemma generate_slots_loop_backwards fuel cursor acc :
  step < 0 -> cursor + step <= end_dt ->
  (Z.to_nat (cursor - datetime_min) < fuel)%nat ->
  generate_slots_loop fuel step end_dt cursor acc = Some (Raises OverflowError).
Proof.
  intros Hstep. revert cursor acc.
  induction fuel as [|fuel IH]; intros cursor acc Hc Hfuel; [lia|].
  simpl. destruct (datetime_add_spec cursor step) as [[Hin ->]|[_ ->]];
    [|reflexivity].
  destruct (Z.leb_spec (cursor + step) end_dt) as [_|Hgt]; [|lia].
  apply IH; lia.
Qed.


Hypothesis step_pos : 0 < step.

Lemma slot_count_lt (start : Z) (k : nat) :
  (k < slot_count start end_dt step)%nat
  <-> start + (Z.of_nat k + 1) * step <= end_dt.
Proof.
  unfold slot_count. split.
  - intros Hk.
    assert (Z.of_nat k + 1 <= (end_dt - start) / step) as Hq by lia.
    pose proof (Z.mul_div_le (end_dt - start) step step_pos). nia.
  - intros Hle.
    assert (Z.of_nat k + 1 <= (end_dt - start) / step) as Hq.
    { apply Z.div_le_lower_bound; [exact step_pos | lia]. }
    lia.
Qed.

Lemma slot_count_step (cursor : Z) :
  cursor + step <= end_dt ->
  slot_count cursor end_dt step = S (slot_count (cursor + step) end_dt step).
Proof.
  intros Hle. unfold slot_count.
  replace (end_dt - cursor) with ((end_dt - (cursor + step)) + 1 * step) by ring.
  rewrite Z.div_add by lia.
  assert (0 <= (end_dt - (cursor + step)) / step) by (apply Z.div_pos; lia).
  lia.
Qed.

Lemma slot_count_done (cursor : Z) :
  end_dt < cursor + step -> slot_count cursor end_dt step = O.
Proof.
  intros Hgt. unfold slot_count.
  destruct (Z_lt_le_dec (end_dt - cursor) 0) as [Hneg|Hnn].
  - assert ((end_dt - cursor) / step < 0) by (apply Z.div_lt_upper_bound; lia).
    lia.
  - rewrite Z.div_small by lia. reflexivity.
Qed.

(** The cursor after the last slot is at or before the end. *)
Lemma slot_count_reached (start : Z) :
  start <= end_dt ->
  start + Z.of_nat (slot_count start end_dt step) * step <= end_dt.
Proof.
  intros Hle. destruct (slot_count start end_dt step) as [|n] eqn:Hn;
    [lia|].
  assert (n < slot_count start end_dt step)%nat as Hlt by lia.
  apply slot_count_lt in Hlt. lia.
Qed.

Lemma nth_slot_shift (cursor : Z) (k : nat) :
  nth_slot cursor step (S k) = nth_slot (cursor + step) step k.
Proof. unfold nth_slot. f_equal; lia. Qed.

(** With enough fuel the loop appends the whole walk to what it has, unless
    the sum that would end it is no datetime. *)
Lemma generate_slots_loop_run fuel cursor acc :
  datetime_min <= cursor + step ->
  (slot_count cursor end_dt step < fuel)%nat ->
  generate_slots_loop fuel step end_dt cursor acc
  = Some (if last_probe cursor end_dt step <=? datetime_max
          then Returns (acc ++ List.map (nth_slot cursor step)
                                 (seq 0 (slot_count cursor end_dt step)))
          else Raises OverflowError).
Proof.
  revert cursor acc.
  induction fuel as [|fuel IH]; intros cursor acc Hmin Hfuel; [lia|].
  simpl. unfold last_probe.
  destruct (datetime_add_spec cursor step) as [[Hin ->]|[Hout ->]].
  - destruct (Z.leb_spec (cursor + step) end_dt) as [Hle|Hgt].
    + rewrite (slot_count_step cursor Hle) in *.
      rewrite IH by lia. unfold last_probe.
      replace (cursor + step
               + (Z.of_nat (slot_count (cursor + step) end_dt step) + 1) * step)
        with (cursor
              + (Z.of_nat (S (slot_count (cursor + step) end_dt step)) + 1) * step)
        by lia.
      destruct (_ <=? datetime_max); [|reflexivity].
      do 2 f_equal.
      rewrite <- app_assoc. f_equal. simpl. f_equal.
      * unfold nth_slot. f_equal; simpl; lia.
      * rewrite <- seq_shift, List.map_map.
        apply List.map_ext. intros k. symmetry. apply nth_slot_shift.
    + rewrite (slot_count_done cursor Hgt).
      change (Z.of_nat 0) with 0. simpl seq. simpl List.map.
      destruct (Z.leb_spec (cursor + (0 + 1) * step) datetime_max); [|lia].
      rewrite app_nil_r. reflexivity.
  - destruct (Z.leb_spec
                (cursor + (Z.of_nat (slot_count cursor end_dt step) + 1) * step)
                datetime_max) as [Hle|_]; [|reflexivity].
    exfalso. apply Hout. split; [exact Hmin | nia].
Qed.

End SlotGenerator.

Section GenerateSlots.

Variables (block : WeeklyAvailability.t) (date slot_minutes : Z).

Lemma generate_slots_mono fuel fuel' r :
  generate_slots fuel block date slot_minutes = Some r ->
  (fuel <= fuel')%nat ->
  generate_slots fuel' block date slot_minutes = Some r.
Proof.
  unfold generate_slots. destruct (timedelta slot_minutes); [|tauto].
  apply generate_slots_loop_mono.
Qed.

(** Any two runs that come back agree. *)
Lemma generate_slots_deterministic fuel1 fuel2 r1 r2 :
  generate_slots fuel1 block date slot_minutes = Some r1 ->
  generate_slots fuel2 block date slot_minutes = Some r2 ->
  r1 = r2.
Proof.
  intros H1 H2.
  apply (generate_slots_mono _ (Nat.max fuel1 fuel2)) in H1; [|lia].
  apply (generate_slots_mono _ (Nat.max fuel1 fuel2)) in H2; [|lia].
  congruence.
Qed.

Lemma generate_slots_shape fuel generated :
  generate_slots fuel block date slot_minutes = Some (Returns generated) ->
  forall slot : Slot,
    In slot generated -> slot.2 = slot.1 + timedelta_minutes slot_minutes.
Proof.
  unfold generate_slots.
  destruct (timedelta slot_minutes) as [delta|e] eqn:Hdelta; [|discriminate].
  apply timedelta_returns in Hdelta as ->. intros Hrun.
  apply (generate_slots_loop_shape _ _ _ _ _ _ Hrun). intros slot [].
Qed.

(** The run for a slot length of at least one minute, from a start that is
    a datetime. *)
Lemma generate_slots_run :
  1 <= slot_minutes ->
  datetime_min <= combine date (WeeklyAvailability.start_time block) ->
  generate_slots
    (S (slot_count (combine date (WeeklyAvailability.start_time block))
          (combine date (WeeklyAvailability.end_time block))
          (timedelta_minutes slot_minutes)))
    block date slot_minutes
  = Some (if last_probe (combine date (WeeklyAvailability.start_time block))
               (combine date (WeeklyAvailability.end_time block))
               (timedelta_minutes slot_minutes) <=? datetime_max
          then Returns
                 (List.map
                    (nth_slot (combine date (WeeklyAvailability.start_time block))
                       (timedelta_minutes slot_minutes))
                    (seq 0 (slot_count
                              (combine date (WeeklyAvailability.start_time block))
                              (combine date (WeeklyAvailability.end_time block))
                              (timedelta_minutes slot_minutes))))
          else Raises OverflowError).
Proof.
  intros Hm Hstart. unfold generate_slots.
  set (start_dt := combine date (WeeklyAvailability.start_time block)) in *.
  set (end_dt := combine date (WeeklyAvailability.end_time block)).
  set (step := timedelta_minutes slot_minutes).
  assert (0 < step) as Hstep by (apply timedelta_minutes_pos, Hm).
  destruct (timedelta_spec slot_minutes) as [[_ ->]|[_ Hraise]].
  - fold step.
    rewrite generate_slots_loop_run; [reflexivity | exact Hstep | lia | lia].
  - rewrite Hraise.
    pose proof (timedelta_raises_pos slot_minutes start_dt ltac:(lia) Hraise Hstart)
      as Hbig.
    fold step in Hbig. unfold last_probe.
    destruct (Z.leb_spec
                (start_dt + (Z.of_nat (slot_count start_dt end_dt step) + 1) * step)
                datetime_max) as [Hle|_]; [nia | reflexivity].
Qed.

Lemma generate_slots_diverges fuel :
  slot_minutes = 0 ->
  datetime_min <= combine date (WeeklyAvailability.start_time block)
  <= datetime_max ->
  WeeklyAvailability.start_time block <= WeeklyAvailability.end_time block ->
  generate_slots fuel block date slot_minutes = None.
Proof.
  intros -> Hrange Hblock. unfold generate_slots. simpl.
  apply generate_slots_loop_stuck; [reflexivity | exact Hrange |].
  unfold combine. lia.
Qed.

Lemma generate_slots_backwards :
  slot_minutes < 0 ->
  WeeklyAvailability.start_time block <= WeeklyAvailability.end_time block ->
  exists fuel : nat,
    forall fuel' : nat,
      (fuel <= fuel')%nat ->
      generate_slots fuel' block date slot_minutes = Some (Raises OverflowError).
Proof.
  intros Hm Hblock. unfold generate_slots.
  destruct (timedelta_spec slot_minutes) as [[_ ->]|[_ ->]]; [|exists O; eauto].
  exists (S (Z.to_nat (combine date (WeeklyAvailability.start_time block)
                        - datetime_min))).
  intros fuel' Hle.
  apply generate_slots_loop_backwards.
  - unfold timedelta_minutes. pose proof US_PER_MINUTE_pos. nia.
  - unfold combine, timedelta_minutes. pose proof US_PER_MINUTE_pos. nia.
  - lia.
Qed.


End GenerateSlots.

(** C3 (as amended: the slot length is at least one minute, and the calendar
    ends with the year 9999). For a block with end > start, any date and
    any slot length of at least one minute, [generate_slots] comes back. It
    raises [OverflowError] exactly when a cursor of the walk is reached
    whose cursor + slot length is past [datetime.max], which does not
    happen when date+block.end + slot length is a datetime. Otherwise the
    slots it returns are, in increasing order of start, the walk from
    date+block.start in steps of the slot length; a slot is present exactly
    while cursor + slot length <= date+block.end; hence every slot ends at
    or before date+block.end with its full length, and no slot is returned
    when the block is shorter than one slot. *)
Theorem generate_slots_walk (block : WeeklyAvailability.t) (date slot_minutes : Z) :
  WeeklyAvailability.start_time block < WeeklyAvailability.end_time block ->
  1 <= slot_minutes ->
  valid_date date ->
  valid_time (WeeklyAvailability.start_time block) ->
  let start_dt := combine date (WeeklyAvailability.start_time block) in
  let end_dt := combine date (WeeklyAvailability.end_time block) in
  let step := timedelta_minutes slot_minutes in
  exists (fuel : nat) (outcome : Outcome (list Slot)),
    generate_slots fuel block date slot_minutes = Some outcome
    /\ (forall fuel' outcome',
          generate_slots fuel' block date slot_minutes = Some outcome' ->
          outcome' = outcome)
    /\ (outcome = Raises OverflowError
        <-> exists k : nat,
              start_dt + Z.of_nat k * step <= end_dt
              /\ datetime_max < start_dt + (Z.of_nat k + 1) * step)
    /\ (end_dt + step <= datetime_max ->
        exists slots : list Slot, outcome = Returns slots)
    /\ (forall slots : list Slot,
          outcome = Returns slots ->
          slots = List.map (nth_slot start_dt step) (seq 0 (length slots))
          /\ (forall k : nat,
                (k < length slots)%nat
                <-> start_dt + (Z.of_nat k + 1) * step <= end_dt)
          /\ (forall (i j : nat) (s1 s2 : Slot),
                (i < j)%nat -> slots !! i = Some s1 -> slots !! j = Some s2 ->
                s1.1 < s2.1)
          /\ (forall s : Slot, In s slots -> s.2 = s.1 + step /\ s.2 <= end_dt)
          /\ (WeeklyAvailability.end_time block
              - WeeklyAvailability.start_time block < step -> slots = [])).
Proof.
  intros Hblock Hm Hdate Htime start_dt end_dt step.
  assert (0 < step) as Hstep by (apply timedelta_minutes_pos, Hm).
  assert (datetime_min <= start_dt) as Hstart
    by (apply combine_in_range; assumption).
  assert (start_dt <= end_dt) as Hle by (unfold start_dt, end_dt, combine; lia).
  set (n := slot_count start_dt end_dt step).
  pose proof (generate_slots_run block date slot_minutes Hm Hstart) as Hrun.
  fold start_dt end_dt step n in Hrun. unfold last_probe in Hrun.
  fold n in Hrun.
  pose proof (slot_count_reached step end_dt Hstep start_dt Hle) as Hreached.
  fold n in Hreached.
  eexists. eexists. split; [exact Hrun|].
  split.
  { intros fuel' outcome' Hrun'.
    eapply generate_slots_deterministic; [exact Hrun' | exact Hrun]. }
  destruct (Z.leb_spec (start_dt + (Z.of_nat n + 1) * step) datetime_max)
    as [Hfits|Hover].
  - split.
    { split; [discriminate|].
      intros (k & Hk & Hbig). exfalso.
      assert (k <= n)%nat; [|nia].
      destruct k as [|k]; [lia|].
      assert (k < n)%nat; [|lia].
      apply (slot_count_lt step end_dt Hstep start_dt). lia. }
    split; [eauto|].
    intros slots [= <-].
    assert (length (List.map (nth_slot start_dt step) (seq 0 n)) = n) as Hlen.
    { rewrite length_map. apply length_seq. }
    rewrite Hlen.
    split; [reflexivity|].
    split; [intros k; apply slot_count_lt, Hstep|].
    assert (forall (i : nat) (s : Slot),
               List.map (nth_slot start_dt step) (seq 0 n) !! i = Some s ->
               (i < n)%nat /\ s = nth_slot start_dt step i) as Hlookup.
    { intros i s Hi. rewrite list_lookup_fmap in Hi.
      destruct (seq 0 n !! i) as [k|] eqn:Hk; [|discriminate].
      apply lookup_seq in Hk. simpl in *. destruct Hk as [-> Hlt].
      split; [exact Hlt | congruence]. }
    split.
    { intros i j s1 s2 Hij H1 H2.
      apply Hlookup in H1 as [_ ->]. apply Hlookup in H2 as [_ ->].
      unfold nth_slot. simpl. nia. }
    split.
    { intros s Hs. apply list_elem_of_In, list_elem_of_lookup in Hs as [i Hi].
      apply Hlookup in Hi as [Hlt ->].
      apply (slot_count_lt step end_dt Hstep start_dt) in Hlt.
      unfold nth_slot. simpl. lia. }
    intros Hshort.
    assert (n = O) as ->; [|reflexivity].
    apply slot_count_done; [exact Hstep|].
    unfold start_dt, end_dt, combine. lia.
  - split.
    { split; [|reflexivity]. intros _. exists n. split; [exact Hreached | exact Hover]. }
    split; [intros Hend; nia|].
    intros slots [=].
Qed.

(** The walk over the Monday block 15:00-17:00 in steps of 30 minutes. *)
Lemma generate_slots_walk_witness :
  exists (fuel : nat) (slots : list Slot),
    generate_slots fuel Examples.block_15_17 Examples.monday 30
    = Some (Returns slots)
    /\ length slots = 4%nat.
Proof.
  destruct (generate_slots_walk Examples.block_15_17 Examples.monday 30)
    as (fuel & outcome & Hrun & Hdet & _);
    [vm_compute; reflexivity | lia | vm_compute; split; discriminate
    | vm_compute; split; [discriminate | reflexivity] |].
  exists fuel. eexists. rewrite Hrun.
  rewrite <- (Hdet 5%nat _ eq_refl). split; reflexivity.
Defined.

(** C3 as stated fails for a slot length of zero minutes: the loop condition
    holds forever and [generate_slots] returns nothing. *)
Lemma generate_slots_zero_length_no_result :
  ~ (exists (fuel : nat) (outcome : Outcome (list Slot)),
       generate_slots fuel Examples.block_15_17 Examples.monday 0 = Some outcome).
Proof.
  intros (fuel & outcome & Hrun).
  rewrite generate_slots_diverges in Hrun;
    [discriminate | reflexivity | vm_compute; split; discriminate
    | vm_compute; discriminate].
Qed.

(** A slot length that leads out of the calendar from the start: no slot,
    and no empty list either. *)
Lemma generate_slots_long_step_overflow :
  forall fuel : nat,
    (1 <= fuel)%nat ->
    generate_slots fuel Examples.block_15_17 Examples.monday 4204800000
    = Some (Raises OverflowError).
Proof.
  intros fuel Hle.
  apply (generate_slots_mono _ _ _ 1%nat); [vm_compute; reflexivity | exact Hle].
Qed.

(** C10 (as amended: the result is an exception when the walk leaves the
    calendar). For any block, any date and [slot_minutes >= 1],
    [generate_slots] terminates: it returns exactly
    floor((block.end - block.start) / slot length) slots (none for a block
    that ends before it starts) when the sum that ends the walk, start +
    (count + 1) slot lengths, is a datetime, and it raises [OverflowError]
    when that sum is past [datetime.max]. For a non-empty block a slot
    length of at least one minute is necessary for a result: with
    [slot_minutes = 0] the call returns for no amount of fuel, and with
    [slot_minutes < 0] it ends with [OverflowError]. *)
Theorem generate_slots_terminates_count
    (block : WeeklyAvailability.t) (date slot_minutes : Z) :
  valid_date date ->
  valid_time (WeeklyAvailability.start_time block) ->
  let start_dt := combine date (WeeklyAvailability.start_time block) in
  let step := timedelta_minutes slot_minutes in
  let count :=
    Z.max 0 ((WeeklyAvailability.end_time block
              - WeeklyAvailability.start_time block) / step) in
  (1 <= slot_minutes ->
   exists (fuel : nat) (outcome : Outcome (list Slot)),
     (forall fuel' : nat,
        (fuel <= fuel')%nat ->
        generate_slots fuel' block date slot_minutes = Some outcome)
     /\ (start_dt + (count + 1) * step <= datetime_max ->
         exists slots : list Slot,
           outcome = Returns slots /\ Z.of_nat (length slots) = count)
     /\ (datetime_max < start_dt + (count + 1) * step ->
         outcome = Raises OverflowError))
  /\ (WeeklyAvailability.start_time block < WeeklyAvailability.end_time block ->
      slot_minutes = 0 ->
      forall fuel : nat, generate_slots fuel block date slot_minutes = None)
  /\ (WeeklyAvailability.start_time block < WeeklyAvailability.end_time block ->
      slot_minutes < 0 ->
      exists fuel : nat,
        forall fuel' : nat,
          (fuel <= fuel')%nat ->
          generate_slots fuel' block date slot_minutes
          = Some (Raises OverflowError)).
Proof.
  intros Hdate Htime start_dt step count.
  pose proof (combine_in_range _ _ Hdate Htime) as Hstart.
  fold start_dt in Hstart.
  split; [|split].
  - intros Hm.
    set (end_dt := combine date (WeeklyAvailability.end_time block)).
    assert (0 < step) as Hstep by (apply timedelta_minutes_pos, Hm).
    assert (Z.of_nat (slot_count start_dt end_dt step) = count) as Hcount.
    { unfold slot_count, count, start_dt, end_dt. rewrite combine_sub. lia. }
    pose proof (generate_slots_run block date slot_minutes Hm (proj1 Hstart))
      as Hrun.
    fold start_dt end_dt step in Hrun. unfold last_probe in Hrun.
    rewrite Hcount in Hrun.
    eexists. eexists. split.
    { intros fuel' Hle. eapply generate_slots_mono; [exact Hrun | exact Hle]. }
    destruct (Z.leb_spec (start_dt + (count + 1) * step) datetime_max)
      as [Hfits|Hover].
    + split; [|lia]. intros _. eexists. split; [reflexivity|].
      rewrite length_map, length_seq. exact Hcount.
    + split; [lia | reflexivity].
  - intros Hlt Hm fuel.
    apply generate_slots_diverges; [exact Hm | exact Hstart | lia].
  - intros Hlt Hm. apply generate_slots_backwards; [exact Hm | lia].
Qed.

(** Four half-hour slots in a two-hour block, no result for a step of zero
    minutes, and an exception for a step back in time. *)
Lemma generate_slots_terminates_count_witness :
  (exists (fuel : nat) (slots : list Slot),
     generate_slots fuel Examples.block_15_17 Examples.monday 30
     = Some (Returns slots)
     /\ Z.of_nat (length slots) = 4)
  /\ generate_slots 100 Examples.block_15_17 Examples.monday 0 = None
  /\ exists fuel : nat,
       generate_slots fuel Examples.block_15_17 Examples.monday (-30)
       = Some (Raises OverflowError).
Proof.
  assert (valid_date Examples.monday) as Hdate
    by (vm_compute; split; discriminate).
  assert (valid_time (WeeklyAvailability.start_time Examples.block_15_17))
    as Htime by (vm_compute; split; [discriminate | reflexivity]).
  destruct (generate_slots_terminates_count
              Examples.block_15_17 Examples.monday 30 Hdate Htime)
    as [Hpos _].
  destruct (generate_slots_terminates_count
              Examples.block_15_17 Examples.monday 0 Hdate Htime)
    as (_ & Hzero & _).
  destruct (generate_slots_terminates_count
              Examples.block_15_17 Examples.monday (-30) Hdate Htime)
    as (_ & _ & Hneg).
  split; [|split].
  - destruct Hpos as (fuel & outcome & Hrun & Hfits & _); [lia|].
    destruct Hfits as (slots & -> & Hcount); [vm_compute; discriminate|].
    exists fuel, slots. split; [apply Hrun; lia | rewrite Hcount; reflexivity].
  - apply Hzero; [vm_compute; reflexivity | reflexivity].
  - destruct Hneg as [fuel Hrun]; [vm_compute; reflexivity | lia |].
    exists fuel. apply Hrun. lia.
Defined.

(** C10 as stated fails on the last day of the calendar: for the Friday
    block 23:00-23:59 and the date 9999-12-31, with slots of 30 minutes, the
    sum 23:30 + 30 minutes of the loop condition is no datetime, and the
    call raises [OverflowError] instead of returning the one slot that
    floor((end - start) / slot length) counts. *)
Lemma generate_slots_last_day_overflow :
  valid_date Examples.last_day
  /\ weekday Examples.last_day
     = WeeklyAvailability.day_of_week Examples.block_23_00
  /\ WeeklyAvailability.start_time Examples.block_23_00
     < WeeklyAvailability.end_time Examples.block_23_00
  /\ (WeeklyAvailability.end_time Examples.block_23_00
      - WeeklyAvailability.start_time Examples.block_23_00)
     / timedelta_minutes 30 = 1
  /\ (forall fuel : nat,
        (2 <= fuel)%nat ->
        generate_slots fuel Examples.block_23_00 Examples.last_day 30
        = Some (Raises OverflowError))
  /\ ~ (exists (fuel : nat) (slots : list Slot),
          generate_slots fuel Examples.block_23_00 Examples.last_day 30
          = Some (Returns slots)).
Proof.
  assert (generate_slots 2 Examples.block_23_00 Examples.last_day 30
          = Some (Raises OverflowError)) as Hrun by (vm_compute; reflexivity).
  split; [vm_compute; split; discriminate|].
  split; [reflexivity|]. split; [reflexivity|]. split; [reflexivity|].
  split.
  - intros fuel Hle. eapply generate_slots_mono; [exact Hrun | exact Hle].
  - intros (fuel & slots & Hrun').
    pose proof (generate_slots_deterministic _ _ _ _ _ _ _ Hrun Hrun').
    discriminate.
Qed.

(** ** The conflict checker *)

Section ConflictChecker.

Variables (db : Store) (self : Tutor.t) (start_dt end_dt : Z).

Lemma overlaps_true_iff (exc : TutorException.t) :
  overlaps exc start_dt end_dt = true
  <-> TutorException.date exc = date_of start_dt
      /\ ~ (exists a b : Z,
              TutorException.start_time exc = Some a
              /\ TutorException.end_time exc = Some b
              /\ ~ (start_dt < combine (TutorException.date exc) b
                    /\ end_dt > combine (TutorException.date exc) a)).
Proof.
  unfold overlaps, is_full_day.
  destruct (Z.eqb_spec (TutorException.date exc) (date_of start_dt)) as [Hd|Hd];
    simpl; [|split; [discriminate | tauto]].
  destruct (TutorException.start_time exc) as [a|],
           (TutorException.end_time exc) as [b|]; simpl.
  - rewrite andb_true_iff, Z.ltb_lt, Z.gtb_gt. split.
    + intros Hov. split; [exact Hd|].
      intros (a' & b' & Ha & Hb & Hn). simplify_eq. tauto.
    + intros [_ Hn].
      destruct (Z_lt_dec start_dt (combine (TutorException.date exc) b));
        destruct (Z_gt_dec end_dt (combine (TutorException.date exc) a));
        try tauto; exfalso; apply Hn; exists a, b; repeat split; tauto.
  - split; [|reflexivity]. intros _. split; [exact Hd|].
    intros (a' & b' & _ & Hb & _). discriminate.
  - split; [|reflexivity]. intros _. split; [exact Hd|].
    intros (a' & b' & Ha & _). discriminate.
  - split; [|reflexivity]. intros _. split; [exact Hd|].
    intros (a' & b' & Ha & _). discriminate.
Qed.

Lemma exception_hit_false_iff :
  exception_hit db self start_dt end_dt = false
  <-> forall exc : TutorException.t,
        In exc (exceptions_of db self) ->
        TutorException.date exc = date_of start_dt ->
        exists a b : Z,
          TutorException.start_time exc = Some a
          /\ TutorException.end_time exc = Some b
          /\ ~ (start_dt < combine (TutorException.date exc) b
                /\ end_dt > combine (TutorException.date exc) a).
Proof.
  unfold exception_hit. rewrite <- not_true_iff_false, existsb_exists. split.
  - intros Hnone exc Hin Hdate.
    destruct (overlaps exc start_dt end_dt) eqn:Hov.
    + exfalso. apply Hnone. exists exc. split; assumption.
    + apply not_true_iff_false in Hov. rewrite overlaps_true_iff in Hov.
      destruct (TutorException.start_time exc) as [a|] eqn:Ha,
               (TutorException.end_time exc) as [b|] eqn:Hb;
        try (exfalso; apply Hov; split; [exact Hdate|];
             intros (a' & b' & Ha' & Hb' & _); congruence).
      exists a, b. split; [reflexivity|]. split; [reflexivity|].
      intros Hn. apply Hov. split; [exact Hdate|].
      intros (a' & b' & Ha' & Hb' & Hn'). simplify_eq. tauto.
  - intros Hall (exc & Hin & Hov).
    apply overlaps_true_iff in Hov as [Hdate Hn].
    apply Hn, Hall; assumption.
Qed.

Lemma block_matches_true_iff :
  block_matches db self start_dt end_dt = true
  <-> exists block : WeeklyAvailability.t,
        In block (weekly_availability_of db self)
        /\ WeeklyAvailability.day_of_week block = weekday (date_of start_dt)
        /\ WeeklyAvailability.start_time block <= time_of start_dt
        /\ WeeklyAvailability.end_time block >= time_of end_dt.
Proof.
  unfold block_matches, availability_for_day. rewrite existsb_exists.
  split.
  - intros (block & Hin & Hb).
    apply filter_In in Hin as [Hin Hday].
    apply andb_true_iff in Hb as [Hs He].
    exists block. repeat split; [exact Hin | lia..].
  - intros (block & Hin & Hday & Hs & He).
    exists block. split.
    + apply filter_In. split; [exact Hin | lia].
    + apply andb_true_iff. split; lia.
Qed.

Lemma booking_hit_false_iff :
  booking_hit db self start_dt end_dt = false
  <-> forall b : Booking.t,
        In b (bookings_of db self) ->
        Booking.is_canceled b = false ->
        ~ (Booking.start_time b < end_dt /\ Booking.end_time b > start_dt).
Proof.
  unfold booking_hit. rewrite <- not_true_iff_false, existsb_exists. split.
  - intros Hnone b Hin Hactive Hov. apply Hnone. exists b.
    split; [exact Hin|]. rewrite Hactive. apply andb_true_iff. split; lia.
  - intros Hall (b & Hin & Hb).
    destruct (Booking.is_canceled b) eqn:Hc; [discriminate|].
    apply andb_true_iff in Hb as [Hs He].
    apply (Hall b Hin Hc). split; lia.
Qed.

Lemma is_available_gates :
  is_available_for_slot db self start_dt end_dt
  = negb (exception_hit db self start_dt end_dt)
    && block_matches db self start_dt end_dt
    && negb (booking_hit db self start_dt end_dt).
Proof.
  unfold is_available_for_slot.
  destruct (exception_hit db self start_dt end_dt),
           (block_matches db self start_dt end_dt),
           (booking_hit db self start_dt end_dt); reflexivity.
Qed.

Lemma check_gates_forallb (order : list Gate) :
  check_gates db self start_dt end_dt order
  = forallb (gate_passes db self start_dt end_dt) order.
Proof.
  induction order as [|g rest IH]; [reflexivity|].
  simpl. rewrite IH.
  destruct (gate_passes db self start_dt end_dt g); reflexivity.
Qed.

Lemma check_gates_permutation (order order' : list Gate) :
  Permutation order order' ->
  check_gates db self start_dt end_dt order
  = check_gates db self start_dt end_dt order'.
Proof.
  intros Hperm. rewrite !check_gates_forallb.
  induction Hperm as [|g l l' _ IH|g g' l|l l' l'' _ IH1 _ IH2]; simpl.
  - reflexivity.
  - rewrite IH. reflexivity.
  - destruct (gate_passes db self start_dt end_dt g),
             (gate_passes db self start_dt end_dt g'); reflexivity.
  - congruence.
Qed.

End ConflictChecker.

(** C2. [is_available_for_slot] answers true exactly when (1) every exception
    of the tutor on start's date is a partial one that does not overlap
    [start,end), (2) some weekly block of the tutor on start's weekday has
    block.start <= start.time and block.end >= end.time, and (3) no
    non-canceled booking of the tutor has booking.start < end and
    booking.end > start; evaluating the three gates in any order, leaving at
    the first that fails, gives the same answer. *)
Theorem is_available_for_slot_iff
    (db : Store) (self : Tutor.t) (start_dt end_dt : Z) :
  (is_available_for_slot db self start_dt end_dt = true
   <-> (forall exc : TutorException.t,
          In exc (exceptions_of db self) ->
          TutorException.date exc = date_of start_dt ->
          exists a b : Z,
            TutorException.start_time exc = Some a
            /\ TutorException.end_time exc = Some b
            /\ ~ (start_dt < combine (TutorException.date exc) b
                  /\ end_dt > combine (TutorException.date exc) a))
       /\ (exists block : WeeklyAvailability.t,
             In block (weekly_availability_of db self)
             /\ WeeklyAvailability.day_of_week block = weekday (date_of start_dt)
             /\ WeeklyAvailability.start_time block <= time_of start_dt
             /\ WeeklyAvailability.end_time block >= time_of end_dt)
       /\ (forall b : Booking.t,
             In b (bookings_of db self) ->
             Booking.is_canceled b = false ->
             ~ (Booking.start_time b < end_dt /\ Booking.end_time b > start_dt)))
  /\ (forall order : list Gate,
        Permutation order [ExceptionGate; BlockGate; BookingGate] ->
        check_gates db self start_dt end_dt order
        = is_available_for_slot db self start_dt end_dt).
Proof.
  split.
  - rewrite is_available_gates, !andb_true_iff, !negb_true_iff.
    rewrite exception_hit_false_iff, block_matches_true_iff, booking_hit_false_iff.
    tauto.
  - intros order Hperm.
    rewrite (check_gates_permutation _ _ _ _ _ _ Hperm), is_available_gates.
    simpl.
    destruct (exception_hit db self start_dt end_dt),
             (block_matches db self start_dt end_dt),
             (booking_hit db self start_dt end_dt); reflexivity.
Qed.

(** Tutor A at 15:00-15:30 on the Monday, bookings checked first. *)
Lemma is_available_for_slot_iff_witness :
  check_gates Examples.db_a_booked Examples.tutor_a
    (combine Examples.monday (time 15 0 0))
    (combine Examples.monday (time 15 30 0))
    [BookingGate; ExceptionGate; BlockGate]
  = is_available_for_slot Examples.db_a_booked Examples.tutor_a
      (combine Examples.monday (time 15 0 0))
      (combine Examples.monday (time 15 30 0)).
Proof.
  apply (is_available_for_slot_iff Examples.db_a_booked Examples.tutor_a).
  apply (Permutation_cons_append [ExceptionGate; BlockGate] BookingGate).
Defined.

(** C4 (as amended: the full-day exception lies on the date of the interval's
    start). If the tutor has a full-day exception on start's date,
    [is_available_for_slot] answers false whatever the time of day. *)
Theorem full_day_exception_blocks
    (db : Store) (self : Tutor.t) (start_dt end_dt : Z) (exc : TutorException.t) :
  In exc (exceptions_of db self) ->
  is_full_day exc = true ->
  TutorException.date exc = date_of start_dt ->
  is_available_for_slot db self start_dt end_dt = false.
Proof.
  intros Hin Hfull Hdate.
  unfold is_available_for_slot.
  replace (exception_hit db self start_dt end_dt) with true; [reflexivity|].
  symmetry. apply existsb_exists. exists exc. split; [exact Hin|].
  unfold overlaps. rewrite Hdate, Z.eqb_refl, Hfull. reflexivity.
Qed.

(** Tutor A, blacked out on the Monday, is not available at 15:00 that day. *)
Lemma full_day_exception_blocks_witness :
  is_available_for_slot Examples.db_a_blackout Examples.tutor_a
    (combine Examples.monday (time 15 0 0))
    (combine Examples.monday (time 15 30 0)) = false.
Proof.
  apply (full_day_exception_blocks _ _ _ _ Examples.blackout_monday).
  - simpl. left. reflexivity.
  - reflexivity.
  - reflexivity.
Defined.

(** C4 as stated fails for an interval that runs past midnight: Monday 23:30
    to Tuesday 00:30 meets the Tuesday, on which the tutor has a full-day
    exception, and [is_available_for_slot] answers true, because exceptions
    are looked up on the date of the start only. *)
Lemma full_day_exception_next_day_missed :
  ~ (forall (db : Store) (self : Tutor.t) (start_dt end_dt : Z)
            (exc : TutorException.t),
       start_dt < end_dt ->
       In exc (exceptions_of db self) ->
       is_full_day exc = true ->
       intersects_date start_dt end_dt (TutorException.date exc) ->
       is_available_for_slot db self start_dt end_dt = false).
Proof.
  intros Hclaim.
  specialize (Hclaim Examples.db_a_night Examples.tutor_a
                (combine Examples.monday (time 23 30 0))
                (combine Examples.tuesday (time 0 30 0))
                Examples.blackout_tuesday).
  assert (is_available_for_slot Examples.db_a_night Examples.tutor_a
            (combine Examples.monday (time 23 30 0))
            (combine Examples.tuesday (time 0 30 0)) = true) as Hfree
    by (vm_compute; reflexivity).
  rewrite Hclaim in Hfree; [discriminate | | | |].
  - vm_compute. reflexivity.
  - simpl. left. reflexivity.
  - reflexivity.
  - split; vm_compute; reflexivity.
Qed.

(** ** The tutor selector *)

Section TutorSelector.

Lemma fold_left_min_spec (rest : list nat) (x : nat) :
  In (fold_left Nat.min rest x) (x :: rest)
  /\ forall y : nat, In y (x :: rest) -> (fold_left Nat.min rest x <= y)%nat.
Proof.
  revert x. induction rest as [|z rest IH]; intros x; simpl.
  - split; [left; reflexivity | intros y [<-|[]]; lia].
  - destruct (IH (Nat.min x z)) as [Hin Hle]. split.
    + destruct Hin as [Heq|Hin]; [|right; right; exact Hin].
      rewrite <- Heq. destruct (Nat.min_dec x z) as [->| ->]; auto.
    + intros y Hy.
      assert (fold_left Nat.min rest (Nat.min x z) <= Nat.min x z)%nat as Hm
        by (apply Hle; left; reflexivity).
      destruct Hy as [<-|[<-|Hy]]; [lia | lia |].
      apply Hle. right. exact Hy.
Qed.

Lemma py_min_spec (l : list nat) (m : nat) :
  py_min l = Some m -> In m l /\ forall y : nat, In y l -> (m <= y)%nat.
Proof.
  destruct l as [|x rest]; [discriminate|].
  simpl. intros [= <-]. apply fold_left_min_spec.
Qed.

Lemma py_min_none (l : list nat) : py_min l = None -> l = [].
Proof. destruct l; [reflexivity | discriminate]. Qed.

Lemma random_choice_in {A : Type} (rnd : nat) (seq : list A) :
  seq <> [] -> exists x : A, random_choice rnd seq = Some x /\ In x seq.
Proof.
  intros Hne. unfold random_choice.
  assert (rnd mod length seq < length seq)%nat as Hlt.
  { apply Nat.mod_upper_bound. destruct seq; [congruence | simpl; lia]. }
  destruct (nth_error seq (rnd mod length seq)) as [x|] eqn:Hx.
  - exists x. split; [reflexivity | eapply nth_error_In; exact Hx].
  - apply nth_error_None in Hx. lia.
Qed.

Variable db : Store.

Lemma total_bookings_load (t : Tutor.t) :
  total_bookings db t = load_of_id db (Tutor.id t).
Proof. reflexivity. Qed.

Lemma booking_counts_fold (candidates : list Tutor.t) (counts : gmap Z nat) (k : Z) :
  fold_left
    (fun counts tutor =>
       <[Tutor.id tutor :=
           length (List.filter (fun booking => negb (Booking.is_canceled booking))
                     (bookings_of db tutor))]> counts)
    candidates counts !! k
  = if existsb (fun t => Tutor.id t =? k) candidates
    then Some (load_of_id db k) else counts !! k.
Proof.
  revert counts. induction candidates as [|t rest IH]; intros counts; simpl.
  - reflexivity.
  - rewrite IH.
    destruct (existsb (fun t0 => Tutor.id t0 =? k) rest);
      [rewrite orb_true_r; reflexivity|].
    rewrite orb_false_r.
    destruct (Z.eqb_spec (Tutor.id t) k) as [<-|Hne].
    + rewrite lookup_insert_eq. reflexivity.
    + rewrite lookup_insert_ne by exact Hne. reflexivity.
Qed.

Lemma booking_counts_candidate (candidates : list Tutor.t) (t : Tutor.t) :
  In t candidates ->
  booking_counts_of db candidates !! Tutor.id t = Some (total_bookings db t).
Proof.
  intros Hin. unfold booking_counts_of. rewrite booking_counts_fold.
  replace (existsb (fun t0 => Tutor.id t0 =? Tutor.id t) candidates) with true;
    [reflexivity|].
  symmetry. apply existsb_exists. exists t. split; [exact Hin | lia].
Qed.

Lemma booking_counts_value (candidates : list Tutor.t) (k : Z) (c : nat) :
  booking_counts_of db candidates !! k = Some c ->
  exists t : Tutor.t, In t candidates /\ total_bookings db t = c.
Proof.
  unfold booking_counts_of. rewrite booking_counts_fold.
  destruct (existsb (fun t => Tutor.id t =? k) candidates) eqn:Hex.
  - intros [= <-]. apply existsb_exists in Hex as (t & Hin & Hid).
    exists t. split; [exact Hin|].
    rewrite total_bookings_load. f_equal. lia.
  - rewrite lookup_empty. discriminate.
Qed.

(** What [pick_fair_tutor] computes on a non-empty candidate list. *)
Lemma pick_fair_tutor_smallest (rnd : nat) (candidates : list Tutor.t) :
  candidates <> [] ->
  exists (min_count : nat) (smallest : list Tutor.t),
    pick_fair_tutor db rnd candidates = random_choice rnd smallest
    /\ smallest <> []
    /\ (forall c : Tutor.t, In c candidates -> (min_count <= total_bookings db c)%nat)
    /\ (forall t : Tutor.t,
          In t smallest <-> In t candidates /\ total_bookings db t = min_count).
Proof.
  intros Hne.
  destruct candidates as [|t0 rest] eqn:Hcands; [congruence|].
  rewrite <- Hcands in *. clear Hne.
  assert (In t0 candidates) as Hin0 by (rewrite Hcands; left; reflexivity).
  assert (pick_fair_tutor db rnd candidates
          = match py_min (snd <$> map_to_list (booking_counts_of db candidates)) with
            | None => None
            | Some min_count =>
                random_choice rnd
                  (List.filter
                     (fun tutor =>
                        match booking_counts_of db candidates !! Tutor.id tutor with
                        | Some c => Nat.eqb c min_count
                        | None => false
                        end) candidates)
            end) as Hpick by (rewrite Hcands; reflexivity).
  rewrite Hpick. clear Hpick.
  destruct (py_min (snd <$> map_to_list (booking_counts_of db candidates)))
    as [min_count|] eqn:Hmin.
  - apply py_min_spec in Hmin as [Hmem Hle].
    assert (forall c : Tutor.t,
               In c candidates -> (min_count <= total_bookings db c)%nat) as Hall.
    { intros c Hc. apply Hle.
      apply list_elem_of_In, list_elem_of_fmap.
      exists (Tutor.id c, total_bookings db c). split; [reflexivity|].
      apply elem_of_map_to_list, booking_counts_candidate, Hc. }
    assert (forall t : Tutor.t,
               In t (List.filter
                       (fun tutor =>
                          match booking_counts_of db candidates !! Tutor.id tutor with
                          | Some c => Nat.eqb c min_count
                          | None => false
                          end) candidates)
               <-> In t candidates /\ total_bookings db t = min_count) as Hsmall.
    { intros t. rewrite filter_In. split.
      - intros [Hin Hc]. split; [exact Hin|].
        rewrite (booking_counts_candidate _ _ Hin) in Hc.
        apply Nat.eqb_eq, Hc.
      - intros [Hin Hc]. split; [exact Hin|].
        rewrite (booking_counts_candidate _ _ Hin).
        apply Nat.eqb_eq, Hc. }
    eexists min_count, _. split; [reflexivity|].
    split; [|split; [exact Hall | exact Hsmall]].
    apply list_elem_of_In, list_elem_of_fmap in Hmem as ([k c] & -> & Hkc).
    apply elem_of_map_to_list, booking_counts_value in Hkc as (t & Hin & Hc).
    intros Hnil.
    assert (In t []) as Habs; [|destruct Habs].
    rewrite <- Hnil. apply Hsmall. split; [exact Hin | exact Hc].
  - exfalso. apply py_min_none in Hmin.
    apply fmap_nil_inv in Hmin.
    pose proof (booking_counts_candidate candidates t0 Hin0) as Hlook.
    apply elem_of_map_to_list in Hlook. rewrite Hmin in Hlook.
    apply not_elem_of_nil in Hlook. exact Hlook.
Qed.

Lemma pick_fair_tutor_in (rnd : nat) (candidates : list Tutor.t) (t : Tutor.t) :
  pick_fair_tutor db rnd candidates = Some t -> In t candidates.
Proof.
  intros Hpick.
  destruct candidates as [|t0 rest] eqn:Hcands; [discriminate|].
  rewrite <- Hcands in *.
  assert (candidates <> []) as Hne by (rewrite Hcands; discriminate).
  destruct (pick_fair_tutor_smallest rnd candidates Hne)
    as (min_count & smallest & Hsel & Hsne & _ & Hsmall).
  destruct (random_choice_in rnd smallest Hsne) as (x & Hx & Hin).
  rewrite Hsel, Hx in Hpick. injection Hpick as ->.
  apply Hsmall in Hin. tauto.
Qed.

End TutorSelector.

(** C5. [pick_fair_tutor] returns none exactly for an empty candidate list;
    otherwise, whatever the random draw, it returns a candidate whose number
    of non-canceled bookings is the least among the candidates; and a
    candidate that alone has the least number is returned for every draw. *)
Theorem pick_fair_tutor_least_loaded
    (db : Store) (rnd : nat) (candidates : list Tutor.t) :
  (pick_fair_tutor db rnd candidates = None <-> candidates = [])
  /\ (forall t : Tutor.t,
        pick_fair_tutor db rnd candidates = Some t ->
        In t candidates
        /\ forall c : Tutor.t,
             In c candidates -> (total_bookings db t <= total_bookings db c)%nat)
  /\ (forall t : Tutor.t,
        In t candidates ->
        (forall c : Tutor.t,
           In c candidates ->
           (total_bookings db c <= total_bookings db t)%nat -> c = t) ->
        forall rnd' : nat, pick_fair_tutor db rnd' candidates = Some t).
Proof.
  destruct candidates as [|t0 rest] eqn:Hcands.
  { split; [split; reflexivity|]. split; [discriminate | intros t []]. }
  rewrite <- Hcands.
  assert (candidates <> []) as Hne by (rewrite Hcands; discriminate).
  split; [|split].
  - destruct (pick_fair_tutor_smallest db rnd candidates Hne)
      as (min_count & smallest & Hpick & Hsne & _ & _).
    destruct (random_choice_in rnd smallest Hsne) as (x & Hx & _).
    rewrite Hpick, Hx. split; [discriminate | intros Hnil; contradiction].
  - intros t Ht.
    destruct (pick_fair_tutor_smallest db rnd candidates Hne)
      as (min_count & smallest & Hpick & Hsne & Hall & Hsmall).
    destruct (random_choice_in rnd smallest Hsne) as (x & Hx & Hin).
    rewrite Hpick, Hx in Ht. injection Ht as ->.
    apply Hsmall in Hin as [Hin Hc].
    split; [exact Hin|]. intros c Hc'. rewrite Hc. apply Hall, Hc'.
  - intros t Hin Huniq rnd'.
    destruct (pick_fair_tutor_smallest db rnd' candidates Hne)
      as (min_count & smallest & Hpick & Hsne & Hall & Hsmall).
    destruct (random_choice_in rnd' smallest Hsne) as (x & Hx & Hxin).
    rewrite Hpick, Hx. f_equal.
    apply Hsmall in Hxin as [Hxin Hc].
    apply Huniq; [exact Hxin|]. rewrite Hc. apply Hall, Hin.
Qed.

(** Tutors A (load 3) and B (load 5): A is returned for every draw. *)
Lemma pick_fair_tutor_least_loaded_witness :
  total_bookings Examples.db_ab Examples.tutor_a = 3%nat
  /\ total_bookings Examples.db_ab Examples.tutor_b = 5%nat
  /\ forall rnd : nat,
       pick_fair_tutor Examples.db_ab rnd [Examples.tutor_a; Examples.tutor_b]
       = Some Examples.tutor_a.
Proof.
  split; [reflexivity|]. split; [reflexivity|].
  apply (pick_fair_tutor_least_loaded Examples.db_ab 0
           [Examples.tutor_a; Examples.tutor_b]).
  - left. reflexivity.
  - intros c [<-|[<-|[]]]; [reflexivity|].
    vm_compute. intros Hle. exfalso. lia.
Defined.

(** ** The booking window *)

Section BookingWindow.

Context `{PyLib}.

Lemma append_head_neq (c1 c2 : ascii) (s1 s2 t1 t2 : string) :
  c1 <> c2 -> (String c1 s1 ++ t1)%string <> (String c2 s2 ++ t2)%string.
Proof. intros Hne Heq. simpl in Heq. injection Heq as Hc _. contradiction. Qed.

Lemma reasons_distinct (suffix1 suffix2 : string) :
  (same_day_reason ++ suffix1)%string <> (after_cutoff_reason ++ suffix2)%string.
Proof. apply append_head_neq. discriminate. Qed.

Lemma minimum_bookable_date_early (env : Env) (now : Z) :
  time_of now < time 22 0 0 ->
  _minimum_bookable_date env (Some now) = date_of now + 1.
Proof.
  intros Hearly. unfold _minimum_bookable_date.
  destruct (Z.geb_spec (time_of now) (time 22 0 0)); [lia | reflexivity].
Qed.

Lemma minimum_bookable_date_late (env : Env) (now : Z) :
  time 22 0 0 <= time_of now ->
  _minimum_bookable_date env (Some now) = date_of now + 2.
Proof.
  intros Hlate. unfold _minimum_bookable_date.
  destruct (Z.geb_spec (time_of now) (time 22 0 0)); lia.
Qed.

Lemma minimum_bookable_date_at (env : Env) (D t : Z) :
  valid_time t ->
  _minimum_bookable_date env (Some (combine D t))
  = if t >=? time 22 0 0 then D + 2 else D + 1.
Proof.
  intros Ht. unfold _minimum_bookable_date.
  rewrite (date_of_combine D t Ht), (time_of_combine D t Ht).
  destruct (t >=? time 22 0 0); lia.
Qed.

End BookingWindow.

(** C6. [_minimum_bookable_date] is the day after [now]'s date when [now]'s
    time of day is before 22:00 (so at 21:00:00 and at 21:59:59 of a day D it
    is D+1) and two days after it from 22:00 on; [_booking_window_status]
    denies exactly the target dates before that date, with one reason when
    the target is today or earlier and a different one when it is later,
    which happens only after the 22:00 cutoff. *)
Theorem booking_window_policy `{PyLib} (env : Env) (now target_date D : Z) :
  (time_of now < time 22 0 0 ->
   _minimum_bookable_date env (Some now) = date_of now + 1)
  /\ (time 22 0 0 <= time_of now ->
      _minimum_bookable_date env (Some now) = date_of now + 2)
  /\ _minimum_bookable_date env (Some (combine D (time 21 0 0))) = D + 1
  /\ _minimum_bookable_date env (Some (combine D (time 21 59 59))) = D + 1
  /\ _minimum_bookable_date env (Some (combine D (time 22 0 0))) = D + 2
  /\ _minimum_bookable_date env None
     = _minimum_bookable_date env (Some (pacific_now env))
  /\ (let status := _booking_window_status env target_date in
      let allowed := status.1.1 in
      let message := status.1.2 in
      let min_date := status.2 in
      let suffix :=
        (" Earliest available date is " ++ strftime_long min_date)%string in
      min_date = _minimum_bookable_date env (Some (pacific_now env))
      /\ (allowed = false <-> target_date < min_date)
      /\ (allowed = true -> message = ""%string)
      /\ (allowed = false -> target_date <= date_of (pacific_now env) ->
          message = (same_day_reason ++ suffix)%string)
      /\ (allowed = false -> date_of (pacific_now env) < target_date ->
          message = (after_cutoff_reason ++ suffix)%string
          /\ time 22 0 0 <= time_of (pacific_now env)
          /\ target_date = date_of (pacific_now env) + 1)
      /\ (same_day_reason ++ suffix)%string <> (after_cutoff_reason ++ suffix)%string).
Proof.
  split; [apply minimum_bookable_date_early|].
  split; [apply minimum_bookable_date_late|].
  split; [rewrite minimum_bookable_date_at by (split; [discriminate | reflexivity]);
          reflexivity|].
  split; [rewrite minimum_bookable_date_at by (split; [discriminate | reflexivity]);
          reflexivity|].
  split; [rewrite minimum_bookable_date_at by (split; [discriminate | reflexivity]);
          reflexivity|].
  split; [reflexivity|].
  unfold _booking_window_status.
  set (min_date := _minimum_bookable_date env (Some (pacific_now env))).
  destruct (Z.ltb_spec target_date min_date) as [Hlt|Hge]; simpl.
  - split; [reflexivity|]. split; [tauto|]. split; [discriminate|].
    split; [|split].
    + intros _ Hpast.
      destruct (Z.leb_spec target_date (date_of (pacific_now env))); [reflexivity | lia].
    + intros _ Hfuture.
      destruct (Z.leb_spec target_date (date_of (pacific_now env))); [lia|].
      split; [reflexivity|].
      destruct (Z_lt_le_dec (time_of (pacific_now env)) (time 22 0 0)) as [He|Hl].
      * pose proof (minimum_bookable_date_early env _ He) as Hmin. fold min_date in Hmin. lia.
      * pose proof (minimum_bookable_date_late env _ Hl) as Hmin. fold min_date in Hmin. lia.
    + apply reasons_distinct.
  - split; [reflexivity|]. split; [split; [discriminate | lia]|].
    split; [reflexivity|]. split; [discriminate|]. split; [discriminate|].
    apply reasons_distinct.
Qed.

(** At 21:59:59 on the Monday the next day is bookable; at 22:30 on the
    Sunday the Monday is denied for the cutoff. *)
Lemma booking_window_policy_witness :
  @_minimum_bookable_date Examples.env_late
    (Some (combine Examples.monday (time 21 59 59))) = Examples.tuesday
  /\ (@_booking_window_status Examples.lib Examples.env_late Examples.monday).1.2
     = "After 10:00 PM Pacific, next-day sessions close. Earliest available date is January 02, 2024"%string.
Proof.
  pose proof (@booking_window_policy Examples.lib Examples.env_late
                (combine Examples.monday (time 21 59 59))
                Examples.monday Examples.monday)
    as (Hearly & _ & _ & _ & _ & _ & _ & _ & _ & _ & Hcut & _).
  split.
  - rewrite Hearly by (vm_compute; reflexivity). reflexivity.
  - destruct Hcut as (Hmsg & _); [reflexivity | vm_compute; reflexivity |].
    rewrite Hmsg. reflexivity.
Defined.

(** ** The booking transaction *)

Section BookingTransaction.

Context `{PyLib}.

Lemma commit_new_booking_error (env : Env) (db : Store) (row : Booking.t) :
  (commit_new_booking env db row = inl IntegrityError
   <-> storage_fault env = false /\ violates_uq_tutor_booking_start db row = true)
  /\ (commit_new_booking env db row = inl OperationalError
      <-> storage_fault env = true).
Proof.
  unfold commit_new_booking.
  destruct (storage_fault env), (violates_uq_tutor_booking_start db row);
    split; split; intros; try discriminate; try tauto;
    try (destruct_and?; discriminate).
Qed.

Lemma book_commit_failed (env : Env) (form_values : BookForm) (db : Store)
    (booking : Booking.t) (tutor : Tutor.t) (subject : Subject.t)
    (exc : CommitError) :
  book_prepare env form_values db = inr (booking, tutor, subject) ->
  commit_new_booking env db booking = inl exc ->
  book env form_values db
  = (RenderBookingPage commit_failed_message "danger", db).
Proof. intros Hprep Hcommit. unfold book. rewrite Hprep, Hcommit. reflexivity. Qed.

Lemma book_no_candidate (env : Env) (form_values : BookForm) (db : Store)
    (request : BookRequest) :
  book_validate env form_values db = inr request ->
  available_tutors_for_slot db (req_subject_id request)
    (req_start_dt request) (req_end_dt request) = [] ->
  book env form_values db = (RenderBookingPage capacity_message "warning", db).
Proof.
  intros Hval Hnone. unfold book, book_prepare.
  rewrite Hval, Hnone. reflexivity.
Qed.

End BookingTransaction.

(** C7 (as amended: the report is the one of any failed commit). When the
    commit of the new booking fails on the uniqueness constraint on (tutor,
    start time), [book] stores nothing and answers with the message it has
    for every exception of the commit; that answer differs from the one given
    when no tutor is eligible, and no other candidate is tried. *)
Theorem book_uniqueness_violation `{PyLib}
    (env : Env) (form_values : BookForm) (db : Store)
    (booking : Booking.t) (tutor : Tutor.t) (subject : Subject.t) :
  book_prepare env form_values db = inr (booking, tutor, subject) ->
  commit_new_booking env db booking = inl IntegrityError ->
  book env form_values db = (RenderBookingPage commit_failed_message "danger", db)
  /\ (forall (env' : Env) (form_values' : BookForm) (db' : Store)
             (request : BookRequest),
        book_validate env' form_values' db' = inr request ->
        available_tutors_for_slot db' (req_subject_id request)
          (req_start_dt request) (req_end_dt request) = [] ->
        (book env' form_values' db').1
        = RenderBookingPage capacity_message "warning"
        /\ (book env' form_values' db').1 <> (book env form_values db).1)
  /\ (forall (env' : Env) (form_values' : BookForm) (db' : Store)
             (booking' : Booking.t) (tutor' : Tutor.t) (subject' : Subject.t)
             (exc : CommitError),
        book_prepare env' form_values' db' = inr (booking', tutor', subject') ->
        commit_new_booking env' db' booking' = inl exc ->
        (book env' form_values' db').1 = (book env form_values db).1).
Proof.
  intros Hprep Hcommit.
  pose proof (book_commit_failed _ _ _ _ _ _ _ Hprep Hcommit) as Hbook.
  split; [exact Hbook|]. rewrite Hbook. simpl. split.
  - intros env' form' db' request Hval Hnone.
    rewrite (book_no_candidate _ _ _ _ Hval Hnone). simpl.
    split; [reflexivity | discriminate].
  - intros env' form' db' booking' tutor' subject' exc Hprep' Hcommit'.
    rewrite (book_commit_failed _ _ _ _ _ _ _ Hprep' Hcommit'). reflexivity.
Qed.

(** Tutor A is selected for 15:30 and the canceled row of A at 15:30 holds
    the key: the booking fails although tutor B was eligible too. *)
Lemma book_uniqueness_violation_witness :
  available_tutors_for_slot Examples.db_ab_canceled 1
    (combine Examples.monday (time 15 30 0))
    (combine Examples.monday (time 16 0 0))
  = [Examples.tutor_a; Examples.tutor_b]
  /\ @book Examples.lib Examples.env_ok Examples.form_15_30 Examples.db_ab_canceled
     = (RenderBookingPage commit_failed_message "danger", Examples.db_ab_canceled).
Proof.
  split; [vm_compute; reflexivity|].
  eapply (@book_uniqueness_violation Examples.lib Examples.env_ok
            Examples.form_15_30 Examples.db_ab_canceled).
  - vm_compute. reflexivity.
  - vm_compute. reflexivity.
Defined.

(** C7 as stated fails: a commit that fails on the uniqueness constraint and
    a commit that fails because the store is out of order are reported with
    the same response. *)
Lemma book_race_conflict_not_distinct :
  ~ (forall (lib : PyLib) (env1 env2 : Env) (form1 form2 : BookForm)
            (db1 db2 : Store) (b1 b2 : Booking.t) (t1 t2 : Tutor.t)
            (s1 s2 : Subject.t),
       @book_prepare lib env1 form1 db1 = inr (b1, t1, s1) ->
       commit_new_booking env1 db1 b1 = inl IntegrityError ->
       @book_prepare lib env2 form2 db2 = inr (b2, t2, s2) ->
       commit_new_booking env2 db2 b2 = inl OperationalError ->
       (@book lib env1 form1 db1).1 <> (@book lib env2 form2 db2).1).
Proof.
  intros Hclaim.
  eapply (Hclaim Examples.lib Examples.env_ok Examples.env_fault
            Examples.form_15_30 Examples.form_15_30
            Examples.db_ab_canceled Examples.db_a).
  - vm_compute. reflexivity.
  - vm_compute. reflexivity.
  - vm_compute. reflexivity.
  - vm_compute. reflexivity.
  - vm_compute. reflexivity.
Qed.

(** ** Cancellation *)

Section Cancellation.

Context `{PyLib}.

Lemma str_prefix_length (n : nat) (s : string) :
  String.length (str_prefix n s) = Nat.min n (String.length s).
Proof.
  unfold str_prefix. revert s.
  induction n as [|n IH]; intros [|c s]; simpl; try reflexivity.
  rewrite IH. reflexivity.
Qed.

Lemma str_prefix_is_prefix (n : nat) (s : string) :
  String.prefix (str_prefix n s) s = true.
Proof.
  unfold str_prefix. revert s.
  induction n as [|n IH]; intros [|c s]; simpl; try reflexivity.
  destruct (ascii_dec c c); [apply IH | congruence].
Qed.

Lemma str_prefix_short (n : nat) (s : string) :
  (String.length s <= n)%nat -> str_prefix n s = s.
Proof.
  unfold str_prefix. revert s.
  induction n as [|n IH]; intros [|c s]; simpl; intros Hlen;
    try reflexivity; try lia.
  rewrite IH by lia. reflexivity.
Qed.

Lemma update_booking_lookup (booking_id : Z) (f : Booking.t -> Booking.t)
    (rows : list Booking.t) (i : nat) :
  update_booking booking_id f rows !! i
  = (fun b => if Booking.id b =? booking_id then f b else b) <$> rows !! i.
Proof. unfold update_booking. apply list_lookup_fmap. Qed.

Lemma with_bookings_same (db : Store) : with_bookings db (bookings db) = db.
Proof. destruct db. reflexivity. Qed.

(** The two outcomes of [cancel_booking] on the store. *)
Lemma cancel_booking_store (env : Env) (session_tutor_id : option Z)
    (booking_id : Z) (form_cancel_reason : string) (db : Store) :
  let db' := (cancel_booking env session_tutor_id booking_id
                form_cancel_reason db).2 in
  let stripped := py_strip form_cancel_reason in
  let reason := if str_bool stripped then Some stripped else None in
  db' = db
  \/ (exists (tutor : Tutor.t) (booking : Booking.t),
        get_current_tutor session_tutor_id db = Some tutor
        /\ List.find (fun b => Booking.id b =? booking_id) (bookings db)
           = Some booking
        /\ Booking.tutor_id booking = Tutor.id tutor
        /\ Booking.is_canceled booking = false
        /\ storage_fault env = false
        /\ db' = with_bookings db
                   (update_booking booking_id
                      (mark_canceled (utcnow env) reason) (bookings db))).
Proof.
  unfold cancel_booking.
  destruct (get_current_tutor session_tutor_id db) as [tutor|]; [|left; reflexivity].
  destruct (List.find (fun b => Booking.id b =? booking_id) (bookings db))
    as [booking|]; [|left; reflexivity].
  destruct (Z.eqb_spec (Booking.tutor_id booking) (Tutor.id tutor)) as [Hown|Hown];
    simpl; [|left; reflexivity].
  destruct (Booking.is_canceled booking) eqn:Hc; [left; reflexivity|].
  destruct (storage_fault env) eqn:Hfault; [left; reflexivity|].
  right. exists tutor, booking. repeat split; assumption.
Qed.

End Cancellation.

(** C9. [cancel_booking] on an already-canceled booking leaves the store as
    it is. On a non-canceled booking of the logged-in tutor it sets the
    canceled flag, the cancellation time and the reason (the submitted text
    without surrounding whitespace, cut to its first 255 characters, or none
    when that text is empty). In every case each row of the bookings table
    stays in place with its id, tutor, subject, student name and phone,
    start, end and creation time, rows with another id stay as they are, and
    the other tables are unchanged. *)
Theorem cancel_booking_frame `{PyLib} (env : Env) (session_tutor_id : option Z)
    (booking_id : Z) (form_cancel_reason : string) (db : Store) :
  let db' := (cancel_booking env session_tutor_id booking_id
                form_cancel_reason db).2 in
  let stripped := py_strip form_cancel_reason in
  (forall b : Booking.t,
     List.find (fun b => Booking.id b =? booking_id) (bookings db) = Some b ->
     Booking.is_canceled b = true ->
     db' = db)
  /\ (forall (tutor : Tutor.t) (b : Booking.t),
        get_current_tutor session_tutor_id db = Some tutor ->
        List.find (fun b => Booking.id b =? booking_id) (bookings db) = Some b ->
        Booking.tutor_id b = Tutor.id tutor ->
        Booking.is_canceled b = false ->
        storage_fault env = false ->
        forall (i : nat) (row : Booking.t),
          bookings db !! i = Some row ->
          Booking.id row = booking_id ->
          exists row' : Booking.t,
            bookings db' !! i = Some row'
            /\ Booking.is_canceled row' = true
            /\ Booking.canceled_at row' = Some (utcnow env)
            /\ Booking.cancel_reason row'
               = (if str_bool stripped then Some (str_prefix 255 stripped) else None)
            /\ (String.length (str_prefix 255 stripped) <= 255)%nat
            /\ String.prefix (str_prefix 255 stripped) stripped = true)
  /\ length (bookings db') = length (bookings db)
  /\ (forall (i : nat) (row : Booking.t),
        bookings db !! i = Some row ->
        exists row' : Booking.t,
          bookings db' !! i = Some row'
          /\ Booking.id row' = Booking.id row
          /\ Booking.tutor_id row' = Booking.tutor_id row
          /\ Booking.subject_id row' = Booking.subject_id row
          /\ Booking.student_name row' = Booking.student_name row
          /\ Booking.student_phone row' = Booking.student_phone row
          /\ Booking.start_time row' = Booking.start_time row
          /\ Booking.end_time row' = Booking.end_time row
          /\ Booking.created_at row' = Booking.created_at row
          /\ (Booking.id row <> booking_id -> row' = row))
  /\ subjects db' = subjects db
  /\ tutors db' = tutors db
  /\ tutor_subjects db' = tutor_subjects db
  /\ weekly_availability db' = weekly_availability db
  /\ tutor_exceptions db' = tutor_exceptions db.
Proof.
  intros db' stripped.
  pose proof (cancel_booking_store env session_tutor_id booking_id
                form_cancel_reason db) as Hstore.
  simpl in Hstore. fold db' stripped in Hstore.
  split; [|split].
  - intros b Hfind Hc.
    destruct Hstore as [Hsame|(tutor & b0 & _ & Hfind0 & _ & Hc0 & _)];
      [exact Hsame | congruence].
  - intros tutor b Htutor Hfind Hown Hc Hfault i row Hrow Hid.
    assert (db' = with_bookings db
                    (update_booking booking_id
                       (mark_canceled (utcnow env)
                          (if str_bool stripped then Some stripped else None))
                       (bookings db))) as ->.
    { unfold db', cancel_booking.
      rewrite Htutor, Hfind, Hown, Z.eqb_refl, Hc, Hfault. reflexivity. }
    simpl. rewrite update_booking_lookup, Hrow. simpl.
    rewrite Hid, Z.eqb_refl. eexists. split; [reflexivity|]. simpl.
    split; [reflexivity|]. split; [reflexivity|].
    split; [destruct (str_bool stripped); reflexivity|].
    split; [rewrite str_prefix_length; lia | apply str_prefix_is_prefix].
  - destruct Hstore as [->|(_ & _ & _ & _ & _ & _ & _ & ->)].
    + split; [reflexivity|].
      split; [|repeat split].
      intros i row Hrow. exists row. split; [exact Hrow|]. repeat split.
    + simpl. split; [unfold update_booking; apply length_map|].
      split; [|repeat split].
      intros i row Hrow. rewrite update_booking_lookup, Hrow. simpl.
      eexists. split; [reflexivity|].
      destruct (Z.eqb_spec (Booking.id row) booking_id) as [Hid|Hid];
        simpl; repeat split; try reflexivity; intros; congruence.
Qed.

(** Tutor A cancels the booking 15:30-16:00. *)
Lemma cancel_booking_frame_witness :
  exists row' : Booking.t,
    bookings (@cancel_booking Examples.lib Examples.env_ok (Some 1) 1
                "Sick today" Examples.db_a_booked).2 !! 0%nat = Some row'
    /\ Booking.is_canceled row' = true
    /\ Booking.cancel_reason row' = Some "Sick today"%string.
Proof.
  destruct (@cancel_booking_frame Examples.lib Examples.env_ok (Some 1) 1
              "Sick today" Examples.db_a_booked) as (_ & Hset & _).
  destruct (Hset Examples.tutor_a (Examples.booking 1 1 15 30 16 0 false)
              eq_refl eq_refl eq_refl eq_refl eq_refl
              0%nat (Examples.booking 1 1 15 30 16 0 false) eq_refl eq_refl)
    as (row' & Hrow & Hflag & _ & Hreason & _).
  exists row'. split; [exact Hrow|]. split; [exact Hflag | exact Hreason].
Defined.

(** ** The non-overlap invariant *)

Section Invariant.

Context `{PyLib}.

Lemma conflicting_sym (b1 b2 : Booking.t) : conflicting b1 b2 -> conflicting b2 b1.
Proof. unfold conflicting. intuition congruence. Qed.

Lemma no_double_booking_append (db : Store) (row : Booking.t) :
  no_double_booking db ->
  (forall b : Booking.t, In b (bookings db) -> ~ conflicting b row) ->
  no_double_booking (with_bookings db (bookings db ++ [row])).
Proof.
  intros Hinv Hnew i j b1 b2 Hij H1 H2. simpl in H1, H2.
  apply lookup_app_Some in H1 as [H1|[Hi H1]];
    apply lookup_app_Some in H2 as [H2|[Hj H2]].
  - exact (Hinv i j b1 b2 Hij H1 H2).
  - apply list_lookup_singleton_Some in H2 as [_ <-].
    apply Hnew, list_elem_of_In, list_elem_of_lookup. exists i. exact H1.
  - apply list_lookup_singleton_Some in H1 as [_ <-].
    intros Hc. apply conflicting_sym in Hc. revert Hc.
    apply Hnew, list_elem_of_In, list_elem_of_lookup. exists j. exact H2.
  - apply list_lookup_singleton_Some in H1 as [Hi0 _].
    apply list_lookup_singleton_Some in H2 as [Hj0 _]. lia.
Qed.

Lemma no_double_booking_cancel (db : Store) (booking_id now : Z)
    (reason : option string) :
  no_double_booking db ->
  no_double_booking
    (with_bookings db
       (update_booking booking_id (mark_canceled now reason) (bookings db))).
Proof.
  intros Hinv i j b1 b2 Hij H1 H2 Hc. simpl in H1, H2.
  rewrite update_booking_lookup in H1, H2.
  destruct (bookings db !! i) as [r1|] eqn:Hr1; [|discriminate].
  destruct (bookings db !! j) as [r2|] eqn:Hr2; [|discriminate].
  simpl in H1, H2. injection H1 as <-. injection H2 as <-.
  destruct Hc as (Ht & Hc1 & Hc2 & Hs1 & Hs2).
  destruct (Booking.id r1 =? booking_id); [discriminate|].
  destruct (Booking.id r2 =? booking_id); [discriminate|].
  apply (Hinv i j r1 r2 Hij Hr1 Hr2). repeat split; assumption.
Qed.

Lemma bookings_of_In (db : Store) (tutor : Tutor.t) (b : Booking.t) :
  In b (bookings_of db tutor)
  <-> In b (bookings db) /\ Booking.tutor_id b = Tutor.id tutor.
Proof. unfold bookings_of. rewrite filter_In, Z.eqb_eq. reflexivity. Qed.

(** The row that [book] is about to insert belongs to a tutor that
    [is_available_for_slot] has just accepted for its interval. *)
Lemma book_prepare_available (env : Env) (form_values : BookForm) (db : Store)
    (booking : Booking.t) (tutor : Tutor.t) (subject : Subject.t) :
  book_prepare env form_values db = inr (booking, tutor, subject) ->
  Booking.tutor_id booking = Tutor.id tutor
  /\ Booking.is_canceled booking = false
  /\ is_available_for_slot db tutor
       (Booking.start_time booking) (Booking.end_time booking) = true.
Proof.
  unfold book_prepare.
  destruct (book_validate env form_values db) as [response|request];
    [discriminate|].
  destruct (pick_fair_tutor db (random_index env)
              (available_tutors_for_slot db (req_subject_id request)
                 (req_start_dt request) (req_end_dt request)))
    as [picked|] eqn:Hpick; [|discriminate].
  intros [= <- <- <-]. simpl.
  split; [reflexivity|]. split; [reflexivity|].
  apply pick_fair_tutor_in in Hpick.
  unfold available_tutors_for_slot in Hpick.
  apply filter_In in Hpick. tauto.
Qed.

Lemma book_preserves (env : Env) (form_values : BookForm) (db : Store) :
  no_double_booking db -> no_double_booking (book env form_values db).2.
Proof.
  intros Hinv. unfold book.
  destruct (book_prepare env form_values db) as [response|[[booking tutor] subject]]
    eqn:Hprep; [exact Hinv|].
  destruct (book_prepare_available _ _ _ _ _ _ Hprep) as (Htutor & Hactive & Hfree).
  unfold commit_new_booking.
  destruct (storage_fault env); [exact Hinv|].
  destruct (violates_uq_tutor_booking_start db booking); [exact Hinv|].
  simpl. apply no_double_booking_append; [exact Hinv|].
  intros b Hb (Ht & Hc1 & _ & Hs1 & Hs2). simpl in *.
  rewrite is_available_gates, !andb_true_iff, !negb_true_iff in Hfree.
  destruct Hfree as [_ Hbook].
  rewrite booking_hit_false_iff in Hbook.
  apply (Hbook b); [|exact Hc1|lia].
  apply bookings_of_In. split; [exact Hb | congruence].
Qed.

Lemma cancel_preserves (env : Env) (session_tutor_id : option Z)
    (booking_id : Z) (form_cancel_reason : string) (db : Store) :
  no_double_booking db ->
  no_double_booking
    (cancel_booking env session_tutor_id booking_id form_cancel_reason db).2.
Proof.
  intros Hinv.
  destruct (cancel_booking_store env session_tutor_id booking_id
              form_cancel_reason db) as [->|(_ & _ & _ & _ & _ & _ & _ & ->)];
    [exact Hinv | apply no_double_booking_cancel, Hinv].
Qed.

Lemma step_preserves (db : Store) (op : Op) :
  no_double_booking db -> no_double_booking (step db op).
Proof.
  destruct op; simpl; [apply book_preserves | apply cancel_preserves].
Qed.

End Invariant.

(** C1. If no two non-canceled bookings of one tutor overlap in a store,
    then none do after any sequence of [book] and [cancel_booking] requests
    run one after the other from that store. *)
Theorem no_double_booking_preserved `{PyLib} (ops : list Op) (db : Store) :
  no_double_booking db -> no_double_booking (run ops db).
Proof.
  unfold run. revert db.
  induction ops as [|op ops IH]; intros db Hinv; simpl; [exact Hinv|].
  apply IH, step_preserves, Hinv.
Qed.

(** Tutor A is booked at 15:00 and at 15:30, the first booking is canceled,
    and 15:00 is asked for again. *)
Lemma no_double_booking_preserved_witness :
  no_double_booking
    (@run Examples.lib
       [OpBook Examples.env_ok Examples.form_15_00;
        OpBook Examples.env_ok Examples.form_15_30;
        OpCancel Examples.env_ok (Some 1) 1 "";
        OpBook Examples.env_ok Examples.form_15_00]
       Examples.db_a).
Proof.
  apply (@no_double_booking_preserved Examples.lib).
  intros i j b1 b2 _ Hb1. destruct i; discriminate Hb1.
Defined.
(** ** The availability aggregator *)

Section FoldKeys.

(** A loop over [l] whose body, once it has failed, does nothing more, and
    otherwise extends the key set of the mapping by the keys [R a] of the
    element at hand. *)
Variables (A : Type)
  (f : option (Outcome (gmap Z (list Tutor.t))) -> A
       -> option (Outcome (gmap Z (list Tutor.t))))
  (R : A -> Z -> Prop).

Hypothesis f_none : forall a : A, f None a = None.

Hypothesis f_raises :
  forall (e : Exception) (a : A), f (Some (Raises e)) a = Some (Raises e).

Hypothesis f_step :
  forall (m m' : gmap Z (list Tutor.t)) (a : A),
    f (Some (Returns m)) a = Some (Returns m') ->
    (forall k : Z, is_Some (m' !! k) <-> is_Some (m !! k) \/ R a k)
    /\ (no_empty_list m -> no_empty_list m').

Lemma fold_left_none (l : list A) : fold_left f l None = None.
Proof. induction l as [|a l IH]; simpl; [reflexivity | rewrite f_none; exact IH]. Qed.

Lemma fold_left_raises (l : list A) (e : Exception) :
  fold_left f l (Some (Raises e)) = Some (Raises e).
Proof. induction l as [|a l IH]; simpl; [reflexivity | rewrite f_raises; exact IH]. Qed.

(** A loop that returns has returned from every iteration. *)
Lemma fold_left_returned (a : A) (l : list A) (m m' : gmap Z (list Tutor.t)) :
  fold_left f (a :: l) (Some (Returns m)) = Some (Returns m') ->
  exists m1 : gmap Z (list Tutor.t),
    f (Some (Returns m)) a = Some (Returns m1)
    /\ fold_left f l (Some (Returns m1)) = Some (Returns m').
Proof.
  simpl. destruct (f (Some (Returns m)) a) as [[m1|e]|].
  - eauto.
  - rewrite fold_left_raises. discriminate.
  - rewrite fold_left_none. discriminate.
Qed.

Lemma fold_left_keys (l : list A) (m m' : gmap Z (list Tutor.t)) :
  fold_left f l (Some (Returns m)) = Some (Returns m') ->
  (forall k : Z,
      is_Some (m' !! k) <-> is_Some (m !! k) \/ exists a : A, In a l /\ R a k)
  /\ (no_empty_list m -> no_empty_list m').
Proof.
  revert m. induction l as [|a l IH]; intros m Hrun.
  - injection Hrun as <-. split; [|tauto].
    intros k. split; [tauto | intros [Hk|(a & [] & _)]; exact Hk].
  - apply fold_left_returned in Hrun as (m1 & Hstep & Hrun).
    destruct (f_step _ _ _ Hstep) as [Hkeys1 Hne1].
    destruct (IH _ Hrun) as [Hkeys Hne].
    split; [|tauto].
    intros k. rewrite Hkeys, Hkeys1. split.
    + intros [[Hk|Hr]|(a' & Hin & Hr)]; [tauto | |].
      * right. exists a. split; [left; reflexivity | exact Hr].
      * right. exists a'. split; [right; exact Hin | exact Hr].
    + intros [Hk|(a' & [<-|Hin] & Hr)]; [tauto | tauto |].
      right. exists a'. split; assumption.
Qed.


(** A property of the mapping that every iteration keeps. *)
Lemma fold_left_preserves (P : gmap Z (list Tutor.t) -> Prop) (l : list A)
    (m m' : gmap Z (list Tutor.t)) :
  (forall (a : A) (m0 m1 : gmap Z (list Tutor.t)),
      In a l -> P m0 -> f (Some (Returns m0)) a = Some (Returns m1) -> P m1) ->
  P m ->
  fold_left f l (Some (Returns m)) = Some (Returns m') ->
  P m'.
Proof.
  revert m. induction l as [|a l IH]; intros m Hstep Hm Hrun.
  - injection Hrun as <-. exact Hm.
  - apply fold_left_returned in Hrun as (m1 & Ha & Hrun).
    apply (IH m1); [|eapply Hstep; [left; reflexivity | exact Hm | exact Ha]
                    |exact Hrun].
    intros a' m0 m2 Hin. apply Hstep. right. exact Hin.
Qed.

(** A second body that comes back wherever the first does, with its
    result. *)
Variable f' : option (Outcome (gmap Z (list Tutor.t))) -> A
              -> option (Outcome (gmap Z (list Tutor.t))).

Hypothesis f'_raises :
  forall (e : Exception) (a : A), f' (Some (Raises e)) a = Some (Raises e).

Hypothesis f_f' :
  forall (m : gmap Z (list Tutor.t)) (r : Outcome (gmap Z (list Tutor.t)))
         (a : A),
    f (Some (Returns m)) a = Some r -> f' (Some (Returns m)) a = Some r.

Lemma fold_left_transfer (l : list A) (m : gmap Z (list Tutor.t))
    (r : Outcome (gmap Z (list Tutor.t))) :
  fold_left f l (Some (Returns m)) = Some r ->
  fold_left f' l (Some (Returns m)) = Some r.
Proof.
  revert m. induction l as [|a l IH]; intros m Hrun; simpl in *; [exact Hrun|].
  destruct (f (Some (Returns m)) a) as [[m1|e]|] eqn:Hstep.
  - rewrite (f_f' _ _ _ Hstep). apply IH, Hrun.
  - rewrite (f_f' _ _ _ Hstep). rewrite fold_left_raises in Hrun.
    injection Hrun as <-. clear IH Hstep.
    induction l as [|a' l IH]; simpl; [reflexivity | rewrite f'_raises; exact IH].
  - rewrite fold_left_none in Hrun. discriminate.
Qed.

End FoldKeys.

Section FoldTotal.

Variables (A : Type)
  (f : option (Outcome (gmap Z (list Tutor.t))) -> A
       -> option (Outcome (gmap Z (list Tutor.t)))).

Lemma fold_left_total (l : list A) :
  (forall (a : A) (m : gmap Z (list Tutor.t)),
      In a l ->
      exists m' : gmap Z (list Tutor.t),
        f (Some (Returns m)) a = Some (Returns m')) ->
  forall m : gmap Z (list Tutor.t),
  exists m' : gmap Z (list Tutor.t),
    fold_left f l (Some (Returns m)) = Some (Returns m').
Proof.
  induction l as [|a l IH]; intros Hok m; simpl; [exists m; reflexivity|].
  destruct (Hok a m) as [m1 ->]; [left; reflexivity|].
  apply IH. intros a' m0 Hin. apply Hok. right. exact Hin.
Qed.

Hypothesis f_raises :
  forall (e : Exception) (a : A), f (Some (Raises e)) a = Some (Raises e).


End FoldTotal.

Section Aggregator.

Variables (slot_minutes : Z) (db : Store) (target_date : Z).

(** The tutors of the query, and the blocks of a tutor for a weekday, in
    terms of the tables. *)
Lemma active_tutors_for_subject_In (subject_id : Z) (tutor : Tutor.t) :
  In tutor (active_tutors_for_subject db subject_id)
  <-> In tutor (tutors db)
      /\ Tutor.is_active tutor = true
      /\ exists ts : TutorSubject.t,
           In ts (tutor_subjects db)
           /\ TutorSubject.tutor_id ts = Tutor.id tutor
           /\ TutorSubject.subject_id ts = subject_id.
Proof.
  unfold active_tutors_for_subject.
  rewrite filter_In, andb_true_iff, existsb_exists.
  split.
  - intros (Hin & Hactive & ts & Hts & Hrow).
    apply andb_true_iff in Hrow as [Ht Hs].
    apply Z.eqb_eq in Ht, Hs. eauto 8.
  - intros (Hin & Hactive & ts & Hts & Ht & Hs).
    split; [exact Hin|]. split; [exact Hactive|].
    exists ts. split; [exact Hts|].
    apply andb_true_iff. split; apply Z.eqb_eq; assumption.
Qed.

Lemma availability_for_day_In (tutor : Tutor.t) (day : Z)
    (block : WeeklyAvailability.t) :
  In block (availability_for_day db tutor day)
  <-> In block (weekly_availability db)
      /\ WeeklyAvailability.tutor_id block = Tutor.id tutor
      /\ WeeklyAvailability.day_of_week block = day.
Proof.
  unfold availability_for_day, weekly_availability_of.
  rewrite !filter_In, !Z.eqb_eq. tauto.
Qed.

Lemma setdefault_append_keys (slots : gmap Z (list Tutor.t)) (start_dt : Z)
    (tutor : Tutor.t) :
  (forall k : Z,
      is_Some (setdefault_append slots start_dt tutor !! k)
      <-> is_Some (slots !! k) \/ k = start_dt)
  /\ (no_empty_list slots -> no_empty_list (setdefault_append slots start_dt tutor)).
Proof.
  unfold setdefault_append. split.
  - intros k. rewrite lookup_insert_is_Some.
    destruct (decide (start_dt = k)) as [->|Hne]; [tauto|].
    split; [tauto | intros [Hk| ->]; [tauto | congruence]].
  - intros Hne k tutors Hk.
    destruct (decide (start_dt = k)) as [->|Hneq].
    + rewrite lookup_insert_eq in Hk. injection Hk as <-.
      destruct (default [] (slots !! k)); discriminate.
    + rewrite lookup_insert_ne in Hk by exact Hneq. exact (Hne k tutors Hk).
Qed.

Lemma fold_collect_slot (tutor : Tutor.t) (generated : list Slot)
    (slots : gmap Z (list Tutor.t)) :
  (forall k : Z,
      is_Some (fold_left (collect_slot db tutor) generated slots !! k)
      <-> is_Some (slots !! k)
          \/ exists end_dt : Z,
               In (k, end_dt) generated
               /\ is_available_for_slot db tutor k end_dt = true)
  /\ (no_empty_list slots ->
      no_empty_list (fold_left (collect_slot db tutor) generated slots)).
Proof.
  revert slots. induction generated as [|[s e] generated IH]; intros slots; simpl.
  - split; [|tauto]. intros k. split; [tauto | intros [Hk|(e & [] & _)]; exact Hk].
  - destruct (IH (collect_slot db tutor slots (s, e))) as [Hkeys Hne].
    assert ((forall k : Z,
                is_Some (collect_slot db tutor slots (s, e) !! k)
                <-> is_Some (slots !! k)
                    \/ (k = s /\ is_available_for_slot db tutor s e = true))
            /\ (no_empty_list slots ->
                no_empty_list (collect_slot db tutor slots (s, e)))) as [Hk1 Hne1].
    { unfold collect_slot.
      destruct (is_available_for_slot db tutor s e) eqn:Hfree.
      - destruct (setdefault_append_keys slots s tutor) as [Hk Hn].
        split; [|exact Hn]. intros k. rewrite Hk. tauto.
      - split; [|tauto]. intros k. split; [tauto | intros [Hk|[_ Hk]]];
          [exact Hk | discriminate]. }
    split; [|tauto].
    intros k. rewrite Hkeys, Hk1. split.
    + intros [[Hk|[-> Hfree]]|(e' & Hin & Hfree)]; [tauto | |].
      * right. exists e. split; [left; reflexivity | exact Hfree].
      * right. exists e'. split; [right; exact Hin | exact Hfree].
    + intros [Hk|(e' & [Heq|Hin] & Hfree)]; [tauto | |].
      * injection Heq as <- <-. tauto.
      * right. exists e'. split; assumption.
Qed.

Lemma collect_block_none (fuel : nat) (tutor : Tutor.t)
    (block : WeeklyAvailability.t) :
  collect_block fuel slot_minutes db target_date tutor None block = None.
Proof. reflexivity. Qed.

Lemma collect_block_raises (fuel : nat) (tutor : Tutor.t) (e : Exception)
    (block : WeeklyAvailability.t) :
  collect_block fuel slot_minutes db target_date tutor (Some (Raises e)) block
  = Some (Raises e).
Proof. reflexivity. Qed.

Lemma collect_block_step (fuel : nat) (tutor : Tutor.t)
    (m m' : gmap Z (list Tutor.t)) (block : WeeklyAvailability.t) :
  collect_block fuel slot_minutes db target_date tutor (Some (Returns m)) block
  = Some (Returns m') ->
  (forall k : Z,
      is_Some (m' !! k)
      <-> is_Some (m !! k)
          \/ open_slot_of_block slot_minutes db target_date tutor block k)
  /\ (no_empty_list m -> no_empty_list m').
Proof.
  unfold collect_block.
  destruct (generate_slots fuel block target_date slot_minutes)
    as [[generated|e]|] eqn:Hgen; [|discriminate..].
  intros [= <-].
  destruct (fold_collect_slot tutor generated m) as [Hkeys Hne].
  split; [|exact Hne].
  intros k. rewrite Hkeys. unfold open_slot_of_block. split.
  - intros [Hk|(e & Hin & Hfree)]; [tauto|].
    right. exists fuel, generated, e. repeat split; assumption.
  - intros [Hk|(fuel' & generated' & e & Hgen' & Hin & Hfree)]; [tauto|].
    right. exists e. split; [|exact Hfree].
    pose proof (generate_slots_deterministic _ _ _ _ _ _ _ Hgen Hgen') as Heq.
    injection Heq as ->. exact Hin.
Qed.

Lemma collect_block_mono (fuel fuel' : nat) (tutor : Tutor.t)
    (m : gmap Z (list Tutor.t)) (r : Outcome (gmap Z (list Tutor.t)))
    (block : WeeklyAvailability.t) :
  (fuel <= fuel')%nat ->
  collect_block fuel slot_minutes db target_date tutor (Some (Returns m)) block
  = Some r ->
  collect_block fuel' slot_minutes db target_date tutor (Some (Returns m)) block
  = Some r.
Proof.
  intros Hle. unfold collect_block.
  destruct (generate_slots fuel block target_date slot_minutes)
    as [generated|] eqn:Hgen; [|discriminate].
  rewrite (generate_slots_mono _ _ _ _ _ _ Hgen Hle). tauto.
Qed.

Lemma collect_tutor_fold (fuel : nat)
    (slots : option (Outcome (gmap Z (list Tutor.t)))) (tutor : Tutor.t) :
  collect_tutor fuel slot_minutes db target_date slots tutor
  = fold_left (collect_block fuel slot_minutes db target_date tutor)
      (availability_for_day db tutor (weekday target_date)) slots.
Proof.
  unfold collect_tutor.
  destruct (availability_for_day db tutor (weekday target_date)); reflexivity.
Qed.

Lemma collect_tutor_none (fuel : nat) (tutor : Tutor.t) :
  collect_tutor fuel slot_minutes db target_date None tutor = None.
Proof.
  rewrite collect_tutor_fold. apply fold_left_none. intros a. reflexivity.
Qed.

Lemma collect_tutor_raises (fuel : nat) (e : Exception) (tutor : Tutor.t) :
  collect_tutor fuel slot_minutes db target_date (Some (Raises e)) tutor
  = Some (Raises e).
Proof.
  rewrite collect_tutor_fold. apply fold_left_raises. intros e' a. reflexivity.
Qed.

Lemma collect_tutor_step (fuel : nat) (m m' : gmap Z (list Tutor.t))
    (tutor : Tutor.t) :
  collect_tutor fuel slot_minutes db target_date (Some (Returns m)) tutor
  = Some (Returns m') ->
  (forall k : Z,
      is_Some (m' !! k)
      <-> is_Some (m !! k)
          \/ open_slot_of_tutor slot_minutes db target_date tutor k)
  /\ (no_empty_list m -> no_empty_list m').
Proof.
  rewrite collect_tutor_fold. intros Hrun.
  apply (fold_left_keys _ _
           (open_slot_of_block slot_minutes db target_date tutor)
           (collect_block_none fuel tutor)
           (collect_block_raises fuel tutor)
           (collect_block_step fuel tutor)) in Hrun.
  exact Hrun.
Qed.

Lemma collect_tutor_mono (fuel fuel' : nat) (m : gmap Z (list Tutor.t))
    (r : Outcome (gmap Z (list Tutor.t))) (tutor : Tutor.t) :
  (fuel <= fuel')%nat ->
  collect_tutor fuel slot_minutes db target_date (Some (Returns m)) tutor = Some r ->
  collect_tutor fuel' slot_minutes db target_date (Some (Returns m)) tutor = Some r.
Proof.
  intros Hle. rewrite !collect_tutor_fold.
  apply fold_left_transfer.
  - intros a. reflexivity.
  - intros e a. reflexivity.
  - intros e a. reflexivity.
  - intros m0 r0 a. apply collect_block_mono, Hle.
Qed.

Lemma collect_open_slots_mono (fuel fuel' : nat) (subject_id : Z)
    (r : Outcome (gmap Z (list Tutor.t))) :
  (fuel <= fuel')%nat ->
  collect_open_slots fuel slot_minutes db subject_id target_date = Some r ->
  collect_open_slots fuel' slot_minutes db subject_id target_date = Some r.
Proof.
  intros Hle. unfold collect_open_slots.
  destruct (sqlite_integer subject_id); [|tauto].
  apply fold_left_transfer.
  - apply collect_tutor_none.
  - apply collect_tutor_raises.
  - apply collect_tutor_raises.
  - intros m r0 tutor. apply collect_tutor_mono, Hle.
Qed.

(** The keys of a returned mapping, and its lists. *)
Lemma collect_open_slots_returned (fuel : nat) (subject_id : Z)
    (slots : gmap Z (list Tutor.t)) :
  collect_open_slots fuel slot_minutes db subject_id target_date
  = Some (Returns slots) ->
  sqlite_integer subject_id = true
  /\ (forall k : Z,
        is_Some (slots !! k)
        <-> exists tutor : Tutor.t,
              In tutor (active_tutors_for_subject db subject_id)
              /\ open_slot_of_tutor slot_minutes db target_date tutor k)
  /\ no_empty_list slots.
Proof.
  unfold collect_open_slots.
  destruct (sqlite_integer subject_id); [|discriminate].
  intros Hrun. split; [reflexivity|].
  apply (fold_left_keys _ _
           (open_slot_of_tutor slot_minutes db target_date)
           (collect_tutor_none fuel)
           (collect_tutor_raises fuel)
           (collect_tutor_step fuel)) in Hrun.
  destruct Hrun as [Hkeys Hne]. split.
  - intros k. rewrite Hkeys, lookup_empty. split; [|tauto].
    intros [Hk|Hk]; [destruct Hk; discriminate | exact Hk].
  - apply Hne. intros k tutors Hk. rewrite lookup_empty in Hk. discriminate.
Qed.


(** A date whose last microsecond plus one slot length is a datetime: no
    walk over a block of that date leaves the calendar. *)
Lemma generate_slots_fits (block : WeeklyAvailability.t) :
  1 <= slot_minutes ->
  valid_date target_date ->
  valid_time (WeeklyAvailability.start_time block) ->
  valid_time (WeeklyAvailability.end_time block) ->
  combine target_date (US_PER_DAY - 1) + timedelta_minutes slot_minutes
  <= datetime_max ->
  exists (fuel : nat) (generated : list Slot),
    generate_slots fuel block target_date slot_minutes = Some (Returns generated).
Proof.
  intros Hm Hdate Hstart Hend Hfits.
  pose proof (combine_in_range _ _ Hdate Hstart) as [Hmin _].
  pose proof (generate_slots_run block target_date slot_minutes Hm Hmin) as Hrun.
  pose proof (timedelta_minutes_pos _ Hm) as Hstep.
  set (start_dt := combine target_date (WeeklyAvailability.start_time block)) in *.
  set (end_dt := combine target_date (WeeklyAvailability.end_time block)) in *.
  set (step := timedelta_minutes slot_minutes) in *.
  assert (last_probe start_dt end_dt step <= datetime_max) as Hprobe.
  { unfold last_probe.
    destruct (Z_lt_le_dec end_dt (start_dt + step)) as [Hgt|Hle].
    - rewrite (slot_count_done step end_dt Hstep start_dt Hgt).
      unfold start_dt, combine, valid_time in *. lia.
    - pose proof (slot_count_reached step end_dt Hstep start_dt ltac:(lia)).
      unfold end_dt, combine, valid_time in *. lia. }
  destruct (Z.leb_spec (last_probe start_dt end_dt step) datetime_max); [|lia].
  eauto.
Qed.

(** Fuel that suffices for every block of a list. *)
Lemma enough_fuel (blocks : list WeeklyAvailability.t) :
  1 <= slot_minutes ->
  valid_date target_date ->
  (forall block : WeeklyAvailability.t,
      In block blocks ->
      valid_time (WeeklyAvailability.start_time block)
      /\ valid_time (WeeklyAvailability.end_time block)) ->
  combine target_date (US_PER_DAY - 1) + timedelta_minutes slot_minutes
  <= datetime_max ->
  exists fuel : nat,
    forall block : WeeklyAvailability.t,
      In block blocks ->
      exists generated : list Slot,
        generate_slots fuel block target_date slot_minutes
        = Some (Returns generated).
Proof.
  intros Hm Hdate Htimes Hfits. induction blocks as [|b blocks IH].
  - exists O. intros block [].
  - destruct IH as [fuel IH].
    { intros block Hin. apply Htimes. right. exact Hin. }
    destruct (Htimes b (or_introl eq_refl)) as [Hstart Hend].
    destruct (generate_slots_fits b Hm Hdate Hstart Hend Hfits) as (n & g & Hb).
    exists (Nat.max fuel n). intros block [<-|Hin].
    + exists g. eapply generate_slots_mono; [exact Hb | lia].
    + destruct (IH block Hin) as [g' Hg]. exists g'.
      eapply generate_slots_mono; [exact Hg | lia].
Qed.


Lemma collect_tutor_total (fuel : nat) (tutor : Tutor.t) :
  (forall block : WeeklyAvailability.t,
      In block (weekly_availability db) ->
      exists generated : list Slot,
        generate_slots fuel block target_date slot_minutes
        = Some (Returns generated)) ->
  forall m : gmap Z (list Tutor.t),
  exists m' : gmap Z (list Tutor.t),
    collect_tutor fuel slot_minutes db target_date (Some (Returns m)) tutor
    = Some (Returns m').
Proof.
  intros Hfuel m. rewrite collect_tutor_fold.
  apply fold_left_total. intros block m0 Hin.
  apply availability_for_day_In in Hin as [Hin _].
  destruct (Hfuel block Hin) as [g Hg].
  unfold collect_block. rewrite Hg. eexists. reflexivity.
Qed.


(** [collect_open_slots] returns a mapping for a subject id that the store
    accepts and a date that leaves room for one slot length in the
    calendar. *)
Lemma collect_open_slots_total (subject_id : Z) :
  1 <= slot_minutes ->
  sqlite_integer subject_id = true ->
  valid_date target_date ->
  (forall block : WeeklyAvailability.t,
      In block (weekly_availability db) ->
      valid_time (WeeklyAvailability.start_time block)
      /\ valid_time (WeeklyAvailability.end_time block)) ->
  combine target_date (US_PER_DAY - 1) + timedelta_minutes slot_minutes
  <= datetime_max ->
  exists (fuel : nat) (slots : gmap Z (list Tutor.t)),
    forall fuel' : nat,
      (fuel <= fuel')%nat ->
      collect_open_slots fuel' slot_minutes db subject_id target_date
      = Some (Returns slots).
Proof.
  intros Hm Hid Hdate Htimes Hfits.
  destruct (enough_fuel (weekly_availability db) Hm Hdate Htimes Hfits)
    as [fuel Hfuel].
  destruct (fold_left_total _
              (collect_tutor fuel slot_minutes db target_date)
              (active_tutors_for_subject db subject_id)
              (fun tutor m _ => collect_tutor_total fuel tutor Hfuel m)
              ∅) as [slots Hslots].
  exists fuel, slots. intros fuel' Hle.
  apply (collect_open_slots_mono fuel fuel'); [exact Hle|].
  unfold collect_open_slots. rewrite Hid. exact Hslots.
Qed.


End Aggregator.

(** C8. Whenever [collect_open_slots] returns a mapping, its keys are exactly
    the starts of the slots that [generate_slots] returns for the blocks,
    stored for the date's weekday, of the tutors that are stored as active
    and have a row for the subject in [tutor_subjects], at which
    [is_available_for_slot] holds for that tutor and the slot; no key is
    bound to an empty list. It does return a mapping when the configured
    slot length is at least one minute, the subject id fits in 64 bits, the
    blocks hold times of day, and the last microsecond of the date plus one
    slot length is a datetime. *)
Theorem collect_open_slots_keys
    (slot_minutes : Z) (db : Store) (subject_id target_date : Z) :
  (forall (fuel : nat) (slots : gmap Z (list Tutor.t)),
      collect_open_slots fuel slot_minutes db subject_id target_date
      = Some (Returns slots) ->
      (forall k : Z,
          k ∈ dom slots
          <-> exists (tutor : Tutor.t) (ts : TutorSubject.t)
                     (block : WeeklyAvailability.t)
                     (fuel' : nat) (generated : list Slot),
                In tutor (tutors db)
                /\ Tutor.is_active tutor = true
                /\ In ts (tutor_subjects db)
                /\ TutorSubject.tutor_id ts = Tutor.id tutor
                /\ TutorSubject.subject_id ts = subject_id
                /\ In block (weekly_availability db)
                /\ WeeklyAvailability.tutor_id block = Tutor.id tutor
                /\ WeeklyAvailability.day_of_week block = (target_date + 6) mod 7
                /\ generate_slots fuel' block target_date slot_minutes
                   = Some (Returns generated)
                /\ In (k, k + timedelta_minutes slot_minutes) generated
                /\ is_available_for_slot db tutor k
                     (k + timedelta_minutes slot_minutes) = true)
      /\ (forall (k : Z) (tutors : list Tutor.t),
            slots !! k = Some tutors -> tutors <> []))
  /\ (1 <= slot_minutes ->
      sqlite_integer subject_id = true ->
      valid_date target_date ->
      (forall block : WeeklyAvailability.t,
          In block (weekly_availability db) ->
          valid_time (WeeklyAvailability.start_time block)
          /\ valid_time (WeeklyAvailability.end_time block)) ->
      combine target_date (US_PER_DAY - 1) + timedelta_minutes slot_minutes
      <= datetime_max ->
      exists (fuel : nat) (slots : gmap Z (list Tutor.t)),
        forall fuel' : nat,
          (fuel <= fuel')%nat ->
          collect_open_slots fuel' slot_minutes db subject_id target_date
          = Some (Returns slots)).
Proof.
  split.
  - intros fuel slots Hrun.
    apply collect_open_slots_returned in Hrun as (_ & Hkeys & Hne).
    split; [|exact Hne].
    intros k. rewrite elem_of_dom, Hkeys.
    unfold open_slot_of_tutor, open_slot_of_block. split.
    + intros (tutor & Hin & block & Hb & fuel' & g & e & Hg & Hs & Hfree).
      apply active_tutors_for_subject_In in Hin
        as (Hin & Hactive & ts & Hts & Htutor & Hsubject).
      apply availability_for_day_In in Hb as (Hb & Hown & Hday).
      pose proof (generate_slots_shape _ _ _ _ _ Hg _ Hs) as He.
      simpl in He. subst e.
      exists tutor, ts, block, fuel', g. tauto.
    + intros (tutor & ts & block & fuel' & g & Hin & Hactive & Hts & Htutor
              & Hsubject & Hb & Hown & Hday & Hg & Hs & Hfree).
      exists tutor. split.
      { apply active_tutors_for_subject_In. eauto 8. }
      exists block. split.
      { apply availability_for_day_In. tauto. }
      exists fuel', g, (k + timedelta_minutes slot_minutes). tauto.
  - apply collect_open_slots_total.
Qed.

(** Tutor A, Monday 15:00-17:00, booked 15:30-16:00: the mapping has the
    keys 15:00, 16:00 and 16:30. *)
Lemma collect_open_slots_keys_witness :
  exists slots : gmap Z (list Tutor.t),
    (forall fuel : nat,
        (5 <= fuel)%nat ->
        collect_open_slots fuel 30 Examples.db_a_booked 1 Examples.monday
        = Some (Returns slots))
    /\ dom slots
       = {[ combine Examples.monday (time 15 0 0);
            combine Examples.monday (time 16 0 0);
            combine Examples.monday (time 16 30 0) ]}
    /\ forall (k : Z) (tutors : list Tutor.t),
         slots !! k = Some tutors -> tutors <> [].
Proof.
  destruct (collect_open_slots_keys 30 Examples.db_a_booked 1 Examples.monday)
    as [Hkeys Htotal].
  destruct Htotal as (fuel & slots & Hrun).
  - lia.
  - reflexivity.
  - vm_compute. split; discriminate.
  - intros block [<-|[]]. vm_compute. repeat split; discriminate.
  - vm_compute. discriminate.
  - exists slots.
    assert (collect_open_slots 5 30 Examples.db_a_booked 1 Examples.monday
            = Some (Returns slots)) as Hfive.
    { destruct (collect_open_slots 5 30 Examples.db_a_booked 1 Examples.monday)
        as [r|] eqn:Hr; [|vm_compute in Hr; discriminate].
      rewrite <- (Hrun (Nat.max fuel 5)) by lia.
      symmetry. eapply collect_open_slots_mono; [|exact Hr]. lia. }
    split; [|split].
    + intros fuel' Hle. eapply collect_open_slots_mono; [exact Hle | exact Hfive].
    + vm_compute in Hfive. injection Hfive as <-. vm_compute. reflexivity.
    + apply (Hkeys 5%nat slots Hfive).
Defined.

(* ===================================================================== *)
(** * Further properties of the code *)
(* ===================================================================== *)

(** ** Grouping subjects by category *)

Section GroupSubjects.

Lemma adjacent_distinct_snoc (labels : list string) (x : string) :
  adjacent_distinct (labels ++ [x])
  <-> adjacent_distinct labels /\ (forall y : string, last labels = Some y -> y <> x).
Proof.
  induction labels as [|a [|b rest] IH]; simpl in *.
  - split; [intros _; split; [exact I | discriminate] | tauto].
  - split.
    + intros [Hax _]. split; [exact I|]. intros y [= <-]. exact Hax.
    + intros [_ Hlast]. split; [apply Hlast; reflexivity | exact I].
  - rewrite IH. tauto.
Qed.

Lemma adjacent_distinct_lookup (labels : list string) :
  adjacent_distinct labels
  <-> forall (i : nat) (a b : string),
        labels !! i = Some a -> labels !! S i = Some b -> a <> b.
Proof.
  induction labels as [|a [|b rest] IH].
  - split; [intros _ i x y Hx; discriminate | intros _; exact I].
  - split; [|intros _; exact I].
    intros _ [|i] x y Hx Hy; simpl in *; discriminate.
  - change (adjacent_distinct (a :: b :: rest))
      with (a <> b /\ adjacent_distinct (b :: rest)).
    rewrite IH. split.
    + intros [Hab Hrest] [|i] x y Hx Hy.
      * simpl in Hx, Hy. congruence.
      * apply (Hrest i x y Hx Hy).
    + intros Hall. split.
      * apply (Hall O a b); reflexivity.
      * intros i x y Hx Hy. apply (Hall (S i) x y Hx Hy).
Qed.

Lemma or_empty_string_some (category : string) :
  or_empty_string (Some category) = category.
Proof. destruct category; reflexivity. Qed.

Lemma category_differs_false (category : string) (current : option string) :
  category_differs category current = false -> current = Some category.
Proof.
  destruct current as [c|]; simpl; [|discriminate].
  intros Heq. apply negb_false_iff, String.eqb_eq in Heq. congruence.
Qed.

Lemma category_differs_true (category current : string) :
  category_differs category (Some current) = true -> current <> category.
Proof.
  simpl. intros Hne ->. rewrite String.eqb_refl in Hne. discriminate.
Qed.

Lemma group_subjects_step_invariant (done : list Subject.t)
    (state : list (string * list Subject.t) * option string * list Subject.t)
    (subject : Subject.t) :
  group_subjects_invariant done state ->
  group_subjects_invariant (done ++ [subject]) (group_subjects_step state subject).
Proof.
  destruct state as [[grouped current] bucket].
  intros (Hcat & Hgroups & Hadj & Hbucket). unfold group_subjects_step.
  destruct (category_differs (Subject.category subject) current) eqn:Hdiff.
  - destruct bucket as [|s0 bucket].
    + destruct Hbucket as [-> ->]. simpl in *. subst done.
      repeat split; try constructor.
      exists (Subject.category subject).
      repeat split; [repeat constructor | discriminate].
    + destruct Hbucket as (category & -> & Hsame & Hlast).
      unfold append_bucket. simpl list_bool. cbv iota.
      rewrite or_empty_string_some.
      unfold group_subjects_invariant. rewrite !List.map_app, concat_app. simpl.
      rewrite app_nil_r. split; [rewrite Hcat; reflexivity|].
      split.
      { apply Forall_app. split; [exact Hgroups|].
        constructor; [|constructor]. simpl. split; [discriminate | exact Hsame]. }
      split; [apply adjacent_distinct_snoc; split; assumption|].
      exists (Subject.category subject).
      split; [reflexivity|]. split; [repeat constructor|].
      intros y Hy. rewrite last_snoc in Hy. injection Hy as <-.
      apply (category_differs_true _ _ Hdiff).
  - apply category_differs_false in Hdiff. subst current.
    unfold group_subjects_invariant. rewrite app_assoc, Hcat.
    split; [reflexivity|]. split; [exact Hgroups|]. split; [exact Hadj|].
    destruct bucket as [|s0 bucket]; [destruct Hbucket; discriminate|].
    destruct Hbucket as (category & [= <-] & Hsame & Hlast).
    simpl. exists (Subject.category subject).
    split; [reflexivity|]. split; [|exact Hlast].
    inversion Hsame; subst. constructor; [assumption|].
    apply Forall_app. split; [assumption | repeat constructor].
Qed.

Lemma group_subjects_group_subjects_invariant (subjects done : list Subject.t)
    (state : list (string * list Subject.t) * option string * list Subject.t) :
  group_subjects_invariant done state ->
  group_subjects_invariant (done ++ subjects) (fold_left group_subjects_step subjects state).
Proof.
  revert done state. induction subjects as [|s subjects IH]; intros done state Hinv.
  - rewrite app_nil_r. exact Hinv.
  - simpl. replace (done ++ s :: subjects) with ((done ++ [s]) ++ subjects)
      by (rewrite <- app_assoc; reflexivity).
    apply IH, group_subjects_step_invariant, Hinv.
Qed.

(** The groups, their members and their labels. *)
Lemma group_subjects_spec (subjects : list Subject.t) :
  concat (List.map snd (group_subjects subjects)) = subjects
  /\ Forall (fun g => g.2 <> []
                      /\ Forall (fun s => Subject.category s = g.1) g.2)
       (group_subjects subjects)
  /\ adjacent_distinct (List.map fst (group_subjects subjects)).
Proof.
  unfold group_subjects.
  pose proof (group_subjects_group_subjects_invariant subjects [] ([], None, [])) as Hinv.
  destruct (fold_left group_subjects_step subjects ([], None, []))
    as [[grouped current] bucket].
  destruct Hinv as (Hcat & Hgroups & Hadj & Hbucket).
  { simpl. repeat split; constructor. }
  simpl in Hcat. unfold append_bucket.
  destruct bucket as [|s0 bucket]; simpl list_bool; cbv iota.
  - rewrite app_nil_r in Hcat. tauto.
  - destruct Hbucket as (category & -> & Hsame & Hlast).
    rewrite or_empty_string_some, !List.map_app, concat_app. simpl.
    rewrite app_nil_r. split; [exact Hcat|]. split.
    + apply Forall_app. split; [exact Hgroups|].
      constructor; [|constructor]. simpl. split; [discriminate | exact Hsame].
    + apply adjacent_distinct_snoc. split; assumption.
Qed.

End GroupSubjects.

(** X1. [group_subjects] loses, repeats and reorders nothing: the buckets of
    the groups, one after the other, are the list it was given, and no group
    has an empty bucket (so an empty list gives no group). *)
Theorem group_subjects_partition (subjects : list Subject.t) :
  concat (List.map snd (group_subjects subjects)) = subjects
  /\ (forall g : string * list Subject.t, In g (group_subjects subjects) -> g.2 <> [])
  /\ group_subjects [] = [].
Proof.
  destruct (group_subjects_spec subjects) as (Hcat & Hgroups & _).
  split; [exact Hcat|]. split; [|reflexivity].
  intros g Hg. rewrite Forall_forall in Hgroups.
  apply (Hgroups g), list_elem_of_In, Hg.
Qed.

(** X2. The groups of [group_subjects] are the maximal runs of equal
    category: every subject of a group has the group's label as its category,
    and two groups that follow each other have different labels. *)
Theorem group_subjects_runs (subjects : list Subject.t) :
  (forall (g : string * list Subject.t) (s : Subject.t),
      In g (group_subjects subjects) -> In s g.2 -> Subject.category s = g.1)
  /\ (forall (i : nat) (g1 g2 : string * list Subject.t),
        group_subjects subjects !! i = Some g1 ->
        group_subjects subjects !! S i = Some g2 ->
        g1.1 <> g2.1).
Proof.
  destruct (group_subjects_spec subjects) as (_ & Hgroups & Hadj).
  split.
  - intros g s Hg Hs. rewrite Forall_forall in Hgroups.
    destruct (Hgroups g (proj2 (list_elem_of_In _ _) Hg)) as [_ Hsame].
    rewrite Forall_forall in Hsame. apply Hsame, list_elem_of_In, Hs.
  - intros i g1 g2 H1 H2.
    apply (proj1 (adjacent_distinct_lookup _) Hadj i).
    + rewrite list_lookup_fmap, H1. reflexivity.
    + rewrite list_lookup_fmap, H2. reflexivity.
Qed.

(** Two math subjects and then a science subject give two groups. *)
Lemma group_subjects_partition_witness :
  group_subjects MoreExamples.catalog
  = [("Math Subjects"%string, [Examples.subject_im1; MoreExamples.subject_im2]);
     ("Science Classes"%string, [MoreExamples.subject_bio])]
  /\ forall g : string * list Subject.t,
       In g (group_subjects MoreExamples.catalog) -> g.2 <> [].
Proof.
  split; [reflexivity|].
  apply (group_subjects_partition MoreExamples.catalog).
Defined.

Lemma group_subjects_runs_witness :
  Subject.category MoreExamples.subject_im2 = "Math Subjects"%string.
Proof.
  apply (proj1 (group_subjects_runs MoreExamples.catalog)
           ("Math Subjects"%string,
            [Examples.subject_im1; MoreExamples.subject_im2])
           MoreExamples.subject_im2).
  - left. reflexivity.
  - right. left. reflexivity.
Defined.

(** ** Phone numbers *)

Section Phones.

Context `{PyLib}.

Lemma normalize_phone_app (a b : string) :
  _normalize_phone (a ++ b)%string
  = (_normalize_phone a ++ _normalize_phone b)%string.
Proof.
  induction a as [|ch a IH]; simpl; [reflexivity|].
  destruct (py_isdigit ch); simpl; rewrite IH; reflexivity.
Qed.

Lemma normalize_phone_all_digits (raw : string) :
  str_forall py_isdigit (_normalize_phone raw) = true.
Proof.
  induction raw as [|ch raw IH]; simpl; [reflexivity|].
  destruct (py_isdigit ch) eqn:Hd; [simpl; rewrite Hd; exact IH | exact IH].
Qed.

Lemma normalize_phone_id (raw : string) :
  str_forall py_isdigit raw = true -> _normalize_phone raw = raw.
Proof.
  induction raw as [|ch raw IH]; simpl; [reflexivity|].
  intros Hall. apply andb_true_iff in Hall as [-> Hrest].
  rewrite IH by exact Hrest. reflexivity.
Qed.

Lemma normalize_phone_length (raw : string) :
  (String.length (_normalize_phone raw) <= String.length raw)%nat.
Proof.
  induction raw as [|ch raw IH]; simpl; [lia|].
  destruct (py_isdigit ch); simpl; lia.
Qed.

Lemma format_phone_display_round_trip (digits : string) :
  py_isdigit "-" = false ->
  str_forall py_isdigit digits = true ->
  _normalize_phone (_format_phone_display digits) = digits.
Proof.
  intros Hdash Hall. unfold _format_phone_display.
  destruct (Nat.eqb_spec (String.length digits) 10) as [Hlen|Hlen];
    [|apply normalize_phone_id, Hall].
  do 10 (destruct digits as [|? digits]; [discriminate Hlen|]).
  destruct digits; [|discriminate Hlen].
  simpl in Hall. repeat (apply andb_true_iff in Hall as [? Hall]).
  rewrite !normalize_phone_app. simpl.
  repeat match goal with Hd : py_isdigit _ = _ |- _ => rewrite Hd; clear Hd end.
  reflexivity.
Qed.

End Phones.

(** X3. [_normalize_phone] keeps the digits of its argument and nothing else:
    the result consists of digits, is no longer than the argument, is left
    alone by a second pass, and a string of digits is returned as it is. *)
Theorem normalize_phone_digits `{PyLib} (raw : string) :
  str_forall py_isdigit (_normalize_phone raw) = true
  /\ (String.length (_normalize_phone raw) <= String.length raw)%nat
  /\ _normalize_phone (_normalize_phone raw) = _normalize_phone raw
  /\ (str_forall py_isdigit raw = true -> _normalize_phone raw = raw).
Proof.
  split; [apply normalize_phone_all_digits|].
  split; [apply normalize_phone_length|].
  split; [apply normalize_phone_id, normalize_phone_all_digits|].
  apply normalize_phone_id.
Qed.

Lemma normalize_phone_digits_witness :
  @_normalize_phone Examples.lib "5551230000" = "5551230000"%string.
Proof.
  apply (@normalize_phone_digits Examples.lib "5551230000"). reflexivity.
Defined.

(** X4. Displaying a stored phone number and digesting the display again
    gives the stored number back: for a string of digits,
    [_normalize_phone (_format_phone_display digits) = digits], the dash not
    being a digit; and ten digits are displayed in twelve characters. *)
Theorem format_phone_display_normalize `{PyLib} (digits : string) :
  py_isdigit "-" = false ->
  str_forall py_isdigit digits = true ->
  _normalize_phone (_format_phone_display digits) = digits
  /\ (String.length digits = 10%nat ->
      String.length (_format_phone_display digits) = 12%nat)
  /\ (String.length digits <> 10%nat -> _format_phone_display digits = digits).
Proof.
  intros Hdash Hall.
  split; [apply format_phone_display_round_trip; assumption|].
  unfold _format_phone_display. split.
  - intros Hlen. rewrite Hlen. simpl Nat.eqb. cbv iota.
    do 10 (destruct digits as [|? digits]; [discriminate Hlen|]).
    destruct digits; [reflexivity | discriminate Hlen].
  - intros Hlen. destruct (Nat.eqb_spec (String.length digits) 10); [contradiction|].
    reflexivity.
Qed.

Lemma format_phone_display_normalize_witness :
  _format_phone_display "5551230000" = "555-123-0000"%string
  /\ @_normalize_phone Examples.lib (_format_phone_display "5551230000")
     = "5551230000"%string.
Proof.
  split; [reflexivity|].
  apply (@format_phone_display_normalize Examples.lib "5551230000");
    reflexivity.
Defined.

(** ** The booking window over time *)

Section WindowOverTime.

Lemma date_of_le (d1 d2 : Z) : d1 <= d2 -> date_of d1 <= date_of d2.
Proof. intros Hle. apply Z.div_le_mono; [reflexivity | exact Hle]. Qed.

Lemma minimum_bookable_date_bounds (env : Env) (now : Z) :
  date_of now + 1 <= _minimum_bookable_date env (Some now) <= date_of now + 2.
Proof.
  unfold _minimum_bookable_date.
  destruct (time_of now >=? time 22 0 0); lia.
Qed.

Lemma minimum_bookable_date_le (env : Env) (now1 now2 : Z) :
  now1 <= now2 ->
  _minimum_bookable_date env (Some now1) <= _minimum_bookable_date env (Some now2).
Proof.
  intros Hle. pose proof (date_of_le _ _ Hle) as Hdate.
  pose proof (minimum_bookable_date_bounds env now1).
  pose proof (minimum_bookable_date_bounds env now2).
  destruct (Z.eq_dec (date_of now1) (date_of now2)) as [Heq|Hne]; [|lia].
  unfold _minimum_bookable_date. rewrite Heq.
  assert (time_of now1 <= time_of now2) as Htime.
  { pose proof (combine_date_time now1) as H1.
    pose proof (combine_date_time now2) as H2.
    unfold combine in H1, H2. rewrite Heq in H1. lia. }
  destruct (Z.geb_spec (time_of now1) (time 22 0 0));
    destruct (Z.geb_spec (time_of now2) (time 22 0 0)); lia.
Qed.

End WindowOverTime.

(** X5. The booking window only moves forward: a later [now] never gives an
    earlier minimum date, the minimum date is always one or two days after
    today, a target date that is allowed is after today, and every date
    after an allowed one is allowed too. *)
Theorem booking_window_moves_forward `{PyLib} (env : Env) (now1 now2 : Z)
    (target_date later_date : Z) :
  (now1 <= now2 ->
   _minimum_bookable_date env (Some now1) <= _minimum_bookable_date env (Some now2))
  /\ date_of now1 + 1 <= _minimum_bookable_date env (Some now1) <= date_of now1 + 2
  /\ ((_booking_window_status env target_date).1.1 = true ->
      date_of (pacific_now env) < target_date
      /\ (target_date <= later_date ->
          (_booking_window_status env later_date).1.1 = true)).
Proof.
  split; [apply minimum_bookable_date_le|].
  split; [apply minimum_bookable_date_bounds|].
  unfold _booking_window_status.
  pose proof (minimum_bookable_date_bounds env (pacific_now env)) as Hb.
  destruct (Z.ltb_spec target_date
              (_minimum_bookable_date env (Some (pacific_now env)))) as [Hlt|Hge];
    simpl; [discriminate|].
  intros _. split; [lia|]. intros Hlater.
  destruct (Z.ltb_spec later_date
              (_minimum_bookable_date env (Some (pacific_now env)))); [lia|].
  reflexivity.
Qed.

Lemma booking_window_moves_forward_witness :
  (@_booking_window_status Examples.lib Examples.env_ok Examples.tuesday).1.1 = true.
Proof.
  destruct (@booking_window_moves_forward Examples.lib Examples.env_ok 0 0
              Examples.monday Examples.tuesday) as (_ & _ & Hallowed).
  apply Hallowed; [reflexivity | vm_compute; discriminate].
Defined.

(** ** What a request of [book] does to the store *)

Section BookFacts.

Context `{PyLib}.

Lemma book_validate_inv (env : Env) (form_values : BookForm) (db : Store)
    (request : BookRequest) :
  book_validate env form_values db = inr request ->
  exists target_date start_time : Z,
    py_int (form_subject_id form_values) = Some (req_subject_id request)
    /\ List.find (fun s => Subject.id s =? req_subject_id request) (subjects db)
       = Some (req_subject request)
    /\ strptime_date (form_date form_values) = Some target_date
    /\ strptime_time (form_start_time form_values) = Some start_time
    /\ (_booking_window_status env target_date).1.1 = true
    /\ req_name request = py_strip (form_student_name form_values)
    /\ req_phone request = _normalize_phone (form_student_phone form_values)
    /\ req_start_dt request = combine target_date start_time
    /\ req_end_dt request
       = req_start_dt request + timedelta_minutes (BOOKING_SLOT_MINUTES env)
    /\ str_bool (req_name request) = true
    /\ str_bool (req_phone request) = true.
Proof.
  unfold book_validate.
  destruct (str_bool (py_strip (form_student_name form_values))) eqn:Hname;
    [|discriminate].
  destruct (str_bool (_normalize_phone (form_student_phone form_values))) eqn:Hphone;
    [|discriminate].
  destruct (str_bool (form_subject_id form_values)
            && str_bool (form_date form_values)
            && str_bool (form_start_time form_values)) eqn:Hrest.
  2:{ simpl. rewrite <- !andb_assoc in *. simpl. rewrite Hrest. discriminate. }
  replace (true && true && str_bool (form_subject_id form_values)
           && str_bool (form_date form_values)
           && str_bool (form_start_time form_values)) with true
    by (simpl; rewrite Hrest; reflexivity).
  simpl negb. cbv iota.
  destruct (py_int (form_subject_id form_values)) as [subject_id|]; [|discriminate].
  destruct (sqlite_integer subject_id); simpl negb; cbv iota; [|discriminate].
  destruct (List.find (fun s => Subject.id s =? subject_id) (subjects db))
    as [subject|] eqn:Hfind; [|discriminate].
  destruct (strptime_date (form_date form_values)) as [target_date|]; [|discriminate].
  destruct (strptime_time (form_start_time form_values)) as [start_time|];
    [|discriminate].
  destruct (_booking_window_status env target_date) as [[allowed message] min_date]
    eqn:Hwindow.
  destruct allowed; simpl; [|discriminate].
  destruct (timedelta (_slot_minutes env)) as [delta|e] eqn:Hdelta; [|discriminate].
  apply timedelta_returns in Hdelta as ->.
  destruct (datetime_add _ _) as [end_dt|e] eqn:Hend; [|discriminate].
  apply datetime_add_returns in Hend as [-> _].
  intros [= <-]. exists target_date, start_time. simpl.
  rewrite Hwindow. repeat split; try reflexivity; assumption.
Qed.

(** What [book] has checked when the form is accepted: the subject id is
    one the store takes, and the end of the interval is a datetime. *)
Lemma book_validate_in_range (env : Env) (form_values : BookForm) (db : Store)
    (request : BookRequest) :
  book_validate env form_values db = inr request ->
  sqlite_integer (req_subject_id request) = true
  /\ datetime_min <= req_end_dt request <= datetime_max.
Proof.
  unfold book_validate.
  destruct (negb _); [discriminate|].
  destruct (py_int (form_subject_id form_values)) as [subject_id|]; [|discriminate].
  destruct (sqlite_integer subject_id) eqn:Hid; simpl negb; cbv iota;
    [|discriminate].
  destruct (List.find _ _) as [subject|]; [|discriminate].
  destruct (strptime_date (form_date form_values)) as [target_date|]; [|discriminate].
  destruct (strptime_time (form_start_time form_values)) as [start_time|];
    [|discriminate].
  destruct (_booking_window_status env target_date) as [[allowed message] min_date].
  destruct allowed; simpl; [|discriminate].
  destruct (timedelta (_slot_minutes env)) as [delta|e]; [|discriminate].
  destruct (datetime_add _ _) as [end_dt|e] eqn:Hend; [|discriminate].
  apply datetime_add_returns in Hend as [_ Hrange].
  intros [= <-]. simpl. split; [exact Hid | exact Hrange].
Qed.

(** What has happened when [book] lets an exception through. *)
Lemma book_validate_abort (env : Env) (form_values : BookForm) (db : Store) :
  book_validate env form_values db = inl Abort500 ->
  exists subject_id : Z,
    py_int (form_subject_id form_values) = Some subject_id
    /\ (sqlite_integer subject_id = false
        \/ exists (subject : Subject.t) (target_date start_time : Z),
             List.find (fun s => Subject.id s =? subject_id) (subjects db)
             = Some subject
             /\ strptime_date (form_date form_values) = Some target_date
             /\ strptime_time (form_start_time form_values) = Some start_time
             /\ (_booking_window_status env target_date).1.1 = true
             /\ (timedelta (BOOKING_SLOT_MINUTES env) = Raises OverflowError
                 \/ datetime_add (combine target_date start_time)
                      (timedelta_minutes (BOOKING_SLOT_MINUTES env))
                    = Raises OverflowError)).
Proof.
  unfold book_validate.
  destruct (negb _); [discriminate|].
  destruct (py_int (form_subject_id form_values)) as [subject_id|]; [|discriminate].
  destruct (sqlite_integer subject_id) eqn:Hid; simpl negb; cbv iota.
  2:{ intros _. exists subject_id. split; [reflexivity | left; exact Hid]. }
  destruct (List.find (fun s => Subject.id s =? subject_id) (subjects db))
    as [subject|] eqn:Hfind; [|discriminate].
  destruct (strptime_date (form_date form_values)) as [target_date|] eqn:Hdate;
    [|discriminate].
  destruct (strptime_time (form_start_time form_values)) as [start_time|] eqn:Htime;
    [|discriminate].
  destruct (_booking_window_status env target_date) as [[allowed message] min_date]
    eqn:Hwindow.
  destruct allowed; simpl; [|discriminate].
  unfold _slot_minutes.
  destruct (timedelta (BOOKING_SLOT_MINUTES env)) as [delta|e] eqn:Hdelta.
  - pose proof (timedelta_returns _ _ Hdelta) as ->.
    destruct (datetime_add (combine target_date start_time)
                (timedelta_minutes (BOOKING_SLOT_MINUTES env)))
      as [end_dt|e] eqn:Hend; [discriminate|].
    intros _. exists subject_id. split; [reflexivity|]. right.
    exists subject, target_date, start_time. rewrite ?Hwindow.
    destruct e.
    repeat (split; [first [reflexivity | assumption]|]).
    right. first [reflexivity | assumption].
  - intros _. exists subject_id. split; [reflexivity|]. right.
    exists subject, target_date, start_time. rewrite ?Hwindow.
    destruct e.
    repeat (split; [first [reflexivity | assumption]|]).
    left. first [reflexivity | assumption].
Qed.

Lemma book_prepare_inv (env : Env) (form_values : BookForm) (db : Store)
    (booking : Booking.t) (tutor : Tutor.t) (subject : Subject.t) :
  book_prepare env form_values db = inr (booking, tutor, subject) ->
  exists request : BookRequest,
    book_validate env form_values db = inr request
    /\ pick_fair_tutor db (random_index env)
         (available_tutors_for_slot db (req_subject_id request)
            (req_start_dt request) (req_end_dt request)) = Some tutor
    /\ subject = req_subject request
    /\ booking = Booking.mk 0 (Tutor.id tutor) (Some (Subject.id subject))
                   (req_name request) (req_phone request)
                   (req_start_dt request) (req_end_dt request) (utcnow env)
                   false None None.
Proof.
  unfold book_prepare.
  destruct (book_validate env form_values db) as [response|request]; [discriminate|].
  destruct (pick_fair_tutor db (random_index env) _) as [picked|] eqn:Hpick;
    [|discriminate].
  intros [= <- <- <-]. exists request. repeat split. exact Hpick.
Qed.

Lemma book_prepare_response (env : Env) (form_values : BookForm) (db : Store)
    (response : Response) :
  book_prepare env form_values db = inl response ->
  (exists message category : string, response = RenderBookingPage message category)
  \/ (response = Abort500 /\ book_validate env form_values db = inl Abort500).
Proof.
  unfold book_prepare. intros Hprep.
  destruct (book_validate env form_values db) as [r|request] eqn:Hval.
  - injection Hprep as <-. pose proof Hval as Hshape.
    unfold book_validate in Hshape.
    repeat match type of Hshape with
           | (if ?c then _ else _) = _ => destruct c
           | match ?c with _ => _ end = _ => destruct c
           end; try discriminate; injection Hshape as <-; eauto.
  - destruct (pick_fair_tutor db (random_index env) _); [discriminate|].
    injection Hprep as <-. eauto.
Qed.

Lemma book_confirmed_inv (env : Env) (form_values : BookForm) (db db' : Store)
    (stored : Booking.t) (tutor : Tutor.t) (subject : Subject.t) :
  book env form_values db = (RenderConfirmation stored tutor subject, db') ->
  exists booking : Booking.t,
    book_prepare env form_values db = inr (booking, tutor, subject)
    /\ storage_fault env = false
    /\ violates_uq_tutor_booking_start db booking = false
    /\ stored = with_booking_id (next_booking_id db) booking
    /\ db' = with_bookings db (bookings db ++ [stored]).
Proof.
  unfold book.
  destruct (book_prepare env form_values db) as [response|[[booking t] s]] eqn:Hprep.
  { destruct (book_prepare_response _ _ _ _ Hprep) as [(m & c & ->)|[-> _]];
      discriminate. }
  unfold commit_new_booking.
  destruct (storage_fault env); [discriminate|].
  destruct (violates_uq_tutor_booking_start db booking) eqn:Huq; [discriminate|].
  intros [= <- <- <- <-]. exists booking. repeat split. exact Huq.
Qed.

Lemma book_outcome (env : Env) (form_values : BookForm) (db : Store) :
  (exists (stored : Booking.t) (tutor : Tutor.t) (subject : Subject.t),
      book env form_values db
      = (RenderConfirmation stored tutor subject,
         with_bookings db (bookings db ++ [stored])))
  \/ (exists message category : string,
        book env form_values db = (RenderBookingPage message category, db))
  \/ (book env form_values db = (Abort500, db)
      /\ book_validate env form_values db = inl Abort500).
Proof.
  unfold book.
  destruct (book_prepare env form_values db) as [response|[[booking t] s]] eqn:Hprep.
  - right.
    destruct (book_prepare_response _ _ _ _ Hprep) as [(m & c & ->)|[-> Hval]];
      eauto.
  - destruct (commit_new_booking env db booking) as [exc|[db' stored]] eqn:Hcommit.
    + right. eauto.
    + left. unfold commit_new_booking in Hcommit.
      destruct (storage_fault env); [discriminate|].
      destruct (violates_uq_tutor_booking_start db booking); [discriminate|].
      injection Hcommit as <- <-. eauto.
Qed.

Lemma fold_left_max_ge (l : list Z) (x : Z) :
  x <= fold_left Z.max l x /\ forall y : Z, In y l -> y <= fold_left Z.max l x.
Proof.
  revert x. induction l as [|z l IH]; intros x; simpl.
  - split; [lia | intros y []].
  - destruct (IH (Z.max x z)) as [Hx Hl]. split; [lia|].
    intros y [<-|Hy]; [lia | apply Hl, Hy].
Qed.

Lemma next_booking_id_fresh (db : Store) (b : Booking.t) :
  In b (bookings db) -> Booking.id b < next_booking_id db.
Proof.
  intros Hb. unfold next_booking_id.
  destruct (fold_left_max_ge (List.map Booking.id (bookings db)) 0) as [_ Hmax].
  specialize (Hmax (Booking.id b) (in_map _ _ _ Hb)). lia.
Qed.

Lemma violates_uq_false (db : Store) (row : Booking.t) :
  violates_uq_tutor_booking_start db row = false
  <-> ~ In (Booking.tutor_id row, Booking.start_time row)
          (List.map (fun b => (Booking.tutor_id b, Booking.start_time b))
             (bookings db)).
Proof.
  unfold violates_uq_tutor_booking_start.
  rewrite <- not_true_iff_false, existsb_exists, in_map_iff. split.
  - intros Hnone (b & Hkey & Hb). apply Hnone. exists b.
    injection Hkey as Ht Hs. split; [exact Hb|]. apply andb_true_iff. lia.
  - intros Hnone (b & Hb & Hkey). apply Hnone. exists b.
    apply andb_true_iff in Hkey. split; [f_equal; lia | exact Hb].
Qed.

End BookFacts.

(** X6. [book] is all or nothing: either it answers with the confirmation
    page and the store has gained exactly the confirmed row, at the end of
    the bookings table and with every other table as before; or it answers
    with the booking page and the store is the one it was given; or an
    exception leaves the view, the answer is the status 500, and the store
    is the one it was given. The last happens only when the subject id of
    the form is an integer that does not fit in 64 bits, or when the form
    is accepted for a bookable date and the configured slot length is no
    [timedelta] or leads from the start to a sum that is no datetime. *)
Theorem book_all_or_nothing `{PyLib} (env : Env) (form_values : BookForm) (db : Store) :
  ((exists (stored : Booking.t) (tutor : Tutor.t) (subject : Subject.t),
       book env form_values db
       = (RenderConfirmation stored tutor subject,
          mkStore (subjects db) (tutors db) (tutor_subjects db)
            (weekly_availability db) (tutor_exceptions db)
            (bookings db ++ [stored])))
   \/ (exists message category : string,
         book env form_values db = (RenderBookingPage message category, db))
   \/ book env form_values db = (Abort500, db))
  /\ ((book env form_values db).1 = Abort500 ->
      exists subject_id : Z,
        py_int (form_subject_id form_values) = Some subject_id
        /\ (~ - 2 ^ 63 <= subject_id < 2 ^ 63
            \/ exists target_date start_time : Z,
                 strptime_date (form_date form_values) = Some target_date
                 /\ strptime_time (form_start_time form_values) = Some start_time
                 /\ _minimum_bookable_date env None <= target_date
                 /\ (~ - MAX_DELTA_DAYS
                        <= timedelta_minutes (BOOKING_SLOT_MINUTES env) / US_PER_DAY
                        <= MAX_DELTA_DAYS
                     \/ ~ datetime_min
                          <= combine target_date start_time
                             + timedelta_minutes (BOOKING_SLOT_MINUTES env)
                          <= datetime_max))).
Proof.
  split.
  - destruct (book_outcome env form_values db) as [Hbook|[Hbook|[Hbook _]]]; tauto.
  - intros Hresponse.
    assert (book_validate env form_values db = inl Abort500) as Hval.
    { destruct (book_outcome env form_values db)
        as [(stored & tutor & subject & Hbook)|[(m & c & Hbook)|[_ Hval]]];
        [rewrite Hbook in Hresponse; discriminate ..| exact Hval]. }
    apply book_validate_abort in Hval as (subject_id & Hint & Hcase).
    exists subject_id. split; [exact Hint|].
    destruct Hcase as [Hid|(subject & target_date & start_time & _ & Hdate & Htime
                            & Hallowed & Hsum)].
    + left. unfold sqlite_integer in Hid.
      apply andb_false_iff in Hid as [Hid|Hid]; lia.
    + right. exists target_date, start_time.
      split; [exact Hdate|]. split; [exact Htime|]. split.
      { unfold _booking_window_status in Hallowed.
        change (_minimum_bookable_date env None)
          with (_minimum_bookable_date env (Some (pacific_now env))).
        destruct (Z.ltb_spec target_date
                    (_minimum_bookable_date env (Some (pacific_now env))));
          [discriminate Hallowed | assumption]. }
      destruct Hsum as [Hdelta|Hadd].
      * left. destruct (timedelta_spec (BOOKING_SLOT_MINUTES env))
          as [[_ Heq]|[Hout _]]; [congruence | exact Hout].
      * right. destruct (datetime_add_spec (combine target_date start_time)
                           (timedelta_minutes (BOOKING_SLOT_MINUTES env)))
          as [[_ Heq]|[Hout _]]; [congruence | exact Hout].
Qed.

(** The three answers: a confirmation for 15:00 on the Monday, the booking
    page for a form without a name, and the status 500 for a subject id of
    twenty digits and for the last quarter of an hour of the year 9999. *)
Lemma book_all_or_nothing_witness :
  (exists stored : Booking.t,
      @book Examples.lib Examples.env_ok Examples.form_15_00 Examples.db_a
      = (RenderConfirmation stored Examples.tutor_a Examples.subject_im1,
         with_bookings Examples.db_a [stored]))
  /\ @book Examples.lib Examples.env_ok
       (mkBookForm "" "555-123-0000" "1" "2024-01-01" "15:00") Examples.db_a
     = (RenderBookingPage "Please complete all booking details." "danger",
        Examples.db_a)
  /\ @book Examples.lib Examples.env_ok Examples.form_long_id Examples.db_a
     = (Abort500, Examples.db_a)
  /\ @book Examples.lib Examples.env_ok Examples.form_last_day Examples.db_a_late
     = (Abort500, Examples.db_a_late)
  /\ ~ - 2 ^ 63 <= 99999999999999999999 < 2 ^ 63.
Proof.
  split; [eexists; vm_compute; reflexivity|].
  split; [vm_compute; reflexivity|].
  split; [vm_compute; reflexivity|].
  split; [vm_compute; reflexivity|].
  destruct (@book_all_or_nothing Examples.lib Examples.env_ok
              Examples.form_long_id Examples.db_a) as [_ Habort].
  destruct Habort as (subject_id & Hint & Hcase); [vm_compute; reflexivity|].
  vm_compute in Hint. injection Hint as <-.
  destruct Hcase as [Hid|(target_date & start_time & Hdate & Htime & _ & Hsum)];
    [exact Hid|].
  vm_compute in Hdate, Htime. injection Hdate as <-. injection Htime as <-.
  exfalso. destruct Hsum as [Hsum|Hsum]; apply Hsum; vm_compute;
    split; discriminate.
Defined.

(** X7. A confirmation is sound. The tutor on it is a row of the tutors
    table, active, teaching the confirmed subject, accepted by
    [is_available_for_slot] for the confirmed interval, and no eligible tutor
    has fewer non-canceled bookings; the interval starts at the submitted
    date and time, not before the earliest bookable date, and lasts the
    configured slot length; the stored row carries a new id, the stripped
    name, the digits of the phone, and is not canceled. *)
Theorem book_confirmation_sound `{PyLib}
    (env : Env) (form_values : BookForm) (db db' : Store)
    (stored : Booking.t) (tutor : Tutor.t) (subject : Subject.t) :
  book env form_values db = (RenderConfirmation stored tutor subject, db') ->
  In tutor (tutors db)
  /\ Tutor.is_active tutor = true
  /\ (exists ts : TutorSubject.t,
        In ts (tutor_subjects db)
        /\ TutorSubject.tutor_id ts = Tutor.id tutor
        /\ TutorSubject.subject_id ts = Subject.id subject)
  /\ In subject (subjects db)
  /\ py_int (form_subject_id form_values) = Some (Subject.id subject)
  /\ is_available_for_slot db tutor
       (Booking.start_time stored) (Booking.end_time stored) = true
  /\ (forall c : Tutor.t,
        In c (available_tutors_for_slot db (Subject.id subject)
                (Booking.start_time stored) (Booking.end_time stored)) ->
        (total_bookings db tutor <= total_bookings db c)%nat)
  /\ (exists target_date start_time : Z,
        strptime_date (form_date form_values) = Some target_date
        /\ strptime_time (form_start_time form_values) = Some start_time
        /\ Booking.start_time stored = combine target_date start_time
        /\ _minimum_bookable_date env None <= target_date)
  /\ Booking.end_time stored
     = Booking.start_time stored + timedelta_minutes (BOOKING_SLOT_MINUTES env)
  /\ Booking.tutor_id stored = Tutor.id tutor
  /\ Booking.subject_id stored = Some (Subject.id subject)
  /\ Booking.student_name stored = py_strip (form_student_name form_values)
  /\ Booking.student_phone stored = _normalize_phone (form_student_phone form_values)
  /\ Booking.created_at stored = utcnow env
  /\ Booking.is_canceled stored = false
  /\ Booking.canceled_at stored = None
  /\ Booking.cancel_reason stored = None
  /\ (forall b : Booking.t, In b (bookings db) -> Booking.id b <> Booking.id stored)
  /\ (forall b : Booking.t,
        In b (bookings db) ->
        Booking.tutor_id b = Booking.tutor_id stored ->
        Booking.start_time b <> Booking.start_time stored).
Proof.
  intros Hbook.
  apply book_confirmed_inv in Hbook
    as (booking & Hprep & Hfault & Huq & -> & ->).
  apply book_prepare_inv in Hprep as (request & Hval & Hpick & -> & ->).
  apply book_validate_inv in Hval
    as (target_date & start_time & Hint & Hfind & Hdate & Htime & Hallowed
        & Hname & Hphone & Hstart & Hend & _ & _).
  pose proof (find_some _ _ Hfind) as [Hsubject Hsid].
  apply Z.eqb_eq in Hsid. simpl.
  pose proof (pick_fair_tutor_in _ _ _ _ Hpick) as Hcand.
  unfold available_tutors_for_slot in Hcand.
  apply filter_In in Hcand as [Hactive Hfree].
  unfold active_tutors_for_subject in Hactive.
  apply filter_In in Hactive as [Htutor Hactive].
  apply andb_true_iff in Hactive as [Hactive Hteaches].
  apply existsb_exists in Hteaches as (ts & Hts & Hrow).
  apply andb_true_iff in Hrow as [Hrow1 Hrow2].
  split; [exact Htutor|]. split; [exact Hactive|].
  split; [exists ts; repeat split; [exact Hts | lia | lia]|].
  split; [exact Hsubject|]. split; [rewrite Hint; f_equal; lia|].
  split; [exact Hfree|].
  split.
  { intros c Hc. rewrite Hsid in Hc.
    assert (available_tutors_for_slot db (req_subject_id request)
              (req_start_dt request) (req_end_dt request) <> []) as Hne
      by (intros Hnil; rewrite Hnil in Hc; destruct Hc).
    destruct (pick_fair_tutor_smallest db (random_index env) _ Hne)
      as (min_count & smallest & Hsel & Hsne & Hall & Hsmall).
    destruct (random_choice_in (random_index env) smallest Hsne)
      as (x & Hx & Hxin).
    rewrite Hsel, Hx in Hpick. injection Hpick as ->.
    apply Hsmall in Hxin as [_ ->]. apply Hall, Hc. }
  split.
  { exists target_date, start_time. repeat split; try assumption.
    unfold _booking_window_status in Hallowed.
    change (_minimum_bookable_date env None)
      with (_minimum_bookable_date env (Some (pacific_now env))).
    destruct (Z.ltb_spec target_date
                (_minimum_bookable_date env (Some (pacific_now env))));
      [discriminate Hallowed | assumption]. }
  split; [exact Hend|].
  repeat (split; [first [reflexivity | assumption]|]).
  split.
  - intros b Hb. pose proof (next_booking_id_fresh db b Hb). lia.
  - intros b Hb Ht Hs. apply violates_uq_false in Huq. apply Huq.
    apply in_map_iff. exists b. split; [|exact Hb]. simpl in *. congruence.
Qed.

(** Tutor A is confirmed for 15:00 on the Monday, next to the booking of
    15:30. *)
Lemma book_confirmation_sound_witness :
  is_available_for_slot Examples.db_a_booked Examples.tutor_a
    (combine Examples.monday (time 15 0 0))
    (combine Examples.monday (time 15 30 0)) = true.
Proof.
  destruct (@book Examples.lib Examples.env_ok Examples.form_15_00
              Examples.db_a_booked) as [response db'] eqn:Hbook.
  assert (exists stored,
             response = RenderConfirmation stored Examples.tutor_a
                          Examples.subject_im1
             /\ Booking.start_time stored = combine Examples.monday (time 15 0 0)
             /\ Booking.end_time stored = combine Examples.monday (time 15 30 0))
    as (stored & -> & Hs & He).
  { vm_compute in Hbook. injection Hbook as <- _.
    eexists. split; [reflexivity|]. split; reflexivity. }
  destruct (@book_confirmation_sound Examples.lib _ _ _ _ _ _ _ Hbook)
    as (_ & _ & _ & _ & _ & Hfree & _).
  rewrite Hs, He in Hfree. exact Hfree.
Defined.

(** ** Constraints and loads over sequences of requests *)

Section StoreConstraints.

Context `{PyLib}.

Lemma book_confirmed_fresh (env : Env) (form_values : BookForm) (db db' : Store)
    (stored : Booking.t) (tutor : Tutor.t) (subject : Subject.t) :
  book env form_values db = (RenderConfirmation stored tutor subject, db') ->
  db' = with_bookings db (bookings db ++ [stored])
  /\ Booking.tutor_id stored = Tutor.id tutor
  /\ Booking.is_canceled stored = false
  /\ ~ In (Booking.id stored) (List.map Booking.id (bookings db))
  /\ ~ In (Booking.tutor_id stored, Booking.start_time stored)
         (List.map (fun b => (Booking.tutor_id b, Booking.start_time b))
            (bookings db)).
Proof.
  intros Hbook.
  apply book_confirmed_inv in Hbook as (booking & Hprep & _ & Huq & -> & ->).
  apply book_prepare_inv in Hprep as (request & _ & _ & _ & ->).
  split; [reflexivity|]. split; [reflexivity|]. split; [reflexivity|].
  split.
  - simpl. intros Hin. apply in_map_iff in Hin as (b & Hid & Hb).
    pose proof (next_booking_id_fresh db b Hb). lia.
  - apply violates_uq_false in Huq. exact Huq.
Qed.

Lemma update_booking_ids (booking_id now : Z) (reason : option string)
    (rows : list Booking.t) :
  List.map Booking.id (update_booking booking_id (mark_canceled now reason) rows)
  = List.map Booking.id rows.
Proof.
  unfold update_booking. rewrite List.map_map. apply List.map_ext.
  intros b. destruct (Booking.id b =? booking_id); reflexivity.
Qed.

Lemma update_booking_keys (booking_id now : Z) (reason : option string)
    (rows : list Booking.t) :
  List.map (fun b => (Booking.tutor_id b, Booking.start_time b))
    (update_booking booking_id (mark_canceled now reason) rows)
  = List.map (fun b => (Booking.tutor_id b, Booking.start_time b)) rows.
Proof.
  unfold update_booking. rewrite List.map_map. apply List.map_ext.
  intros b. destruct (Booking.id b =? booking_id); reflexivity.
Qed.

(** The rows of the bookings table after a step, in terms of the rows
    before. *)
Lemma step_rows (db : Store) (op : Op) :
  step db op = db
  \/ (exists (env : Env) (form_values : BookForm) (stored : Booking.t)
             (tutor : Tutor.t) (subject : Subject.t),
        book env form_values db
        = (RenderConfirmation stored tutor subject, step db op))
  \/ (exists (booking_id now : Z) (reason : option string),
        step db op
        = with_bookings db
            (update_booking booking_id (mark_canceled now reason) (bookings db))).
Proof.
  destruct op as [env form_values|env session_tutor_id booking_id reason]; simpl.
  - destruct (book_outcome env form_values db)
      as [(stored & tutor & subject & Hbook)|[(m & c & Hbook)|[Hbook _]]].
    + right. left. exists env, form_values, stored, tutor, subject.
      rewrite Hbook. reflexivity.
    + left. rewrite Hbook. reflexivity.
    + left. rewrite Hbook. reflexivity.
  - destruct (cancel_booking_store env session_tutor_id booking_id reason db)
      as [Hsame|(_ & _ & _ & _ & _ & _ & _ & Hupd)].
    + left. exact Hsame.
    + right. right. eauto.
Qed.

Lemma step_keeps_constraints (db : Store) (op : Op) :
  unique_booking_ids db /\ unique_booking_keys db ->
  unique_booking_ids (step db op) /\ unique_booking_keys (step db op).
Proof.
  intros [Hids Hkeys].
  destruct (step_rows db op)
    as [->|[(env & form_values & stored & tutor & subject & Hbook)
           |(booking_id & now & reason & ->)]].
  - split; assumption.
  - apply book_confirmed_fresh in Hbook as (-> & _ & _ & Hid & Hkey).
    unfold unique_booking_ids, unique_booking_keys in *. simpl.
    rewrite !List.map_app. simpl. split.
    + apply NoDup_app. split; [exact Hids|]. split.
      * intros x Hx [<-|[]]%list_elem_of_In. apply Hid, list_elem_of_In, Hx.
      * apply NoDup_singleton.
    + apply NoDup_app. split; [exact Hkeys|]. split.
      * intros x Hx [<-|[]]%list_elem_of_In. apply Hkey, list_elem_of_In, Hx.
      * apply NoDup_singleton.
  - unfold unique_booking_ids, unique_booking_keys in *. simpl.
    rewrite update_booking_ids, update_booking_keys. split; assumption.
Qed.

Lemma step_keeps_keys (db : Store) (op : Op) (key : Z * Z) :
  In key (List.map (fun b => (Booking.tutor_id b, Booking.start_time b))
            (bookings db)) ->
  In key (List.map (fun b => (Booking.tutor_id b, Booking.start_time b))
            (bookings (step db op))).
Proof.
  intros Hkey.
  destruct (step_rows db op)
    as [->|[(env & form_values & stored & tutor & subject & Hbook)
           |(booking_id & now & reason & ->)]].
  - exact Hkey.
  - apply book_confirmed_fresh in Hbook as (-> & _). simpl.
    rewrite List.map_app. apply in_or_app. left. exact Hkey.
  - simpl. rewrite update_booking_keys. exact Hkey.
Qed.

Lemma run_keeps_keys (ops : list Op) (db : Store) (key : Z * Z) :
  In key (List.map (fun b => (Booking.tutor_id b, Booking.start_time b))
            (bookings db)) ->
  In key (List.map (fun b => (Booking.tutor_id b, Booking.start_time b))
            (bookings (run ops db))).
Proof.
  unfold run. revert db.
  induction ops as [|op ops IH]; intros db Hkey; simpl; [exact Hkey|].
  apply IH, step_keeps_keys, Hkey.
Qed.

End StoreConstraints.

(** X8. A (tutor, start time) pair that has a row in the bookings table,
    canceled or not, is never confirmed again: after any sequence of
    requests, no confirmation of [book] carries that tutor and that start. *)
Theorem booked_start_never_confirmed_again `{PyLib}
    (b : Booking.t) (ops : list Op) (db db' : Store)
    (env : Env) (form_values : BookForm)
    (stored : Booking.t) (tutor : Tutor.t) (subject : Subject.t) :
  In b (bookings db) ->
  book env form_values (run ops db) = (RenderConfirmation stored tutor subject, db') ->
  ~ (Booking.tutor_id stored = Booking.tutor_id b
     /\ Booking.start_time stored = Booking.start_time b).
Proof.
  intros Hb Hbook [Ht Hs].
  apply book_confirmed_fresh in Hbook as (_ & _ & _ & _ & Hkey).
  apply Hkey. rewrite Ht, Hs.
  apply run_keeps_keys, in_map_iff. exists b. split; [reflexivity | exact Hb].
Qed.

(** Tutor A's booking of 15:30 is canceled and 15:00 is asked for: the
    confirmation is not for 15:30. *)
Lemma booked_start_never_confirmed_again_witness :
  exists stored : Booking.t,
    (@book Examples.lib Examples.env_ok Examples.form_15_00
       (@run Examples.lib [OpCancel Examples.env_ok (Some 1) 1 ""]
          Examples.db_a_booked)).1
    = RenderConfirmation stored Examples.tutor_a Examples.subject_im1
    /\ ~ (Booking.tutor_id stored = 1
          /\ Booking.start_time stored = combine Examples.monday (time 15 30 0)).
Proof.
  destruct (@book Examples.lib Examples.env_ok Examples.form_15_00
              (@run Examples.lib [OpCancel Examples.env_ok (Some 1) 1 ""]
                 Examples.db_a_booked)) as [response db'] eqn:Hbook.
  assert (exists stored : Booking.t,
             response = RenderConfirmation stored Examples.tutor_a
                          Examples.subject_im1) as [stored ->].
  { pose proof Hbook as Hvalue. vm_compute in Hvalue. injection Hvalue as <- _.
    eexists. reflexivity. }
  exists stored. split; [reflexivity|].
  apply (@booked_start_never_confirmed_again Examples.lib
           (Examples.booking 1 1 15 30 16 0 false) _ Examples.db_a_booked
           _ _ _ _ _ _ (or_introl eq_refl) Hbook).
Defined.

(** ** Loads and availability across [book] and [cancel_booking] *)

Section LoadsAndAvailability.

Context `{PyLib}.

Lemma total_bookings_rows (db : Store) (t : Tutor.t) :
  total_bookings db t = load_of_id db (Tutor.id t).
Proof. reflexivity. Qed.

Lemma load_of_id_app (db : Store) (rows : list Booking.t) (b : Booking.t) (k : Z) :
  load_of_id (with_bookings db (rows ++ [b])) k
  = (load_of_id (with_bookings db rows) k
     + (if (Booking.tutor_id b =? k)%Z && negb (Booking.is_canceled b)
        then 1 else 0))%nat.
Proof.
  unfold load_of_id. simpl. rewrite !List.filter_app, length_app. simpl.
  destruct (Booking.tutor_id b =? k); simpl; [|lia].
  destruct (Booking.is_canceled b); simpl; lia.
Qed.

Lemma with_bookings_id (db : Store) : with_bookings db (bookings db) = db.
Proof. destruct db. reflexivity. Qed.

(** Canceling the one row with the given id takes one from the load of its
    tutor when the row was active, and nothing from any other load. *)
Lemma load_of_id_cancel (db : Store) (rows : list Booking.t)
    (booking_id now : Z) (reason : option string) (b : Booking.t) (k : Z) :
  NoDup (List.map Booking.id rows) ->
  In b rows ->
  Booking.id b = booking_id ->
  Booking.is_canceled b = false ->
  (load_of_id
     (with_bookings db (update_booking booking_id (mark_canceled now reason) rows)) k
   + (if (Booking.tutor_id b =? k)%Z then 1 else 0))%nat
  = load_of_id (with_bookings db rows) k.
Proof.
  unfold load_of_id. simpl.
  induction rows as [|r rows IH]; intros Hnodup Hin Hid Hactive; [destruct Hin|].
  simpl in Hnodup. apply NoDup_cons in Hnodup as [Hfresh Hnodup].
  simpl.
  destruct (Z.eqb_spec (Booking.id r) booking_id) as [Hr|Hr].
  - assert (r = b) as ->.
    { destruct Hin as [Heq|Hin]; [exact Heq|].
      exfalso. apply Hfresh, list_elem_of_In, in_map_iff.
      exists b. split; [congruence | exact Hin]. }
    assert (update_booking booking_id (mark_canceled now reason) rows = rows) as ->.
    { unfold update_booking. rewrite <- (List.map_id rows) at 2.
      apply List.map_ext_in. intros r Hrin.
      destruct (Z.eqb_spec (Booking.id r) booking_id) as [Heq|]; [|reflexivity].
      exfalso. apply Hfresh, list_elem_of_In, in_map_iff.
      exists r. split; [congruence | exact Hrin]. }
    simpl. destruct (Booking.tutor_id b =? k); simpl; [|lia].
    rewrite Hactive. simpl. lia.
  - destruct Hin as [->|Hin]; [contradiction|].
    specialize (IH Hnodup Hin Hid Hactive).
    destruct (Booking.tutor_id r =? k); simpl; [|exact IH].
    destruct (Booking.is_canceled r); simpl; lia.
Qed.

Lemma cancel_success_inv (env : Env) (session_tutor_id : option Z)
    (booking_id : Z) (form_cancel_reason : string) (db : Store) :
  (cancel_booking env session_tutor_id booking_id form_cancel_reason db).1
  = Redirect "tutor.dashboard"
      "Booking canceled. Please notify the student if possible." "info" ->
  exists (tutor : Tutor.t) (booking : Booking.t) (reason : option string),
    get_current_tutor session_tutor_id db = Some tutor
    /\ List.find (fun b => Booking.id b =? booking_id) (bookings db) = Some booking
    /\ Booking.tutor_id booking = Tutor.id tutor
    /\ Booking.is_canceled booking = false
    /\ storage_fault env = false
    /\ (cancel_booking env session_tutor_id booking_id form_cancel_reason db).2
       = with_bookings db
           (update_booking booking_id (mark_canceled (utcnow env) reason)
              (bookings db)).
Proof.
  unfold cancel_booking.
  destruct (get_current_tutor session_tutor_id db) as [tutor|]; [|discriminate].
  destruct (List.find (fun b => Booking.id b =? booking_id) (bookings db))
    as [booking|]; [|destruct (sqlite_integer booking_id); discriminate].
  destruct (Z.eqb_spec (Booking.tutor_id booking) (Tutor.id tutor)) as [Hown|];
    simpl; [|discriminate].
  destruct (Booking.is_canceled booking) eqn:Hc; [discriminate|].
  destruct (storage_fault env) eqn:Hfault; [discriminate|].
  intros _. exists tutor, booking. eexists. repeat split; assumption.
Qed.

(** The first two tests of [is_available_for_slot] do not read the bookings
    table. *)
Lemma exception_hit_with_bookings (db : Store) (rows : list Booking.t)
    (t : Tutor.t) (s e : Z) :
  exception_hit (with_bookings db rows) t s e = exception_hit db t s e.
Proof. reflexivity. Qed.

Lemma block_matches_with_bookings (db : Store) (rows : list Booking.t)
    (t : Tutor.t) (s e : Z) :
  block_matches (with_bookings db rows) t s e = block_matches db t s e.
Proof. reflexivity. Qed.

Lemma is_available_with_bookings (db : Store) (rows : list Booking.t)
    (t : Tutor.t) (s e : Z) :
  booking_hit (with_bookings db rows) t s e = booking_hit db t s e ->
  is_available_for_slot (with_bookings db rows) t s e
  = is_available_for_slot db t s e.
Proof.
  intros Hhit. rewrite !is_available_gates, Hhit. reflexivity.
Qed.

Lemma booking_hit_rows (db : Store) (t : Tutor.t) (s e : Z) :
  booking_hit db t s e = existsb (row_hits t s e) (bookings db).
Proof.
  unfold booking_hit, bookings_of, row_hits.
  induction (bookings db) as [|b rows IH]; [reflexivity|].
  simpl. destruct (Booking.tutor_id b =? Tutor.id t); simpl; [|exact IH].
  rewrite IH. destruct (Booking.is_canceled b); reflexivity.
Qed.

End LoadsAndAvailability.

Section BookThenCancel.

Context `{PyLib}.

Lemma find_app_fresh {A : Type} (p : A -> bool) (l : list A) (x : A) :
  (forall y : A, In y l -> p y = false) -> p x = true ->
  List.find p (l ++ [x]) = Some x.
Proof.
  intros Hl Hx. induction l as [|y l IH]; simpl.
  - rewrite Hx. reflexivity.
  - rewrite (Hl y (or_introl eq_refl)). apply IH.
    intros z Hz. apply Hl. right. exact Hz.
Qed.

Lemma find_in_some {A : Type} (p : A -> bool) (l : list A) (x : A) :
  In x l -> p x = true -> exists y : A, List.find p l = Some y /\ p y = true.
Proof.
  intros Hin Hx. destruct (List.find p l) as [y|] eqn:Hfind.
  - exists y. split; [reflexivity|]. apply (find_some _ _ Hfind).
  - rewrite (find_none _ _ Hfind x Hin) in Hx. discriminate.
Qed.

Lemma update_booking_app_fresh (rows : list Booking.t) (stored : Booking.t)
    (f : Booking.t -> Booking.t) :
  ~ In (Booking.id stored) (List.map Booking.id rows) ->
  update_booking (Booking.id stored) f (rows ++ [stored]) = rows ++ [f stored].
Proof.
  intros Hfresh. unfold update_booking. rewrite List.map_app. simpl.
  rewrite Z.eqb_refl. f_equal.
  rewrite <- (List.map_id rows) at 2. apply List.map_ext_in.
  intros r Hr. destruct (Z.eqb_spec (Booking.id r) (Booking.id stored)) as [Heq|];
    [|reflexivity].
  exfalso. apply Hfresh, in_map_iff. exists r. split; assumption.
Qed.

Lemma row_hits_canceled (t : Tutor.t) (s e now : Z) (reason : option string)
    (b : Booking.t) :
  row_hits t s e (mark_canceled now reason b) = false.
Proof. unfold row_hits. simpl. rewrite andb_false_r. reflexivity. Qed.

End BookThenCancel.

(** X9. A confirmed booking adds exactly one to the load of the tutor it is
    assigned to and leaves the load of every other tutor as it was. *)
Theorem book_adds_one_to_load `{PyLib}
    (env : Env) (form_values : BookForm) (db db' : Store)
    (stored : Booking.t) (tutor : Tutor.t) (subject : Subject.t) (t : Tutor.t) :
  book env form_values db = (RenderConfirmation stored tutor subject, db') ->
  total_bookings db' t
  = if Tutor.id t =? Tutor.id tutor
    then S (total_bookings db t) else total_bookings db t.
Proof.
  intros Hbook.
  apply book_confirmed_fresh in Hbook as (-> & Htutor & Hactive & _).
  rewrite !total_bookings_rows, load_of_id_app, with_bookings_id.
  rewrite Htutor, Hactive, Z.eqb_sym.
  destruct (Tutor.id t =? Tutor.id tutor); simpl; lia.
Qed.

Lemma book_adds_one_to_load_witness :
  total_bookings
    (@book Examples.lib Examples.env_ok Examples.form_15_00 Examples.db_a_booked).2
    Examples.tutor_a = 2%nat.
Proof.
  destruct (@book Examples.lib Examples.env_ok Examples.form_15_00
              Examples.db_a_booked) as [response db'] eqn:Hbook.
  assert (exists stored : Booking.t,
             response = RenderConfirmation stored Examples.tutor_a
                          Examples.subject_im1) as [stored ->].
  { pose proof Hbook as Hvalue. vm_compute in Hvalue. injection Hvalue as <- _.
    eexists. reflexivity. }
  simpl.
  rewrite (@book_adds_one_to_load Examples.lib _ _ _ _ _ _ _ Examples.tutor_a Hbook).
  reflexivity.
Defined.

(** X10. When the ids of the bookings table are distinct, a cancellation
    that goes through takes exactly one from the load of the booking's tutor
    and leaves the load of every other tutor as it was. *)
Theorem cancel_takes_one_from_load `{PyLib}
    (env : Env) (session_tutor_id : option Z) (booking_id : Z)
    (form_cancel_reason : string) (db : Store) :
  unique_booking_ids db ->
  (cancel_booking env session_tutor_id booking_id form_cancel_reason db).1
  = Redirect "tutor.dashboard"
      "Booking canceled. Please notify the student if possible." "info" ->
  exists booking : Booking.t,
    In booking (bookings db)
    /\ Booking.id booking = booking_id
    /\ session_tutor_id = Some (Booking.tutor_id booking)
    /\ forall t : Tutor.t,
         total_bookings db t
         = (total_bookings
              (cancel_booking env session_tutor_id booking_id
                 form_cancel_reason db).2 t
            + (if (Booking.tutor_id booking =? Tutor.id t)%Z then 1 else 0))%nat.
Proof.
  intros Hids Hok.
  destruct (cancel_success_inv _ _ _ _ _ Hok)
    as (tutor & booking & reason & Htutor & Hfind & Hown & Hactive & _ & ->).
  pose proof (find_some _ _ Hfind) as [Hin Hid]. apply Z.eqb_eq in Hid.
  exists booking. split; [exact Hin|]. split; [exact Hid|]. split.
  - unfold get_current_tutor in Htutor.
    destruct session_tutor_id as [tid|]; [|discriminate].
    destruct (tid =? 0); [discriminate|].
    apply find_some in Htutor as [_ Htid]. f_equal. lia.
  - intros t. rewrite !total_bookings_rows.
    rewrite (load_of_id_cancel db (bookings db) booking_id (utcnow env) reason
               booking (Tutor.id t) Hids Hin Hid Hactive).
    rewrite with_bookings_id. reflexivity.
Qed.

Lemma cancel_takes_one_from_load_witness :
  total_bookings
    (@cancel_booking Examples.lib Examples.env_ok (Some 1) 1 "" Examples.db_a_booked).2
    Examples.tutor_a = 0%nat.
Proof.
  destruct (@cancel_takes_one_from_load Examples.lib Examples.env_ok (Some 1) 1 ""
              Examples.db_a_booked) as (booking & Hin & _ & Hsession & Hload).
  - unfold unique_booking_ids. simpl. apply NoDup_singleton.
  - reflexivity.
  - specialize (Hload Examples.tutor_a). injection Hsession as Htutor.
    rewrite <- Htutor in Hload.
    change (total_bookings Examples.db_a_booked Examples.tutor_a) with 1%nat in Hload.
    change (1 =? Tutor.id Examples.tutor_a) with true in Hload.
    cbv iota in Hload. lia.
Defined.

(** X11. After a confirmation the assigned tutor is unavailable for every
    interval that overlaps the confirmed one. *)
Theorem confirmed_interval_is_taken `{PyLib}
    (env : Env) (form_values : BookForm) (db db' : Store)
    (stored : Booking.t) (tutor : Tutor.t) (subject : Subject.t)
    (start_dt end_dt : Z) :
  book env form_values db = (RenderConfirmation stored tutor subject, db') ->
  start_dt < Booking.end_time stored ->
  Booking.start_time stored < end_dt ->
  is_available_for_slot db' tutor start_dt end_dt = false.
Proof.
  intros Hbook Hs He.
  apply book_confirmed_fresh in Hbook as (-> & Htutor & Hactive & _).
  rewrite is_available_gates.
  replace (booking_hit (with_bookings db (bookings db ++ [stored])) tutor
             start_dt end_dt) with true; [apply andb_false_r|].
  symmetry. rewrite booking_hit_rows. simpl.
  rewrite existsb_app. simpl. unfold row_hits at 2.
  rewrite Htutor, Z.eqb_refl, Hactive. simpl.
  replace (Booking.start_time stored <? end_dt) with true by lia.
  replace (Booking.end_time stored >? start_dt) with true by lia.
  apply orb_true_r.
Qed.

Lemma confirmed_interval_is_taken_witness :
  is_available_for_slot
    (@book Examples.lib Examples.env_ok Examples.form_15_00 Examples.db_a).2
    Examples.tutor_a
    (combine Examples.monday (time 15 15 0))
    (combine Examples.monday (time 15 45 0)) = false.
Proof.
  destruct (@book Examples.lib Examples.env_ok Examples.form_15_00
              Examples.db_a) as [response db'] eqn:Hbook.
  assert (exists stored : Booking.t,
             response = RenderConfirmation stored Examples.tutor_a
                          Examples.subject_im1
             /\ Booking.start_time stored = combine Examples.monday (time 15 0 0)
             /\ Booking.end_time stored = combine Examples.monday (time 15 30 0))
    as (stored & -> & Hs & He).
  { pose proof Hbook as Hvalue. vm_compute in Hvalue. injection Hvalue as <- _.
    eexists. repeat split. }
  simpl.
  apply (@confirmed_interval_is_taken Examples.lib _ _ _ _ _ _ _ _ _ Hbook).
  - rewrite He. vm_compute. reflexivity.
  - rewrite Hs. vm_compute. reflexivity.
Defined.

(** X12. Cancellation undoes a booking for availability and load: when the
    assigned tutor cancels the booking just confirmed, [is_available_for_slot]
    and [total_bookings] answer for every tutor and interval as they did
    before the booking, while the row itself stays in the table. *)
Theorem cancel_undoes_book `{PyLib}
    (env env2 : Env) (form_values : BookForm) (db db1 : Store)
    (stored : Booking.t) (tutor : Tutor.t) (subject : Subject.t)
    (form_cancel_reason : string) :
  book env form_values db = (RenderConfirmation stored tutor subject, db1) ->
  Tutor.id tutor <> 0 ->
  storage_fault env2 = false ->
  let result :=
    cancel_booking env2 (Some (Tutor.id tutor)) (Booking.id stored)
      form_cancel_reason db1 in
  result.1 = Redirect "tutor.dashboard"
               "Booking canceled. Please notify the student if possible." "info"
  /\ length (bookings result.2) = S (length (bookings db))
  /\ forall (t : Tutor.t) (start_dt end_dt : Z),
       is_available_for_slot result.2 t start_dt end_dt
       = is_available_for_slot db t start_dt end_dt
       /\ total_bookings result.2 t = total_bookings db t.
Proof.
  intros Hbook Hid Hfault.
  pose proof Hbook as Hsound.
  apply book_confirmed_inv in Hsound as (booking & Hprep & _).
  apply book_prepare_inv in Hprep as (request & _ & Hpick & _).
  apply pick_fair_tutor_in in Hpick.
  unfold available_tutors_for_slot, active_tutors_for_subject in Hpick.
  apply filter_In in Hpick as [Hpick _]. apply filter_In in Hpick as [Htutor _].
  apply book_confirmed_fresh in Hbook as (-> & Hown & Hactive & Hfresh & _).
  destruct (find_in_some (fun t => Tutor.id t =? Tutor.id tutor) (tutors db) tutor
              Htutor (Z.eqb_refl _)) as (tutor' & Hfind & Hsame).
  apply Z.eqb_eq in Hsame.
  assert (List.find (fun b => Booking.id b =? Booking.id stored)
            (bookings db ++ [stored]) = Some stored) as Hrow.
  { apply find_app_fresh; [|apply Z.eqb_refl].
    intros b Hb. apply Z.eqb_neq. intros Heq. apply Hfresh, in_map_iff.
    exists b. split; assumption. }
  set (reason := if str_bool (py_strip form_cancel_reason)
                 then Some (py_strip form_cancel_reason) else None).
  assert (cancel_booking env2 (Some (Tutor.id tutor)) (Booking.id stored)
            form_cancel_reason (with_bookings db (bookings db ++ [stored]))
          = (Redirect "tutor.dashboard"
               "Booking canceled. Please notify the student if possible." "info",
             with_bookings db
               (bookings db ++ [mark_canceled (utcnow env2) reason stored])))
    as Hcancel.
  { unfold cancel_booking, get_current_tutor. simpl.
    replace (Tutor.id tutor =? 0) with false by lia.
    rewrite Hfind, Hrow, Hown, Hsame, Z.eqb_refl, Hactive, Hfault. simpl.
    rewrite (update_booking_app_fresh _ _ _ Hfresh). reflexivity. }
  simpl. rewrite Hcancel. simpl.
  split; [reflexivity|]. split; [rewrite length_app; simpl; lia|].
  intros t start_dt end_dt. split.
  - apply is_available_with_bookings.
    rewrite !booking_hit_rows. simpl.
    rewrite existsb_app. simpl. rewrite row_hits_canceled. simpl.
    apply orb_false_r.
  - rewrite !total_bookings_rows, load_of_id_app, with_bookings_id. simpl.
    rewrite andb_false_r. lia.
Qed.

Lemma cancel_undoes_book_witness :
  Tutor.id Examples.tutor_a <> 0
  /\ is_available_for_slot
       (@cancel_booking Examples.lib Examples.env_ok (Some 1) 1 "changed plans"
          (@book Examples.lib Examples.env_ok Examples.form_15_00 Examples.db_a).2).2
       Examples.tutor_a
       (combine Examples.monday (time 15 0 0))
       (combine Examples.monday (time 15 30 0))
     = is_available_for_slot Examples.db_a Examples.tutor_a
         (combine Examples.monday (time 15 0 0))
         (combine Examples.monday (time 15 30 0)).
Proof.
  split; [discriminate|].
  destruct (@book Examples.lib Examples.env_ok Examples.form_15_00
              Examples.db_a) as [response db1] eqn:Hbook.
  assert (exists stored : Booking.t,
             response = RenderConfirmation stored Examples.tutor_a
                          Examples.subject_im1
             /\ Booking.id stored = 1) as (stored & -> & Hid).
  { pose proof Hbook as Hvalue. vm_compute in Hvalue. injection Hvalue as <- _.
    eexists. split; reflexivity. }
  destruct (@cancel_undoes_book Examples.lib _ Examples.env_ok _ _ _ _ _ _
              "changed plans" Hbook) as (_ & _ & Hsame);
    [discriminate | reflexivity |].
  rewrite Hid in Hsame. apply Hsame.
Defined.

(** X13. Availability moves one way with each request: [book] never makes a
    tutor available for an interval it was not available for, and
    [cancel_booking] never makes a tutor unavailable for an interval it was
    available for. *)
Theorem availability_one_way `{PyLib}
    (env : Env) (form_values : BookForm)
    (session_tutor_id : option Z) (booking_id : Z) (form_cancel_reason : string)
    (db : Store) (t : Tutor.t) (start_dt end_dt : Z) :
  (is_available_for_slot (book env form_values db).2 t start_dt end_dt = true ->
   is_available_for_slot db t start_dt end_dt = true)
  /\ (is_available_for_slot db t start_dt end_dt = true ->
      is_available_for_slot
        (cancel_booking env session_tutor_id booking_id form_cancel_reason db).2
        t start_dt end_dt = true).
Proof.
  split.
  - destruct (book_outcome env form_values db)
      as [(stored & tutor & subject & ->)|[(m & c & ->)|[-> _]]]; simpl;
      [|tauto..].
    rewrite !is_available_gates, !andb_true_iff, !negb_true_iff.
    rewrite !booking_hit_rows. simpl. rewrite existsb_app.
    intros [Hgates Hhit]. apply orb_false_iff in Hhit. tauto.
  - destruct (cancel_booking_store env session_tutor_id booking_id
                form_cancel_reason db) as [->|(_ & _ & _ & _ & _ & _ & _ & ->)];
      [tauto|].
    rewrite !is_available_gates, !andb_true_iff, !negb_true_iff.
    rewrite !booking_hit_rows. simpl.
    intros [Hgates Hhit]. split; [exact Hgates|].
    apply not_true_iff_false. intros Hafter.
    apply not_true_iff_false in Hhit. apply Hhit.
    apply existsb_exists in Hafter as (r' & Hin & Hr').
    unfold update_booking in Hin. apply in_map_iff in Hin as (r & <- & Hin).
    apply existsb_exists. exists r. split; [exact Hin|].
    destruct (Booking.id r =? booking_id); [|exact Hr'].
    rewrite row_hits_canceled in Hr'. discriminate.
Qed.

Lemma availability_one_way_witness :
  is_available_for_slot
    (@cancel_booking Examples.lib Examples.env_ok (Some 1) 1 ""
       Examples.db_a_booked).2
    Examples.tutor_a
    (combine Examples.monday (time 15 0 0))
    (combine Examples.monday (time 15 30 0)) = true.
Proof.
  apply (@availability_one_way Examples.lib Examples.env_ok Examples.form_15_00).
  vm_compute. reflexivity.
Defined.

(** ** The tutors listed by [collect_open_slots] *)

Section ListedTutors.

Variables (slot_minutes : Z) (db : Store) (subject_id target_date : Z).

Lemma collect_slot_listed (tutor : Tutor.t) (slots : gmap Z (list Tutor.t))
    (slot : Slot) :
  In tutor (active_tutors_for_subject db subject_id) ->
  slot.2 = slot.1 + timedelta_minutes slot_minutes ->
  listed_tutors_available slot_minutes db subject_id slots ->
  listed_tutors_available slot_minutes db subject_id (collect_slot db tutor slots slot).
Proof.
  destruct slot as [s e]. simpl. intros Htutor -> Hlisted.
  unfold collect_slot.
  destruct (is_available_for_slot db tutor s (s + timedelta_minutes slot_minutes))
    eqn:Hfree; [|exact Hlisted].
  intros k tutors t Hk Ht. unfold setdefault_append in Hk.
  destruct (decide (s = k)) as [->|Hne].
  - rewrite lookup_insert_eq in Hk. injection Hk as <-.
    apply in_app_or in Ht as [Ht|[<-|[]]].
    + destruct (slots !! k) as [old|] eqn:Hold; [|destruct Ht].
      apply (Hlisted k old t Hold Ht).
    + unfold available_tutors_for_slot. apply filter_In. split; assumption.
  - rewrite lookup_insert_ne in Hk by exact Hne. apply (Hlisted k tutors t Hk Ht).
Qed.

Lemma fold_collect_slot_listed (tutor : Tutor.t) (generated : list Slot)
    (slots : gmap Z (list Tutor.t)) :
  In tutor (active_tutors_for_subject db subject_id) ->
  (forall slot : Slot,
      In slot generated -> slot.2 = slot.1 + timedelta_minutes slot_minutes) ->
  listed_tutors_available slot_minutes db subject_id slots ->
  listed_tutors_available slot_minutes db subject_id
    (fold_left (collect_slot db tutor) generated slots).
Proof.
  intros Htutor. revert slots.
  induction generated as [|slot generated IH]; intros slots Hshape Hlisted; simpl;
    [exact Hlisted|].
  apply IH.
  - intros s Hs. apply Hshape. right. exact Hs.
  - apply collect_slot_listed; [exact Htutor | apply Hshape; left; reflexivity
                               | exact Hlisted].
Qed.

Lemma collect_tutor_listed (fuel : nat) (tutor : Tutor.t)
    (m m' : gmap Z (list Tutor.t)) :
  In tutor (active_tutors_for_subject db subject_id) ->
  listed_tutors_available slot_minutes db subject_id m ->
  collect_tutor fuel slot_minutes db target_date (Some (Returns m)) tutor
  = Some (Returns m') ->
  listed_tutors_available slot_minutes db subject_id m'.
Proof.
  intros Htutor Hm. rewrite collect_tutor_fold.
  apply fold_left_preserves;
    [intros a; reflexivity | intros e a; reflexivity | | exact Hm].
  intros block m0 m1 _ Hm0. unfold collect_block.
  destruct (generate_slots fuel block target_date slot_minutes)
    as [[generated|e]|] eqn:Hgen; [|discriminate..].
  intros [= <-].
  apply fold_collect_slot_listed;
    [exact Htutor | apply (generate_slots_shape _ _ _ _ _ Hgen) | exact Hm0].
Qed.

Lemma collect_open_slots_listed (fuel : nat) (slots : gmap Z (list Tutor.t)) :
  collect_open_slots fuel slot_minutes db subject_id target_date
  = Some (Returns slots) ->
  listed_tutors_available slot_minutes db subject_id slots.
Proof.
  unfold collect_open_slots.
  destruct (sqlite_integer subject_id); [|discriminate].
  apply fold_left_preserves.
  - apply collect_tutor_none.
  - apply collect_tutor_raises.
  - intros tutor m0 m1 Hin Hm0. apply collect_tutor_listed; assumption.
  - intros k tutors t Hk. rewrite lookup_empty in Hk. discriminate.
Qed.

End ListedTutors.

(** X14. What [collect_open_slots] offers, [book] can assign: every tutor
    listed under a slot start is one that [available_tutors_for_slot] returns
    for the slot of the configured length starting there, so for every key of
    the mapping that list is not empty and [pick_fair_tutor] selects a tutor
    from it. *)
Theorem collect_open_slots_bookable
    (fuel : nat) (slot_minutes : Z) (db : Store) (subject_id target_date : Z)
    (slots : gmap Z (list Tutor.t)) :
  collect_open_slots fuel slot_minutes db subject_id target_date
  = Some (Returns slots) ->
  (forall (k : Z) (tutors : list Tutor.t) (t : Tutor.t),
      slots !! k = Some tutors ->
      In t tutors ->
      In t (available_tutors_for_slot db subject_id k
              (k + timedelta_minutes slot_minutes)))
  /\ (forall (k : Z) (rnd : nat),
        k ∈ dom slots ->
        exists t : Tutor.t,
          pick_fair_tutor db rnd
            (available_tutors_for_slot db subject_id k
               (k + timedelta_minutes slot_minutes)) = Some t).
Proof.
  intros Hrun.
  pose proof (collect_open_slots_listed _ _ _ _ _ _ Hrun) as Hlisted.
  split; [exact Hlisted|].
  intros k rnd Hk. apply elem_of_dom in Hk as [tutors Hk].
  assert (tutors <> []) as Hne.
  { apply collect_open_slots_returned in Hrun as (_ & _ & Hnonempty).
    apply (Hnonempty k), Hk. }
  destruct tutors as [|t0 tutors]; [congruence|].
  assert (available_tutors_for_slot db subject_id k
            (k + timedelta_minutes slot_minutes) <> []) as Havail.
  { intros Hnil. pose proof (Hlisted k _ t0 Hk (or_introl eq_refl)) as Hin.
    rewrite Hnil in Hin. destruct Hin. }
  destruct (pick_fair_tutor_smallest db rnd _ Havail)
    as (min_count & smallest & Hsel & Hsne & _ & _).
  destruct (random_choice_in rnd smallest Hsne) as (x & Hx & _).
  exists x. rewrite Hsel. exact Hx.
Qed.

Lemma collect_open_slots_bookable_witness :
  exists t : Tutor.t,
    pick_fair_tutor Examples.db_a_booked 0
      (available_tutors_for_slot Examples.db_a_booked 1
         (combine Examples.monday (time 16 0 0))
         (combine Examples.monday (time 16 0 0) + timedelta_minutes 30)) = Some t.
Proof.
  destruct (collect_open_slots 5 30 Examples.db_a_booked 1 Examples.monday)
    as [[slots|e]|] eqn:Hrun; [|vm_compute in Hrun; discriminate..].
  apply (proj2 (collect_open_slots_bookable _ _ _ _ _ _ Hrun)).
  vm_compute in Hrun. injection Hrun as <-. vm_compute. reflexivity.
Defined.

(** ** The effect of each request on the store *)

Section Effects.

Context `{PyLib} `{PyHash}.

Lemma book_confirmed_tutor (env : Env) (form_values : BookForm) (db db' : Store)
    (stored : Booking.t) (tutor : Tutor.t) (subject : Subject.t) :
  book env form_values db = (RenderConfirmation stored tutor subject, db') ->
  In tutor (tutors db)
  /\ Tutor.is_active tutor = true
  /\ forall b : Booking.t, In b (bookings db) -> ~ conflicting b stored.
Proof.
  intros Hbook.
  apply book_confirmed_inv in Hbook as (booking & Hprep & _ & _ & -> & _).
  pose proof (book_prepare_available _ _ _ _ _ _ Hprep) as (Htutor & Hactive & Hfree).
  apply book_prepare_inv in Hprep as (request & _ & Hpick & _ & ->).
  apply pick_fair_tutor_in in Hpick.
  unfold available_tutors_for_slot, active_tutors_for_subject in Hpick.
  apply filter_In in Hpick as [Hpick _]. apply filter_In in Hpick as [Hin Hact].
  apply andb_true_iff in Hact as [Hact _].
  split; [exact Hin|]. split; [exact Hact|].
  intros b Hb (Ht & Hc1 & _ & Hs1 & Hs2). simpl in *.
  rewrite is_available_gates, !andb_true_iff, !negb_true_iff in Hfree.
  destruct Hfree as [_ Hhit]. rewrite booking_hit_false_iff in Hhit.
  apply (Hhit b); [|exact Hc1|lia].
  apply bookings_of_In. split; [exact Hb | congruence].
Qed.

Lemma get_current_tutor_has (session_tutor_id : option Z) (db : Store)
    (tutor : Tutor.t) :
  get_current_tutor session_tutor_id db = Some tutor ->
  In tutor (tutors db) /\ session_tutor_id = Some (Tutor.id tutor).
Proof.
  unfold get_current_tutor. destruct session_tutor_id as [tid|]; [|discriminate].
  destruct (tid =? 0); [discriminate|]. intros Hfind.
  apply find_some in Hfind as [Hin Hid]. split; [exact Hin | f_equal; lia].
Qed.

Lemma subjects_in_incl (db : Store) (ids : list Z) :
  incl (subjects_in db ids) (subjects db).
Proof. intros s Hs. apply filter_In in Hs. tauto. Qed.

Lemma next_id_fresh (ids : list Z) : ~ In (next_id ids) ids.
Proof.
  intros Hin. unfold next_id in Hin.
  destruct (fold_left_max_ge ids 0) as [_ Hmax].
  specialize (Hmax _ Hin). lia.
Qed.

Lemma book_effect (env : Env) (form_values : BookForm) (db : Store) :
  store_effect db (book env form_values db).2.
Proof.
  destruct (book env form_values db) as [response db'] eqn:Hbook.
  destruct (book_outcome env form_values db)
    as [(stored & tutor & subject & Heq)|[(m & c & Heq)|[Heq _]]];
    rewrite Hbook in Heq; injection Heq as -> ->; [|constructor..].
  pose proof (book_confirmed_fresh _ _ _ _ _ _ _ Hbook) as (_ & Htid & _ & Hid & Hkey).
  pose proof (book_confirmed_tutor _ _ _ _ _ _ _ Hbook) as (Hin & _ & Hfree).
  simpl. apply effect_book; try assumption.
  exists tutor. split; [exact Hin | congruence].
Qed.

Lemma cancel_effect (env : Env) (session_tutor_id : option Z) (booking_id : Z)
    (reason : string) (db : Store) :
  store_effect db (cancel_booking env session_tutor_id booking_id reason db).2.
Proof.
  destruct (cancel_booking_store env session_tutor_id booking_id reason db)
    as [->|(_ & _ & _ & _ & _ & _ & _ & ->)]; constructor.
Qed.

Lemma add_availability_effect (env : Env) (session_tutor_id : option Z)
    (day start end_ : option string) (db : Store) :
  store_effect db (add_availability env session_tutor_id day start end_ db).2.
Proof.
  unfold add_availability.
  destruct (tutor_logged_in session_tutor_id); simpl; [|constructor].
  destruct (on_field py_int day) as [day_idx|]; [|constructor].
  destruct (on_field strptime_time start) as [start_time|]; [|constructor].
  destruct (on_field strptime_time end_) as [end_time|]; [|constructor].
  destruct (Z.leb_spec end_time start_time); [constructor|].
  destruct (get_current_tutor session_tutor_id db) as [tutor|] eqn:Htutor;
    [|constructor].
  destruct (storage_fault env || _); [constructor|]. simpl.
  apply effect_add_block; simpl; [|assumption].
  exists tutor. split; [apply (get_current_tutor_has _ _ _ Htutor) | reflexivity].
Qed.

Lemma delete_availability_effect (env : Env) (session_tutor_id : option Z)
    (availability_id : Z) (db : Store) :
  store_effect db (delete_availability env session_tutor_id availability_id db).2.
Proof.
  unfold delete_availability.
  destruct (tutor_logged_in session_tutor_id); simpl; [|constructor].
  destruct (List.find _ (weekly_availability db)); [|constructor].
  destruct (get_current_tutor session_tutor_id db); [|constructor].
  destruct (negb _); [constructor|].
  destruct (storage_fault env); [constructor|]. simpl. apply effect_remove_block.
Qed.

Lemma blackout_times_shape (start_str end_str : option string)
    (start_time end_time : option Z) :
  blackout_times start_str end_str = inr (start_time, end_time) ->
  match start_time, end_time with
  | None, None => True
  | Some a, Some b =>
      a < b /\ (exists s, strptime_time s = Some a)
      /\ (exists s, strptime_time s = Some b)
  | _, _ => False
  end.
Proof.
  unfold blackout_times.
  destruct (opt_str_bool start_str || opt_str_bool end_str);
    [|intros [= <- <-]; exact I].
  destruct (negb (opt_str_bool start_str) || negb (opt_str_bool end_str));
    [discriminate|].
  destruct start_str as [s1|]; simpl; [|discriminate].
  destruct (strptime_time s1) as [a|] eqn:Ha; [|discriminate].
  destruct end_str as [s2|]; simpl; [|discriminate].
  destruct (strptime_time s2) as [b|] eqn:Hb; [|discriminate].
  destruct (Z.leb_spec b a); [discriminate|].
  intros [= <- <-]. split; [assumption|]. split; eauto.
Qed.

Lemma add_exception_effect (env : Env) (session_tutor_id : option Z)
    (date_str start_str end_str : option string) (form_note : string)
    (db : Store) :
  store_effect db
    (add_exception env session_tutor_id date_str start_str end_str form_note db).2.
Proof.
  unfold add_exception.
  destruct (tutor_logged_in session_tutor_id); simpl; [|constructor].
  destruct (on_field strptime_date date_str) as [date_obj|]; [|constructor].
  destruct (blackout_times start_str end_str) as [reply|[start_time end_time]]
    eqn:Htimes; [constructor|].
  destruct (get_current_tutor session_tutor_id db) as [tutor|] eqn:Htutor;
    [|constructor].
  destruct (existsb _ (exceptions_of db tutor)) eqn:Hover; [constructor|].
  destruct (storage_fault env || _); [constructor|]. simpl.
  apply effect_add_exception; simpl.
  - exists tutor. split; [apply (get_current_tutor_has _ _ _ Htutor) | reflexivity].
  - apply (blackout_times_shape _ _ _ _ Htimes).
  - intros x Hx Hown.
    apply not_true_iff_false. intros Hov.
    apply not_true_iff_false in Hover. apply Hover.
    apply existsb_exists. exists x. split; [|exact Hov].
    unfold exceptions_of. apply filter_In. split; [exact Hx | lia].
Qed.

Lemma delete_exception_effect (env : Env) (session_tutor_id : option Z)
    (exception_id : Z) (db : Store) :
  store_effect db (delete_exception env session_tutor_id exception_id db).2.
Proof.
  unfold delete_exception.
  destruct (tutor_logged_in session_tutor_id); simpl; [|constructor].
  destruct (List.find _ (tutor_exceptions db)); [|constructor].
  destruct (get_current_tutor session_tutor_id db); [|constructor].
  destruct (negb _); [constructor|].
  destruct (storage_fault env); [constructor|]. simpl.
  apply effect_remove_exception.
Qed.

Lemma update_subjects_effect (env : Env) (session_tutor_id : option Z)
    (form_subjects : list string) (db : Store) :
  store_effect db (update_subjects env session_tutor_id form_subjects db).2.
Proof.
  unfold update_subjects.
  destruct (tutor_logged_in session_tutor_id); simpl; [|constructor].
  destruct (selected_ids form_subjects) as [ids|]; [|constructor].
  destruct (negb (sqlite_integers ids)); [constructor|].
  destruct (get_current_tutor session_tutor_id db) as [tutor|] eqn:Htutor;
    [|constructor].
  destruct (storage_fault env); [constructor|]. simpl.
  apply effect_set_subjects; [|apply subjects_in_incl].
  exists tutor. split; [apply (get_current_tutor_has _ _ _ Htutor) | reflexivity].
Qed.

Lemma phone_fresh (db : Store) (phone : string) :
  existsb (fun t => String.eqb (Tutor.phone t) phone) (tutors db) = false ->
  ~ In phone (List.map Tutor.phone (tutors db)).
Proof.
  intros Hnone Hin. apply in_map_iff in Hin as (t & Hphone & Hin).
  apply not_true_iff_false in Hnone. apply Hnone.
  apply existsb_exists. exists t. split; [exact Hin|].
  apply String.eqb_eq, Hphone.
Qed.

Lemma chosen_incl (db : Store) (ids : list Z) :
  incl (if list_bool ids then subjects_in db ids else []) (subjects db).
Proof.
  destruct (list_bool ids); [apply subjects_in_incl | intros s []].
Qed.

Lemma signup_effect (env : Env) (session_tutor_id : option Z)
    (form_name form_phone form_pin : string) (form_subjects : list string)
    (db : Store) :
  store_effect db
    (signup env session_tutor_id form_name form_phone form_pin form_subjects db).2.
Proof.
  unfold signup.
  destruct (negb _ || negb _ || negb _); [constructor|].
  destruct (String.length _ <? 4)%nat; [constructor|].
  destruct (existsb _ (tutors db)) eqn:Hphone; [constructor|].
  destruct (selected_ids form_subjects) as [ids|]; [|constructor].
  destruct (negb (sqlite_integers ids)); [constructor|].
  destruct (storage_fault env); [constructor|]. simpl.
  apply (effect_new_tutor db
           (Tutor.mk (next_id (List.map Tutor.id (tutors db)))
              (py_strip form_name) (_normalize_phone form_phone)
              (generate_password_hash (py_strip form_pin)) (utcnow env) true)).
  - apply next_id_fresh.
  - apply phone_fresh, Hphone.
  - apply chosen_incl.
Qed.

Lemma add_tutor_effect (env : Env) (admin_authenticated : bool)
    (form_name form_phone form_pin : string) (form_subjects : list string)
    (db : Store) :
  store_effect db
    (add_tutor env admin_authenticated form_name form_phone form_pin
       form_subjects db).2.
Proof.
  unfold add_tutor.
  destruct admin_authenticated; simpl; [|constructor].
  destruct (selected_ids form_subjects) as [ids|]; [|constructor].
  destruct (negb _); [constructor|].
  destruct (String.length _ <? 4)%nat; [constructor|].
  destruct (existsb _ (tutors db)) eqn:Hphone; [constructor|].
  destruct (negb (sqlite_integers ids)); [constructor|].
  destruct (storage_fault env); [constructor|]. simpl.
  apply (effect_new_tutor db
           (Tutor.mk (next_id (List.map Tutor.id (tutors db)))
              (py_strip form_name) (_normalize_phone form_phone)
              (generate_password_hash (py_strip form_pin)) (utcnow env) true)).
  - apply next_id_fresh.
  - apply phone_fresh, Hphone.
  - apply chosen_incl.
Qed.

Lemma toggle_effect (env : Env) (admin_authenticated : bool) (tutor_id : Z)
    (db : Store) :
  store_effect db (toggle_tutor_active env admin_authenticated tutor_id db).2.
Proof.
  unfold toggle_tutor_active.
  destruct admin_authenticated; simpl; [|constructor].
  destruct (List.find _ (tutors db)); [|constructor].
  destruct (storage_fault env); [constructor|]. simpl. apply effect_toggle.
Qed.

Lemma delete_tutor_effect (env : Env) (admin_authenticated : bool) (tutor_id : Z)
    (db : Store) :
  store_effect db (delete_tutor env admin_authenticated tutor_id db).2.
Proof.
  unfold delete_tutor.
  destruct admin_authenticated; simpl; [|constructor].
  destruct (List.find _ (tutors db)) as [tutor|] eqn:Hfind; [|constructor].
  destruct (bookings_of db tutor) as [|b0 rest] eqn:Hnone; simpl; [|constructor].
  destruct (storage_fault env); [constructor|]. simpl.
  apply effect_delete_tutor.
  intros b Hb Heq.
  apply find_some in Hfind as [_ Hid]. apply Z.eqb_eq in Hid.
  assert (In b (bookings_of db tutor)) as Hin
    by (apply bookings_of_In; split; [exact Hb | congruence]).
  rewrite Hnone in Hin. destruct Hin.
Qed.

Lemma handle_effect (db : Store) (request : Request) :
  store_effect db (handle db request).
Proof.
  destruct request; simpl.
  - apply book_effect.
  - apply cancel_effect.
  - apply add_availability_effect.
  - apply delete_availability_effect.
  - apply add_exception_effect.
  - apply delete_exception_effect.
  - apply update_subjects_effect.
  - apply signup_effect.
  - apply add_tutor_effect.
  - apply toggle_effect.
  - apply delete_tutor_effect.
Qed.

End Effects.

(** ** Invariants of the store under every request *)

Section ListSurgery.

Context {A : Type}.

Lemma remove_first_In (p : A -> bool) (l : list A) (x : A) :
  In x (remove_first p l) -> In x l.
Proof.
  induction l as [|r l IH]; simpl; [tauto|].
  destruct (p r); [tauto|]. intros [->|Hin]; [tauto | right; apply IH, Hin].
Qed.

Lemma remove_first_keeps (p : A -> bool) (l : list A) (x : A) :
  In x l -> p x = false -> In x (remove_first p l).
Proof.
  induction l as [|r l IH]; simpl; [tauto|].
  intros [->|Hin] Hx.
  - rewrite Hx. left. reflexivity.
  - destruct (p r); [exact Hin | right; apply IH; assumption].
Qed.

Lemma remove_first_NoDup {B : Type} (f : A -> B) (p : A -> bool) (l : list A) :
  NoDup (List.map f l) -> NoDup (List.map f (remove_first p l)).
Proof.
  induction l as [|r l IH]; simpl; [tauto|].
  intros Hnd. apply NoDup_cons in Hnd as [Hfresh Hnd].
  destruct (p r); [exact Hnd|]. simpl. apply NoDup_cons. split; [|apply IH, Hnd].
  intros Hin. apply Hfresh.
  apply list_elem_of_In, in_map_iff in Hin as (x & <- & Hx).
  apply list_elem_of_In, in_map. apply (remove_first_In _ _ _ Hx).
Qed.

Lemma update_first_map {B : Type} (g : A -> B) (p : A -> bool) (f : A -> A)
    (l : list A) :
  (forall x, g (f x) = g x) ->
  List.map g (update_first p f l) = List.map g l.
Proof.
  intros Hg. induction l as [|r l IH]; simpl; [reflexivity|].
  destruct (p r); simpl; [rewrite Hg; reflexivity | rewrite IH; reflexivity].
Qed.

Lemma all_apart_app (R : A -> A -> Prop) (l : list A) (x : A) :
  all_apart R l -> (forall y, In y l -> ~ R y x) -> all_apart R (l ++ [x]).
Proof.
  induction l as [|r l IH]; simpl; intros Hl Hx.
  - split; [intros y [] | exact I].
  - destruct Hl as [Hr Hl]. split.
    + intros y Hy. apply in_app_or in Hy as [Hy|[<-|[]]];
        [apply Hr, Hy | apply Hx; left; reflexivity].
    + apply IH; [exact Hl|]. intros y Hy. apply Hx. right. exact Hy.
Qed.

Lemma all_apart_remove_first (R : A -> A -> Prop) (p : A -> bool) (l : list A) :
  all_apart R l -> all_apart R (remove_first p l).
Proof.
  induction l as [|r l IH]; simpl; [tauto|].
  intros [Hr Hl]. destruct (p r); [exact Hl|]. simpl. split; [|apply IH, Hl].
  intros y Hy. apply Hr, (remove_first_In _ _ _ Hy).
Qed.

Lemma all_apart_filter (R : A -> A -> Prop) (p : A -> bool) (l : list A) :
  all_apart R l -> all_apart R (List.filter p l).
Proof.
  induction l as [|r l IH]; simpl; [tauto|].
  intros [Hr Hl]. destruct (p r); [|apply IH, Hl]. simpl. split; [|apply IH, Hl].
  intros y Hy. apply filter_In in Hy as [Hy _]. apply Hr, Hy.
Qed.

End ListSurgery.

Section Invariants.

Context `{PyLib}.

Lemma add_associations_rows (rows : list TutorSubject.t) (k : Z)
    (chosen : list Subject.t) (ts : TutorSubject.t) :
  In ts (add_associations rows k chosen) ->
  In ts rows
  \/ (TutorSubject.tutor_id ts = k
      /\ exists s : Subject.t, In s chosen /\ TutorSubject.subject_id ts = Subject.id s).
Proof.
  revert rows. induction chosen as [|s chosen IH]; intros rows; simpl; [tauto|].
  destruct (teaches rows k (Subject.id s)).
  - intros Hin. destruct (IH _ Hin) as [Hold|(Hk & s' & Hs' & Hid)]; [tauto|].
    right. split; [exact Hk|]. exists s'. split; [right; exact Hs' | exact Hid].
  - intros Hin. destruct (IH _ Hin) as [Hold|(Hk & s' & Hs' & Hid)].
    + apply in_app_or in Hold as [Hold|[<-|[]]]; [tauto|].
      right. simpl. split; [reflexivity|]. exists s. split; [left|]; reflexivity.
    + right. split; [exact Hk|]. exists s'. split; [right; exact Hs' | exact Hid].
Qed.

Lemma has_tutor_tutors (db db' : Store) (k : Z) :
  tutors db' = tutors db -> has_tutor db k -> has_tutor db' k.
Proof. unfold has_tutor. intros ->. tauto. Qed.

Lemma effect_keeps_references (db db' : Store) :
  store_effect db db' -> references_resolve db -> references_resolve db'.
Proof.
  intros Heffect (Hwa & Hex & Hbk & Hts).
  destruct Heffect
    as [|stored Htutor _ _ _|booking_id now reason|row Htutor _|p
       |row Htutor _ _|p|k chosen Htutor Hchosen|tutor chosen _ _ Hchosen
       |k|k Hnone].
  - exact (conj Hwa (conj Hex (conj Hbk Hts))).
  - refine (conj _ (conj _ (conj _ _))); try assumption; simpl.
    intros b Hb. apply in_app_or in Hb as [Hb|[<-|[]]]; [apply Hbk, Hb | exact Htutor].
  - refine (conj _ (conj _ (conj _ _))); try assumption; simpl.
    intros b Hb. unfold update_booking in Hb.
    apply in_map_iff in Hb as (b0 & <- & Hb0).
    destruct (Booking.id b0 =? booking_id); apply (Hbk b0 Hb0).
  - refine (conj _ (conj _ (conj _ _))); try assumption; simpl.
    intros a Ha. apply in_app_or in Ha as [Ha|[<-|[]]]; [apply Hwa, Ha | exact Htutor].
  - refine (conj _ (conj _ (conj _ _))); try assumption; simpl.
    intros a Ha. apply Hwa, (remove_first_In _ _ _ Ha).
  - refine (conj _ (conj _ (conj _ _))); try assumption; simpl.
    intros x Hx. apply in_app_or in Hx as [Hx|[<-|[]]]; [apply Hex, Hx | exact Htutor].
  - refine (conj _ (conj _ (conj _ _))); try assumption; simpl.
    intros x Hx. apply Hex, (remove_first_In _ _ _ Hx).
  - split; [exact Hwa|]. split; [exact Hex|]. split; [exact Hbk|]. simpl.
    intros ts Hin. unfold set_subjects in Hin.
    apply add_associations_rows in Hin as [Hold|(Hk & s & Hs & Hid)].
    + apply filter_In in Hold as [Hold _]. apply (Hts ts Hold).
    + split; [rewrite Hk; exact Htutor|]. exists s.
      split; [apply Hchosen, Hs | congruence].
  - assert (forall k, has_tutor db k ->
                      has_tutor
                        (with_tutor_subjects (with_tutors db (tutors db ++ [tutor]))
                           (add_associations (tutor_subjects db) (Tutor.id tutor)
                              chosen)) k) as Hmono.
    { intros k (t & Ht & Hid). exists t. simpl. split; [|exact Hid].
      apply in_or_app. left. exact Ht. }
    split; [intros a Ha; apply Hmono, Hwa, Ha|].
    split; [intros x Hx; apply Hmono, Hex, Hx|].
    split; [intros b Hb; apply Hmono, Hbk, Hb|].
    simpl. intros ts Hin.
    apply add_associations_rows in Hin as [Hold|(Hk & s & Hs & Hid)].
    + destruct (Hts ts Hold) as [Ht Hs]. split; [apply Hmono, Ht | exact Hs].
    + split.
      * exists tutor. simpl. split; [|congruence].
        apply in_or_app. right. left. reflexivity.
      * exists s. split; [apply Hchosen, Hs | congruence].
  - assert (forall k0, has_tutor db k0 ->
                       has_tutor
                         (with_tutors db
                            (update_first (fun t => Tutor.id t =? k) toggle_active
                               (tutors db))) k0) as Hmono.
    { intros k0 (t & Ht & Hid). unfold has_tutor. simpl.
      assert (In k0 (List.map Tutor.id
                       (update_first (fun t => Tutor.id t =? k) toggle_active
                          (tutors db)))) as Hin.
      { rewrite update_first_map by reflexivity.
        apply in_map_iff. exists t. split; assumption. }
      apply in_map_iff in Hin as (t' & Hid' & Ht'). exists t'. tauto. }
    split; [intros a Ha; apply Hmono, Hwa, Ha|].
    split; [intros x Hx; apply Hmono, Hex, Hx|].
    split; [intros b Hb; apply Hmono, Hbk, Hb|].
    intros ts Hin. destruct (Hts ts Hin) as [Ht Hs]. split; [apply Hmono, Ht | exact Hs].
  - assert (forall k0, k0 <> k -> has_tutor db k0 ->
                       exists t, In t (remove_first (fun t => Tutor.id t =? k)
                                         (tutors db))
                                 /\ Tutor.id t = k0) as Hkeep.
    { intros k0 Hne (t & Ht & Hid). exists t. split; [|exact Hid].
      apply remove_first_keeps; [exact Ht | lia]. }
    unfold references_resolve, has_tutor. simpl.
    split; [|split; [|split]].
    + intros a Ha. apply filter_In in Ha as [Ha Hne].
      apply Hkeep; [lia | apply Hwa, Ha].
    + intros x Hx. apply filter_In in Hx as [Hx Hne].
      apply Hkeep; [lia | apply Hex, Hx].
    + intros b Hb. apply Hkeep; [apply Hnone, Hb | apply Hbk, Hb].
    + intros ts Hin. apply filter_In in Hin as [Hin Hne].
      destruct (Hts ts Hin) as [Ht Hs]. split; [|exact Hs].
      apply Hkeep; [lia | exact Ht].
Qed.

Lemma effect_keeps_unique_tutors (db db' : Store) :
  store_effect db db' -> unique_tutors db -> unique_tutors db'.
Proof.
  intros Heffect [Hids Hphones].
  destruct Heffect
    as [|stored _ _ _ _|booking_id now reason|row _ _|p
       |row _ _ _|p|k chosen _ _|tutor chosen Hid Hphone _
       |k|k _]; try (split; assumption).
  - unfold unique_tutors. simpl. rewrite !List.map_app. simpl. split.
    + apply NoDup_app. split; [exact Hids|]. split; [|apply NoDup_singleton].
      intros x Hx [<-|[]]%list_elem_of_In. apply Hid, list_elem_of_In, Hx.
    + apply NoDup_app. split; [exact Hphones|]. split; [|apply NoDup_singleton].
      intros x Hx [<-|[]]%list_elem_of_In. apply Hphone, list_elem_of_In, Hx.
  - unfold unique_tutors. simpl.
    rewrite !update_first_map by reflexivity. split; assumption.
  - unfold unique_tutors. simpl. split; apply remove_first_NoDup; assumption.
Qed.

Lemma effect_keeps_blocks (db db' : Store) :
  store_effect db db' -> blocks_well_formed db -> blocks_well_formed db'.
Proof.
  intros Heffect Hblocks.
  destruct Heffect
    as [|stored _ _ _ _|booking_id now reason|row _ Hrow|p
       |row _ _ _|p|k chosen _ _|tutor chosen _ _ _
       |k|k _]; try exact Hblocks.
  - intros a Ha. simpl in Ha.
    apply in_app_or in Ha as [Ha|[<-|[]]]; [apply Hblocks, Ha | exact Hrow].
  - intros a Ha. simpl in Ha. apply Hblocks, (remove_first_In _ _ _ Ha).
  - intros a Ha. simpl in Ha. apply filter_In in Ha as [Ha _]. apply Hblocks, Ha.
Qed.

Lemma effect_bookings (db db' : Store) :
  store_effect db db' ->
  bookings db' = bookings db
  \/ (exists stored : Booking.t,
        bookings db' = bookings db ++ [stored]
        /\ ~ In (Booking.id stored) (List.map Booking.id (bookings db))
        /\ ~ In (Booking.tutor_id stored, Booking.start_time stored)
               (List.map (fun b => (Booking.tutor_id b, Booking.start_time b))
                  (bookings db))
        /\ forall b, In b (bookings db) -> ~ conflicting b stored)
  \/ (exists (booking_id now : Z) (reason : option string),
        bookings db'
        = update_booking booking_id (mark_canceled now reason) (bookings db)).
Proof.
  intros Heffect.
  destruct Heffect
    as [|stored _ Hid Hkey Hfree|booking_id now reason|row _ _|p
       |row _ _ _|p|k chosen _ _|tutor chosen _ _ _
       |k|k _]; try (left; reflexivity).
  - right. left. exists stored. repeat split; assumption.
  - right. right. eauto.
Qed.

Lemma no_double_booking_rows (db db' : Store) :
  bookings db' = bookings db -> no_double_booking db -> no_double_booking db'.
Proof. unfold no_double_booking. intros ->. tauto. Qed.

Lemma effect_keeps_bookings_sound (db db' : Store) :
  store_effect db db' ->
  no_double_booking db /\ unique_booking_ids db /\ unique_booking_keys db ->
  no_double_booking db' /\ unique_booking_ids db' /\ unique_booking_keys db'.
Proof.
  intros Heffect (Hinv & Hids & Hkeys).
  destruct (effect_bookings _ _ Heffect)
    as [Hsame|[(stored & Hrows & Hid & Hkey & Hfree)
              |(booking_id & now & reason & Hrows)]].
  - unfold unique_booking_ids, unique_booking_keys. rewrite Hsame.
    split; [apply (no_double_booking_rows _ _ Hsame Hinv) | tauto].
  - split; [|split].
    + apply (no_double_booking_rows
               (with_bookings db (bookings db ++ [stored])) db' Hrows).
      apply no_double_booking_append; assumption.
    + unfold unique_booking_ids. rewrite Hrows, List.map_app. simpl.
      apply NoDup_app. split; [exact Hids|]. split; [|apply NoDup_singleton].
      intros x Hx [<-|[]]%list_elem_of_In. apply Hid, list_elem_of_In, Hx.
    + unfold unique_booking_keys. rewrite Hrows, List.map_app. simpl.
      apply NoDup_app. split; [exact Hkeys|]. split; [|apply NoDup_singleton].
      intros x Hx [<-|[]]%list_elem_of_In. apply Hkey, list_elem_of_In, Hx.
  - split; [|split].
    + apply (no_double_booking_rows
               (with_bookings db
                  (update_booking booking_id (mark_canceled now reason)
                     (bookings db))) db' Hrows).
      apply no_double_booking_cancel, Hinv.
    + unfold unique_booking_ids. rewrite Hrows, update_booking_ids. exact Hids.
    + unfold unique_booking_keys. rewrite Hrows, update_booking_keys. exact Hkeys.
Qed.

End Invariants.

Section Blackouts.

Context `{PyLib}.

Lemma combine_lt (d a b : Z) : combine d a < combine d b <-> a < b.
Proof. unfold combine. lia. Qed.

Lemma time_min_valid : valid_time time_min.
Proof. split; [reflexivity | reflexivity]. Qed.

Lemma time_max_valid : valid_time time_max.
Proof. split; [discriminate | reflexivity]. Qed.

Lemma effect_keeps_blackouts (db db' : Store) :
  strptime_time_valid ->
  store_effect db db' -> blackouts_consistent db -> blackouts_consistent db'.
Proof.
  intros Hvalid Heffect [Hshape Hapart].
  destruct Heffect
    as [|stored _ _ _ _|booking_id now reason|row _ _|p
       |row _ Hrow Hfree|p|k chosen _ _|tutor chosen _ _ _
       |k|k _]; try (split; assumption).
  - assert (exception_well_shaped row) as Hwell.
    { unfold exception_well_shaped.
      destruct (TutorException.start_time row) as [a|],
               (TutorException.end_time row) as [b|]; try exact Hrow.
      destruct Hrow as (Hlt & [sa Ha] & [sb Hb]).
      split; [apply (Hvalid _ _ Ha)|]. split; [apply (Hvalid _ _ Hb) | exact Hlt]. }
    split; simpl.
    + intros x Hx. apply in_app_or in Hx as [Hx|[<-|[]]]; [apply Hshape, Hx | exact Hwell].
    + apply all_apart_app; [exact Hapart|].
      intros y Hy (Htutor & Hdate & Hclash).
      specialize (Hfree y Hy Htutor). specialize (Hshape y Hy).
      unfold overlaps in Hfree.
      assert (valid_time (default time_min (TutorException.start_time row)))
        as Hstart.
      { unfold exception_well_shaped in Hwell.
        destruct (TutorException.start_time row) as [a|],
                 (TutorException.end_time row) as [b|];
          simpl; try tauto; apply time_min_valid. }
      rewrite (date_of_combine _ _ Hstart), Hdate, Z.eqb_refl in Hfree.
      simpl in Hfree. unfold is_full_day in Hfree.
      unfold exception_well_shaped in Hshape, Hwell.
      destruct (TutorException.start_time y) as [ya|],
               (TutorException.end_time y) as [yb|]; try discriminate; try tauto.
      destruct Hshape as (Hya & Hyb & Hy_lt).
      apply andb_false_iff in Hfree.
      rewrite Z.ltb_ge, Z.gtb_ltb, Z.ltb_ge in Hfree.
      unfold combine in Hfree.
      destruct (TutorException.start_time row) as [a|],
               (TutorException.end_time row) as [b|]; simpl in Hfree; try tauto.
      * lia.
      * unfold time_min, time_max, valid_time in *. lia.
  - split; simpl.
    + intros x Hx. apply Hshape, (remove_first_In _ _ _ Hx).
    + apply all_apart_remove_first, Hapart.
  - split; simpl.
    + intros x Hx. apply filter_In in Hx as [Hx _]. apply Hshape, Hx.
    + apply all_apart_filter, Hapart.
Qed.

End Blackouts.

Section Serving.

Context `{PyLib} `{PyHash}.

Lemma serve_invariant (P : Store -> Prop) :
  (forall db db', store_effect db db' -> P db -> P db') ->
  forall (requests : list Request) (db : Store), P db -> P (serve requests db).
Proof.
  intros Hstep requests. unfold serve.
  induction requests as [|request requests IH]; intros db Hdb; simpl; [exact Hdb|].
  apply IH, (Hstep db); [apply handle_effect | exact Hdb].
Qed.

End Serving.

(** X15. Referential integrity is kept by every request: if every
    availability block, exception, booking and subject association points to
    a row of the tutors table (and every association to a row of the subjects
    table), the same holds after any sequence of requests to the student,
    tutor and admin routes. In particular [delete_tutor] never orphans a
    row. *)
Theorem references_always_resolve `{PyLib} `{PyHash}
    (requests : list Request) (db : Store) :
  references_resolve db -> references_resolve (serve requests db).
Proof. apply serve_invariant. apply effect_keeps_references. Qed.

Lemma references_always_resolve_witness :
  references_resolve
    (@serve Examples.lib MoreExamples.hash MoreExamples.session_requests
       MoreExamples.db_empty).
Proof.
  apply (@references_always_resolve Examples.lib MoreExamples.hash).
  unfold references_resolve. simpl. tauto.
Defined.

(** X16. The tutors table keeps its constraints under every sequence of
    requests: no two tutors share an id and no two share a phone number. *)
Theorem tutors_stay_unique `{PyLib} `{PyHash}
    (requests : list Request) (db : Store) :
  unique_tutors db -> unique_tutors (serve requests db).
Proof. apply serve_invariant. apply effect_keeps_unique_tutors. Qed.

Lemma tutors_stay_unique_witness :
  unique_tutors
    (@serve Examples.lib MoreExamples.hash MoreExamples.session_requests
       MoreExamples.db_empty).
Proof.
  apply (@tutors_stay_unique Examples.lib MoreExamples.hash).
  split; apply NoDup_nil_2.
Defined.

(** X17. Every availability block in the store ends after it starts, once
    that holds: [add_availability] refuses the others, and no request changes
    the times of a block. *)
Theorem blocks_stay_well_formed `{PyLib} `{PyHash}
    (requests : list Request) (db : Store) :
  blocks_well_formed db -> blocks_well_formed (serve requests db).
Proof. apply serve_invariant. apply effect_keeps_blocks. Qed.

Lemma blocks_stay_well_formed_witness :
  blocks_well_formed
    (@serve Examples.lib MoreExamples.hash MoreExamples.session_requests
       MoreExamples.db_empty).
Proof.
  apply (@blocks_stay_well_formed Examples.lib MoreExamples.hash).
  intros a [].
Defined.

(** X18. Blackouts stay consistent under every sequence of requests, the
    time parser returning times of day: every exception has both time bounds
    or none, with start before end, and no two exceptions of one tutor on one
    date overlap (a full-day exception is the only one of its date). *)
Theorem blackouts_stay_consistent `{PyLib} `{PyHash}
    (requests : list Request) (db : Store) :
  strptime_time_valid ->
  blackouts_consistent db -> blackouts_consistent (serve requests db).
Proof.
  intros Hvalid. apply serve_invariant.
  intros db0 db1. apply (effect_keeps_blackouts db0 db1 Hvalid).
Qed.

Lemma blackouts_stay_consistent_witness :
  blackouts_consistent
    (@serve Examples.lib MoreExamples.hash MoreExamples.session_requests
       MoreExamples.db_empty).
Proof.
  apply (@blackouts_stay_consistent Examples.lib MoreExamples.hash).
  - intros s t. simpl.
    destruct (String.eqb s "15:00"); [intros [= <-]; split; [discriminate | reflexivity]|].
    destruct (String.eqb s "15:30"); [intros [= <-]; split; [discriminate | reflexivity]|].
    destruct (String.eqb s "23:45"); [intros [= <-]; split; [discriminate | reflexivity]|].
    discriminate.
  - split; [intros x [] | exact I].
Defined.

(** X19. The bookings table stays sound under every sequence of requests to
    all routes: no two non-canceled bookings of a tutor overlap, no two rows
    share an id, and no two rows share tutor and start time. *)
Theorem bookings_stay_sound `{PyLib} `{PyHash}
    (requests : list Request) (db : Store) :
  no_double_booking db ->
  unique_booking_ids db ->
  unique_booking_keys db ->
  no_double_booking (serve requests db)
  /\ unique_booking_ids (serve requests db)
  /\ unique_booking_keys (serve requests db).
Proof.
  intros Hinv Hids Hkeys.
  apply (serve_invariant
           (fun db => no_double_booking db /\ unique_booking_ids db
                      /\ unique_booking_keys db)).
  - apply effect_keeps_bookings_sound.
  - tauto.
Qed.

Lemma bookings_stay_sound_witness :
  unique_booking_keys
    (@serve Examples.lib MoreExamples.hash
       [ReqBook Examples.env_ok Examples.form_15_00;
        ReqDeleteTutor Examples.env_ok true 1;
        ReqCancelBooking Examples.env_ok (Some 1) 1 "";
        ReqBook Examples.env_ok Examples.form_15_00]
       Examples.db_a).
Proof.
  apply (@bookings_stay_sound Examples.lib MoreExamples.hash).
  - intros i j b1 b2 _ Hb1. destruct i; discriminate Hb1.
  - apply NoDup_nil_2.
  - apply NoDup_nil_2.
Defined.

(** ** What a logged-in tutor can and cannot change *)

Section Isolation.

Context `{PyLib}.

Lemma filter_remove_first_found {A : Type} (p q : A -> bool) (l : list A) (x : A) :
  List.find p l = Some x -> q x = false ->
  List.filter q (remove_first p l) = List.filter q l.
Proof.
  induction l as [|r l IH]; simpl; [discriminate|].
  destruct (p r).
  - intros [= ->] Hq. rewrite Hq. reflexivity.
  - intros Hfind Hq. simpl. rewrite (IH Hfind Hq). reflexivity.
Qed.

Lemma filter_app_dropped {A : Type} (q : A -> bool) (l : list A) (x : A) :
  q x = false -> List.filter q (l ++ [x]) = List.filter q l.
Proof.
  intros Hq. rewrite List.filter_app. simpl. rewrite Hq. apply app_nil_r.
Qed.

Lemma filter_update_booking (q : Booking.t -> bool) (rows : list Booking.t)
    (booking_id now : Z) (reason : option string) (b : Booking.t) :
  NoDup (List.map Booking.id rows) ->
  In b rows -> Booking.id b = booking_id -> q b = false ->
  (forall x, q (mark_canceled now reason x) = q x) ->
  List.filter q (update_booking booking_id (mark_canceled now reason) rows)
  = List.filter q rows.
Proof.
  intros Hnodup Hin Hid Hq Hf.
  induction rows as [|r rows IH]; [reflexivity|].
  simpl in Hnodup. apply NoDup_cons in Hnodup as [Hfresh Hnodup]. simpl.
  destruct (Z.eqb_spec (Booking.id r) booking_id) as [Hr|Hr].
  - assert (r = b) as ->.
    { destruct Hin as [Heq|Hin]; [exact Heq|].
      exfalso. apply Hfresh, list_elem_of_In, in_map_iff.
      exists b. split; [congruence | exact Hin]. }
    rewrite Hf, Hq.
    assert (update_booking booking_id (mark_canceled now reason) rows = rows) as ->;
      [|reflexivity].
    unfold update_booking. rewrite <- (List.map_id rows) at 2.
    apply List.map_ext_in. intros x Hx.
    destruct (Z.eqb_spec (Booking.id x) booking_id) as [Heq|]; [|reflexivity].
    exfalso. apply Hfresh, list_elem_of_In, in_map_iff.
    exists x. split; [congruence | exact Hx].
  - destruct Hin as [->|Hin]; [contradiction|].
    rewrite (IH Hnodup Hin). reflexivity.
Qed.

Lemma filter_add_associations (q : TutorSubject.t -> bool)
    (rows : list TutorSubject.t) (k : Z) (chosen : list Subject.t) :
  (forall ts, TutorSubject.tutor_id ts = k -> q ts = false) ->
  List.filter q (add_associations rows k chosen) = List.filter q rows.
Proof.
  intros Hq. revert rows. induction chosen as [|s chosen IH]; intros rows; simpl;
    [reflexivity|].
  destruct (teaches rows k (Subject.id s)); [apply IH|].
  rewrite IH. apply filter_app_dropped, Hq. reflexivity.
Qed.

Lemma filter_filter_weaker {A : Type} (q q' : A -> bool) (l : list A) :
  (forall x, q x = true -> q' x = true) ->
  List.filter q (List.filter q' l) = List.filter q l.
Proof.
  intros Hqq. induction l as [|r l IH]; simpl; [reflexivity|].
  destruct (q' r) eqn:Hq'; simpl.
  - rewrite IH. reflexivity.
  - destruct (q r) eqn:Hq; [rewrite (Hqq r Hq) in Hq'; discriminate | exact IH].
Qed.

Lemma session_tutor (tutor_id : Z) (db : Store) (tutor : Tutor.t) :
  get_current_tutor (Some tutor_id) db = Some tutor -> Tutor.id tutor = tutor_id.
Proof.
  intros Htutor. apply get_current_tutor_has in Htutor as [_ [= ->]]. reflexivity.
Qed.

Lemma add_availability_foreign (env : Env) (tutor_id : Z)
    (day start end_ : option string) (db : Store) :
  foreign_rows (add_availability env (Some tutor_id) day start end_ db).2 tutor_id
  = foreign_rows db tutor_id.
Proof.
  unfold add_availability.
  destruct (tutor_logged_in (Some tutor_id)); simpl negb; cbv iota; [|reflexivity].
  destruct (on_field py_int day); [|reflexivity].
  destruct (on_field strptime_time start); [|reflexivity].
  destruct (on_field strptime_time end_); [|reflexivity].
  destruct (_ <=? _); [reflexivity|].
  destruct (get_current_tutor (Some tutor_id) db) as [tutor|] eqn:Htutor;
    [|reflexivity].
  destruct (storage_fault env || _); [reflexivity|].
  unfold foreign_rows. simpl. rewrite filter_app_dropped; [reflexivity|].
  simpl. rewrite (session_tutor _ _ _ Htutor), Z.eqb_refl. reflexivity.
Qed.

Lemma delete_availability_foreign (env : Env) (tutor_id availability_id : Z)
    (db : Store) :
  foreign_rows (delete_availability env (Some tutor_id) availability_id db).2
    tutor_id
  = foreign_rows db tutor_id.
Proof.
  unfold delete_availability.
  destruct (tutor_logged_in (Some tutor_id)); simpl negb; cbv iota; [|reflexivity].
  destruct (List.find _ (weekly_availability db)) as [a|] eqn:Hfind; [|reflexivity].
  destruct (get_current_tutor (Some tutor_id) db) as [tutor|] eqn:Htutor;
    [|reflexivity].
  rewrite (session_tutor _ _ _ Htutor).
  destruct (Z.eqb_spec (WeeklyAvailability.tutor_id a) tutor_id) as [Hown|];
    simpl; [|reflexivity].
  destruct (storage_fault env); [reflexivity|].
  unfold foreign_rows. simpl.
  rewrite (filter_remove_first_found _ _ _ _ Hfind); [reflexivity|].
  rewrite Hown, Z.eqb_refl. reflexivity.
Qed.

Lemma add_exception_foreign (env : Env) (tutor_id : Z)
    (date_str start_str end_str : option string) (form_note : string)
    (db : Store) :
  foreign_rows
    (add_exception env (Some tutor_id) date_str start_str end_str form_note db).2
    tutor_id
  = foreign_rows db tutor_id.
Proof.
  unfold add_exception.
  destruct (tutor_logged_in (Some tutor_id)); simpl negb; cbv iota; [|reflexivity].
  destruct (on_field strptime_date date_str); [|reflexivity].
  destruct (blackout_times start_str end_str) as [reply|[start_time end_time]];
    [reflexivity|].
  destruct (get_current_tutor (Some tutor_id) db) as [tutor|] eqn:Htutor;
    [|reflexivity].
  destruct (existsb _ (exceptions_of db tutor)); [reflexivity|].
  destruct (storage_fault env || _); [reflexivity|].
  unfold foreign_rows. simpl. rewrite filter_app_dropped; [reflexivity|].
  simpl. rewrite (session_tutor _ _ _ Htutor), Z.eqb_refl. reflexivity.
Qed.

Lemma delete_exception_foreign (env : Env) (tutor_id exception_id : Z)
    (db : Store) :
  foreign_rows (delete_exception env (Some tutor_id) exception_id db).2 tutor_id
  = foreign_rows db tutor_id.
Proof.
  unfold delete_exception.
  destruct (tutor_logged_in (Some tutor_id)); simpl negb; cbv iota; [|reflexivity].
  destruct (List.find _ (tutor_exceptions db)) as [x|] eqn:Hfind; [|reflexivity].
  destruct (get_current_tutor (Some tutor_id) db) as [tutor|] eqn:Htutor;
    [|reflexivity].
  rewrite (session_tutor _ _ _ Htutor).
  destruct (Z.eqb_spec (TutorException.tutor_id x) tutor_id) as [Hown|];
    simpl; [|reflexivity].
  destruct (storage_fault env); [reflexivity|].
  unfold foreign_rows. simpl.
  rewrite (filter_remove_first_found _ _ _ _ Hfind); [reflexivity|].
  rewrite Hown, Z.eqb_refl. reflexivity.
Qed.

Lemma update_subjects_foreign (env : Env) (tutor_id : Z)
    (form_subjects : list string) (db : Store) :
  foreign_rows (update_subjects env (Some tutor_id) form_subjects db).2 tutor_id
  = foreign_rows db tutor_id.
Proof.
  unfold update_subjects.
  destruct (tutor_logged_in (Some tutor_id)); simpl negb; cbv iota; [|reflexivity].
  destruct (selected_ids form_subjects) as [ids|]; [|reflexivity].
  destruct (negb (sqlite_integers ids)); [reflexivity|].
  destruct (get_current_tutor (Some tutor_id) db) as [tutor|] eqn:Htutor;
    [|reflexivity].
  destruct (storage_fault env); [reflexivity|].
  unfold foreign_rows. simpl. rewrite (session_tutor _ _ _ Htutor).
  unfold set_subjects. rewrite filter_add_associations.
  - rewrite filter_filter_weaker; [reflexivity|].
    intros ts Hts. rewrite Hts. reflexivity.
  - intros ts ->. rewrite Z.eqb_refl. reflexivity.
Qed.

Lemma cancel_booking_foreign (env : Env) (tutor_id booking_id : Z)
    (form_cancel_reason : string) (db : Store) :
  unique_booking_ids db ->
  foreign_rows
    (cancel_booking env (Some tutor_id) booking_id form_cancel_reason db).2
    tutor_id
  = foreign_rows db tutor_id.
Proof.
  intros Hids.
  destruct (cancel_booking_store env (Some tutor_id) booking_id
              form_cancel_reason db)
    as [->|(tutor & b & Htutor & Hfind & Hown & _ & _ & ->)]; [reflexivity|].
  unfold foreign_rows. simpl.
  apply find_some in Hfind as [Hin Hid]. apply Z.eqb_eq in Hid.
  rewrite (filter_update_booking _ _ _ _ _ b Hids Hin Hid); [reflexivity| |].
  - rewrite Hown, (session_tutor _ _ _ Htutor), Z.eqb_refl. reflexivity.
  - intros x. reflexivity.
Qed.

End Isolation.

(** X20. A tutor works on its own rows only. Whatever a logged-in tutor
    submits to [add_availability], [delete_availability], [add_exception],
    [delete_exception], [update_subjects] or [cancel_booking] (the booking ids
    being distinct), the availability blocks, exceptions, bookings and
    subject associations of every other tutor are the same afterwards. *)
Theorem tutor_requests_isolated `{PyLib} (env : Env) (tutor_id : Z) (db : Store) :
  (forall day start end_ : option string,
      foreign_rows (add_availability env (Some tutor_id) day start end_ db).2
        tutor_id = foreign_rows db tutor_id)
  /\ (forall availability_id : Z,
        foreign_rows (delete_availability env (Some tutor_id) availability_id db).2
          tutor_id = foreign_rows db tutor_id)
  /\ (forall (date_str start_str end_str : option string) (form_note : string),
        foreign_rows
          (add_exception env (Some tutor_id) date_str start_str end_str
             form_note db).2 tutor_id = foreign_rows db tutor_id)
  /\ (forall exception_id : Z,
        foreign_rows (delete_exception env (Some tutor_id) exception_id db).2
          tutor_id = foreign_rows db tutor_id)
  /\ (forall form_subjects : list string,
        foreign_rows (update_subjects env (Some tutor_id) form_subjects db).2
          tutor_id = foreign_rows db tutor_id)
  /\ (unique_booking_ids db ->
      forall (booking_id : Z) (form_cancel_reason : string),
        foreign_rows
          (cancel_booking env (Some tutor_id) booking_id form_cancel_reason db).2
          tutor_id = foreign_rows db tutor_id).
Proof.
  split; [intros; apply add_availability_foreign|].
  split; [intros; apply delete_availability_foreign|].
  split; [intros; apply add_exception_foreign|].
  split; [intros; apply delete_exception_foreign|].
  split; [intros; apply update_subjects_foreign|].
  intros Hids booking_id reason. apply cancel_booking_foreign, Hids.
Qed.

(** Tutor 2 asks to cancel booking 1, which is tutor 1's. *)
Lemma tutor_requests_isolated_witness :
  foreign_rows
    (@cancel_booking Examples.lib Examples.env_ok (Some 2) 1 "" Examples.db_ab).2 2
  = foreign_rows Examples.db_ab 2.
Proof.
  apply (@tutor_requests_isolated Examples.lib Examples.env_ok 2 Examples.db_ab).
  unfold unique_booking_ids. simpl.
  repeat (apply NoDup_cons; split;
          [intros Hin; apply list_elem_of_In in Hin; simpl in Hin;
           repeat destruct Hin as [Hin|Hin]; try discriminate Hin; exact Hin|]).
  apply NoDup_nil_2.
Defined.

(** ** Blackouts, subjects and accounts *)

Section Portal.

Context `{PyLib}.

Lemma teaches_app (rows rows' : list TutorSubject.t) (k sid : Z) :
  teaches (rows ++ rows') k sid = teaches rows k sid || teaches rows' k sid.
Proof. unfold teaches. apply existsb_app. Qed.

Lemma teaches_add_associations (rows : list TutorSubject.t) (k : Z)
    (chosen : list Subject.t) (k' sid : Z) :
  teaches (add_associations rows k chosen) k' sid
  = teaches rows k' sid
    || ((k =? k') && existsb (fun s => Subject.id s =? sid) chosen).
Proof.
  revert rows. induction chosen as [|s chosen IH]; intros rows; simpl.
  - rewrite andb_false_r, orb_false_r. reflexivity.
  - destruct (teaches rows k (Subject.id s)) eqn:Hhas.
    + rewrite IH.
      destruct (Z.eqb_spec k k') as [<-|]; simpl; [|reflexivity].
      destruct (Z.eqb_spec (Subject.id s) sid) as [<-|]; simpl; [|reflexivity].
      rewrite Hhas. reflexivity.
    + rewrite IH, teaches_app. unfold teaches at 2. simpl.
      rewrite orb_false_r.
      destruct (Z.eqb_spec k k'); destruct (Z.eqb_spec (Subject.id s) sid);
        simpl;
        destruct (teaches rows k' sid),
                 (existsb (fun s0 => Subject.id s0 =? sid) chosen); reflexivity.
Qed.

Lemma teaches_kept (rows : list TutorSubject.t) (k : Z) (chosen : list Subject.t)
    (sid : Z) :
  teaches
    (List.filter
       (fun ts => negb (TutorSubject.tutor_id ts =? k)
                  || existsb (fun s => Subject.id s =? TutorSubject.subject_id ts)
                       chosen) rows) k sid
  = teaches rows k sid && existsb (fun s => Subject.id s =? sid) chosen.
Proof.
  unfold teaches. induction rows as [|ts rows IH]; simpl; [reflexivity|].
  destruct (Z.eqb_spec (TutorSubject.tutor_id ts) k) as [Hk|Hk]; simpl.
  - destruct (existsb (fun s => Subject.id s =? TutorSubject.subject_id ts) chosen)
      eqn:Hchosen; simpl.
    + destruct (Z.eqb_spec (TutorSubject.tutor_id ts) k); [|contradiction].
      rewrite IH. simpl.
      destruct (Z.eqb_spec (TutorSubject.subject_id ts) sid) as [<-|]; simpl;
        [rewrite Hchosen; reflexivity | reflexivity].
    + rewrite IH.
      destruct (Z.eqb_spec (TutorSubject.subject_id ts) sid) as [<-|]; simpl;
        [rewrite Hchosen, andb_false_r; reflexivity | reflexivity].
  - destruct (Z.eqb_spec (TutorSubject.tutor_id ts) k); [contradiction|].
    simpl. exact IH.
Qed.

Lemma teaches_set_subjects (db : Store) (k : Z) (chosen : list Subject.t)
    (sid : Z) :
  teaches (set_subjects db k chosen) k sid
  = existsb (fun s => Subject.id s =? sid) chosen.
Proof.
  unfold set_subjects.
  rewrite teaches_add_associations, teaches_kept, Z.eqb_refl. simpl.
  destruct (teaches (tutor_subjects db) k sid),
           (existsb (fun s => Subject.id s =? sid) chosen); reflexivity.
Qed.

Lemma subjects_in_has (db : Store) (ids : list Z) (sid : Z) :
  existsb (fun s => Subject.id s =? sid) (subjects_in db ids) = true
  <-> In sid ids /\ exists s : Subject.t, In s (subjects db) /\ Subject.id s = sid.
Proof.
  unfold subjects_in. rewrite existsb_exists. split.
  - intros (s & Hs & Hid). apply filter_In in Hs as [Hs Hsel].
    apply Z.eqb_eq in Hid. apply existsb_exists in Hsel as (n & Hn & Heq).
    apply Z.eqb_eq in Heq. subst. split; [exact Hn | eauto].
  - intros (Hsel & s & Hs & Hid). exists s. split; [|lia].
    apply filter_In. split; [exact Hs|].
    apply existsb_exists. exists sid. split; [exact Hsel | lia].
Qed.

Lemma overlaps_same_times (x : TutorException.t) (d a b : Z) :
  TutorException.date x = d ->
  TutorException.start_time x = Some a ->
  TutorException.end_time x = Some b ->
  valid_time a -> a < b ->
  overlaps x (combine d a) (combine d b) = true.
Proof.
  intros Hd Ha Hb Hvalid Hlt. unfold overlaps, is_full_day.
  rewrite (date_of_combine _ _ Hvalid), Hd, Z.eqb_refl, Ha, Hb. simpl.
  apply andb_true_iff. unfold combine. split; lia.
Qed.

End Portal.

(** X21. The duplicate check of the store never decides in [add_exception]:
    an exception with the same tutor, date and time bounds as a stored one is
    refused as an overlap before it reaches the store, so, the store working
    and the time parser returning times of day, the answer is never the one
    for an exception of the commit. *)
Theorem add_exception_duplicate_is_overlap `{PyLib}
    (env : Env) (session_tutor_id : option Z)
    (date_str start_str end_str : option string) (form_note : string)
    (db : Store) :
  strptime_time_valid ->
  storage_fault env = false ->
  (add_exception env session_tutor_id date_str start_str end_str form_note db).1
  <> ReplyRedirect "tutor.dashboard" already_marked_message "warning".
Proof.
  intros Hvalid Hfault. unfold add_exception.
  destruct (tutor_logged_in session_tutor_id); simpl negb; cbv iota;
    [|discriminate].
  destruct (on_field strptime_date date_str) as [date_obj|]; [|discriminate].
  destruct (blackout_times start_str end_str) as [reply|[start_time end_time]]
    eqn:Htimes.
  { unfold blackout_times in Htimes.
    destruct (opt_str_bool start_str || opt_str_bool end_str); [|discriminate].
    destruct (negb (opt_str_bool start_str) || negb (opt_str_bool end_str));
      [injection Htimes as <-; discriminate|].
    destruct (on_field strptime_time start_str);
      [|injection Htimes as <-; discriminate].
    destruct (on_field strptime_time end_str);
      [|injection Htimes as <-; discriminate].
    destruct (_ <=? _); [injection Htimes as <-; discriminate | discriminate]. }
  apply blackout_times_shape in Htimes.
  destruct (get_current_tutor session_tutor_id db) as [tutor|]; [|discriminate].
  destruct (existsb _ (exceptions_of db tutor)) eqn:Hover; [discriminate|].
  rewrite Hfault. simpl orb.
  destruct (violates_uq_tutor_date_exception db _) eqn:Huq; [|discriminate].
  exfalso. apply not_true_iff_false in Hover. apply Hover.
  unfold violates_uq_tutor_date_exception in Huq. simpl in Huq.
  apply existsb_exists in Huq as (x & Hx & Hsame).
  apply andb_true_iff in Hsame as [Hsame Hend].
  apply andb_true_iff in Hsame as [Hsame Hstart].
  apply andb_true_iff in Hsame as [Hown Hdate].
  destruct start_time as [a|]; [|destruct (TutorException.start_time x); discriminate].
  destruct end_time as [b|]; [|destruct (TutorException.end_time x); discriminate].
  destruct Htimes as (Hlt & [sa Ha] & _).
  destruct (TutorException.start_time x) as [xa|] eqn:Hxa; [|discriminate].
  destruct (TutorException.end_time x) as [xb|] eqn:Hxb; [|discriminate].
  apply existsb_exists. exists x. split.
  - unfold exceptions_of. apply filter_In. split; [exact Hx | exact Hown].
  - simpl. apply overlaps_same_times;
      [lia | rewrite Hxa; f_equal; lia | rewrite Hxb; f_equal; lia
      | apply (Hvalid _ _ Ha) | exact Hlt].
Qed.

Lemma add_exception_duplicate_is_overlap_witness :
  (@add_exception Examples.lib Examples.env_ok (Some 1)
     (Some "2024-01-01"%string) (Some "15:00"%string) (Some "15:30"%string) ""
     Examples.db_a).1
  <> ReplyRedirect "tutor.dashboard" already_marked_message "warning".
Proof.
  apply (@add_exception_duplicate_is_overlap Examples.lib).
  - intros s t. simpl.
    destruct (String.eqb s "15:00"); [intros [= <-]; split; [discriminate | reflexivity]|].
    destruct (String.eqb s "15:30"); [intros [= <-]; split; [discriminate | reflexivity]|].
    destruct (String.eqb s "23:45"); [intros [= <-]; split; [discriminate | reflexivity]|].
    discriminate.
  - reflexivity.
Defined.

(** X22. After [update_subjects] has answered "Subjects updated.", the tutor
    teaches exactly the subjects of the catalog whose ids were submitted: an
    id that is not in the subjects table is ignored, and a subject that was
    taught and is not submitted is taught no more. *)
Theorem update_subjects_sets_subjects `{PyLib}
    (env : Env) (tutor_id : Z) (form_subjects : list string) (db : Store) :
  (update_subjects env (Some tutor_id) form_subjects db).1
  = ReplyRedirect "tutor.dashboard" "Subjects updated." "success" ->
  exists ids : list Z,
    selected_ids form_subjects = Some ids
    /\ forall subject_id : Z,
         teaches
           (tutor_subjects (update_subjects env (Some tutor_id) form_subjects db).2)
           tutor_id subject_id = true
         <-> In subject_id ids
             /\ exists s : Subject.t,
                  In s (subjects db) /\ Subject.id s = subject_id.
Proof.
  unfold update_subjects.
  destruct (tutor_logged_in (Some tutor_id)); simpl negb; cbv iota; [|discriminate].
  destruct (selected_ids form_subjects) as [ids|]; [|discriminate].
  destruct (negb (sqlite_integers ids)); [discriminate|].
  destruct (get_current_tutor (Some tutor_id) db) as [tutor|] eqn:Htutor;
    [|discriminate].
  destruct (storage_fault env); [discriminate|].
  intros _. exists ids. split; [reflexivity|].
  intros subject_id. simpl.
  rewrite (session_tutor _ _ _ Htutor), teaches_set_subjects.
  apply subjects_in_has.
Qed.

Lemma update_subjects_sets_subjects_witness :
  exists ids : list Z,
    @selected_ids Examples.lib ["1"%string; "x"%string] = Some ids
    /\ forall subject_id : Z,
         teaches
           (tutor_subjects
              (@update_subjects Examples.lib Examples.env_ok (Some 1)
                 ["1"%string; "x"%string] Examples.db_a).2) 1 subject_id = true
         <-> In subject_id ids
             /\ exists s : Subject.t,
                  In s (subjects Examples.db_a) /\ Subject.id s = subject_id.
Proof.
  apply (@update_subjects_sets_subjects Examples.lib Examples.env_ok 1
           ["1"%string; "x"%string] Examples.db_a).
  reflexivity.
Defined.

Section Accounts.

Context `{PyLib} `{PyHash}.

Lemma next_id_positive (ids : list Z) : 1 <= next_id ids.
Proof.
  unfold next_id. destruct (fold_left_max_ge ids 0) as [Hge _]. lia.
Qed.

Lemma toggle_active_involutive (t : Tutor.t) : toggle_active (toggle_active t) = t.
Proof. destruct t. unfold toggle_active. simpl. rewrite negb_involutive. reflexivity. Qed.

Lemma update_first_twice (k : Z) (l : list Tutor.t) :
  update_first (fun t => Tutor.id t =? k) toggle_active
    (update_first (fun t => Tutor.id t =? k) toggle_active l) = l.
Proof.
  induction l as [|r l IH]; simpl; [reflexivity|].
  destruct (Tutor.id r =? k) eqn:Hr; simpl.
  - rewrite Hr, toggle_active_involutive. reflexivity.
  - rewrite Hr, IH. reflexivity.
Qed.

Lemma find_update_first (k : Z) (l : list Tutor.t) :
  List.find (fun t => Tutor.id t =? k)
    (update_first (fun t => Tutor.id t =? k) toggle_active l)
  = option_map toggle_active (List.find (fun t => Tutor.id t =? k) l).
Proof.
  induction l as [|r l IH]; simpl; [reflexivity|].
  destruct (Tutor.id r =? k) eqn:Hr; simpl; rewrite Hr; [reflexivity | exact IH].
Qed.

Lemma update_first_unique (k : Z) (l : list Tutor.t) (t' : Tutor.t) :
  NoDup (List.map Tutor.id l) ->
  In t' (update_first (fun t => Tutor.id t =? k) toggle_active l) ->
  Tutor.id t' = k ->
  exists t : Tutor.t,
    List.find (fun t => Tutor.id t =? k) l = Some t /\ t' = toggle_active t.
Proof.
  induction l as [|r l IH]; simpl; [tauto|].
  intros Hnodup Hin Hid. apply NoDup_cons in Hnodup as [Hfresh Hnodup].
  destruct (Z.eqb_spec (Tutor.id r) k) as [Hr|Hr].
  - destruct Hin as [<-|Hin]; [eauto|].
    exfalso. apply Hfresh, list_elem_of_In, in_map_iff.
    exists t'. split; [congruence | exact Hin].
  - destruct Hin as [<-|Hin]; [contradiction|]. apply IH; assumption.
Qed.

Lemma filter_idempotent {A : Type} (q : A -> bool) (l : list A) :
  List.filter q (List.filter q l) = List.filter q l.
Proof. apply filter_filter_weaker. tauto. Qed.

End Accounts.

(** X23. [signup] opens an account or changes nothing. When it answers with
    the welcome, the tutors table has gained one active tutor with a new id,
    the stripped name and the digits of the phone, which no tutor had; the
    pin has at least four characters; the session holds the new id and
    [get_current_tutor] finds the new tutor by it; and, in a store whose
    references resolve, the tutor teaches exactly the submitted subjects of
    the catalog. With any other answer the session and the store are as
    before. *)
Theorem signup_opens_account `{PyLib} `{PyHash}
    (env : Env) (session_tutor_id : option Z)
    (form_name form_phone form_pin : string) (form_subjects : list string)
    (db : Store) :
  references_resolve db ->
  let result :=
    signup env session_tutor_id form_name form_phone form_pin form_subjects db in
  (result.1.1 = ReplyRedirect "tutor.dashboard"
                  "Welcome! You can now set up your availability." "success" ->
   exists (tutor : Tutor.t) (ids : list Z),
     tutors result.2 = tutors db ++ [tutor]
     /\ ~ In (Tutor.id tutor) (List.map Tutor.id (tutors db))
     /\ ~ In (Tutor.phone tutor) (List.map Tutor.phone (tutors db))
     /\ Tutor.name tutor = py_strip form_name
     /\ Tutor.phone tutor = _normalize_phone form_phone
     /\ Tutor.pin_hash tutor = generate_password_hash (py_strip form_pin)
     /\ Tutor.is_active tutor = true
     /\ (4 <= String.length (py_strip form_pin))%nat
     /\ result.1.2 = Some (Tutor.id tutor)
     /\ get_current_tutor result.1.2 result.2 = Some tutor
     /\ selected_ids form_subjects = Some ids
     /\ forall subject_id : Z,
          teaches (tutor_subjects result.2) (Tutor.id tutor) subject_id = true
          <-> In subject_id ids
              /\ exists s : Subject.t,
                   In s (subjects db) /\ Subject.id s = subject_id)
  /\ (result.1.1 <> ReplyRedirect "tutor.dashboard"
                      "Welcome! You can now set up your availability." "success" ->
      result.1.2 = session_tutor_id /\ result.2 = db).
Proof.
  intros Hrefs. unfold signup.
  destruct (negb _ || negb _ || negb _); [split; [discriminate | tauto]|].
  destruct (Nat.ltb_spec (String.length (py_strip form_pin)) 4) as [Hpin|Hpin];
    [split; [discriminate | tauto]|].
  destruct (existsb _ (tutors db)) eqn:Hphone; [split; [discriminate | tauto]|].
  destruct (selected_ids form_subjects) as [ids|]; [|split; [discriminate | tauto]].
  destruct (negb (sqlite_integers ids)); [split; [discriminate | tauto]|].
  destruct (storage_fault env); [split; [discriminate | tauto]|].
  simpl. split; [|intros Hne; exfalso; apply Hne; reflexivity].
  intros _.
  set (tutor := Tutor.mk (next_id (List.map Tutor.id (tutors db)))
                  (py_strip form_name) (_normalize_phone form_phone)
                  (generate_password_hash (py_strip form_pin)) (utcnow env) true).
  exists tutor, ids.
  pose proof (next_id_fresh (List.map Tutor.id (tutors db))) as Hfresh.
  split; [reflexivity|]. split; [exact Hfresh|].
  split; [apply phone_fresh, Hphone|].
  repeat (split; [reflexivity|]). split; [exact Hpin|]. split; [reflexivity|].
  split.
  { unfold get_current_tutor. simpl.
    pose proof (next_id_positive (List.map Tutor.id (tutors db))).
    replace (next_id (List.map Tutor.id (tutors db)) =? 0) with false by lia.
    apply find_app_fresh; [|apply Z.eqb_refl].
    intros t Ht. apply Z.eqb_neq. intros Heq. apply Hfresh.
    rewrite <- Heq. apply in_map, Ht. }
  split; [reflexivity|].
  intros subject_id. rewrite teaches_add_associations, Z.eqb_refl. simpl.
  assert (teaches (tutor_subjects db) (next_id (List.map Tutor.id (tutors db)))
            subject_id = false) as ->.
  { apply not_true_iff_false. intros Hteach. unfold teaches in Hteach.
    apply existsb_exists in Hteach as (ts & Hts & Hrow).
    apply andb_true_iff in Hrow as [Hrow _]. apply Z.eqb_eq in Hrow.
    destruct Hrefs as (_ & _ & _ & Hassoc).
    destruct (Hassoc ts Hts) as [(t & Ht & Hid) _].
    apply Hfresh. rewrite <- Hrow, <- Hid. apply in_map, Ht. }
  simpl. destruct ids as [|n ids]; simpl list_bool; cbv iota.
  - simpl. split; [discriminate | intros [[] _]].
  - apply subjects_in_has.
Qed.

Lemma signup_opens_account_witness :
  exists tutor : Tutor.t,
    (@signup Examples.lib MoreExamples.hash Examples.env_ok None
       "Ada" "555-000-0009" "1234" ["1"%string] MoreExamples.db_empty).1.2
    = Some (Tutor.id tutor)
    /\ Tutor.phone tutor = "5550000009"%string.
Proof.
  destruct (@signup_opens_account Examples.lib MoreExamples.hash Examples.env_ok
              None "Ada" "555-000-0009" "1234" ["1"%string] MoreExamples.db_empty)
    as [Hok _].
  - unfold references_resolve. simpl. tauto.
  - destruct Hok as (tutor & ids & _ & _ & _ & _ & Hphone & _ & _ & _ & Hsession & _);
      [reflexivity|].
    exists tutor. split; [exact Hsession | exact Hphone].
Defined.

(** X24. Deactivating and reactivating: a second [toggle_tutor_active] on the
    same id gives back the store as it was; and once an active tutor is
    deactivated, the tutor ids being distinct, no confirmation of [book] is
    for that tutor. *)
Theorem toggle_tutor_active_hides `{PyLib}
    (env env' : Env) (tutor_id : Z) (db : Store) :
  storage_fault env = false ->
  storage_fault env' = false ->
  (toggle_tutor_active env' true tutor_id
     (toggle_tutor_active env true tutor_id db).2).2 = db
  /\ (NoDup (List.map Tutor.id (tutors db)) ->
      (toggle_tutor_active env true tutor_id db).1
      = ReplyRedirect "admin.dashboard" "Tutor deactivated." "info" ->
      forall (env2 : Env) (form_values : BookForm) (db2 : Store)
             (stored : Booking.t) (tutor : Tutor.t) (subject : Subject.t),
        book env2 form_values (toggle_tutor_active env true tutor_id db).2
        = (RenderConfirmation stored tutor subject, db2) ->
        Tutor.id tutor <> tutor_id).
Proof.
  intros Hfault Hfault'. unfold toggle_tutor_active. simpl negb. cbv iota.
  destruct (List.find (fun t => Tutor.id t =? tutor_id) (tutors db))
    as [t0|] eqn:Hfind.
  - rewrite Hfault. simpl. rewrite find_update_first, Hfind. simpl.
    rewrite Hfault'. simpl. split.
    + rewrite update_first_twice. destruct db. reflexivity.
    + intros Hnodup Hreply env2 form_values db2 stored tutor subject Hbook Hid.
      destruct (Tutor.is_active t0) eqn:Hactive; [|discriminate Hreply].
      apply book_confirmed_tutor in Hbook as (Hin & Hact & _). simpl in Hin.
      destruct (update_first_unique _ _ _ Hnodup Hin Hid) as (t & Ht & ->).
      rewrite Hfind in Ht. injection Ht as <-.
      simpl in Hact. rewrite Hactive in Hact. discriminate.
  - simpl. rewrite Hfind. simpl. split; [reflexivity | discriminate].
Qed.

(** Tutor A is the only tutor and is deactivated: nothing is bookable. *)
Lemma toggle_tutor_active_hides_witness :
  (@book Examples.lib Examples.env_ok Examples.form_15_00
     (toggle_tutor_active Examples.env_ok true 1 Examples.db_a).2).1
  = RenderBookingPage capacity_message "warning"
  /\ (toggle_tutor_active Examples.env_ok true 1
        (toggle_tutor_active Examples.env_ok true 1 Examples.db_a).2).2
     = Examples.db_a.
Proof.
  split; [reflexivity|].
  apply (@toggle_tutor_active_hides Examples.lib Examples.env_ok Examples.env_ok
           1 Examples.db_a); reflexivity.
Defined.

(** X25. [delete_tutor] spares every tutor that has a booking, canceled ones
    included, and otherwise takes the tutor's own rows only: when a booking
    carries the tutor id the store is unchanged; when the answer is "Tutor
    removed." the bookings, the subjects and the rows of every other tutor
    are as before, no availability block, exception or subject association
    carries the id any more, and, the tutor ids being distinct, neither does
    a tutor. *)
Theorem delete_tutor_cascade
    (env : Env) (admin_authenticated : bool) (tutor_id : Z) (db : Store) :
  let result := delete_tutor env admin_authenticated tutor_id db in
  ((exists b : Booking.t, In b (bookings db) /\ Booking.tutor_id b = tutor_id) ->
   result.2 = db)
  /\ (result.1 = ReplyRedirect "admin.dashboard" "Tutor removed." "info" ->
      bookings result.2 = bookings db
      /\ subjects result.2 = subjects db
      /\ foreign_rows result.2 tutor_id = foreign_rows db tutor_id
      /\ (forall a, In a (weekly_availability result.2) ->
                    WeeklyAvailability.tutor_id a <> tutor_id)
      /\ (forall x, In x (tutor_exceptions result.2) ->
                    TutorException.tutor_id x <> tutor_id)
      /\ (forall ts, In ts (tutor_subjects result.2) ->
                     TutorSubject.tutor_id ts <> tutor_id)
      /\ (forall t, In t (tutors result.2) -> In t (tutors db))
      /\ (forall t, In t (tutors db) -> Tutor.id t <> tutor_id ->
                    In t (tutors result.2))
      /\ (NoDup (List.map Tutor.id (tutors db)) -> ~ has_tutor result.2 tutor_id)).
Proof.
  unfold delete_tutor.
  destruct admin_authenticated; simpl negb; cbv iota;
    [|split; [reflexivity | discriminate]].
  destruct (List.find (fun t => Tutor.id t =? tutor_id) (tutors db))
    as [tutor|] eqn:Hfind; [|split; [reflexivity | discriminate]].
  pose proof (find_some _ _ Hfind) as [Htutor Hid]. apply Z.eqb_eq in Hid.
  destruct (bookings_of db tutor) as [|b0 rest] eqn:Hnone; simpl list_bool; cbv iota.
  2:{ split; [reflexivity | discriminate]. }
  destruct (storage_fault env).
  { split; [reflexivity | discriminate]. }
  simpl. split.
  - intros (b & Hb & Hown). exfalso.
    assert (In b (bookings_of db tutor)) as Hin.
    { unfold bookings_of. apply filter_In. split; [exact Hb | lia]. }
    rewrite Hnone in Hin. destruct Hin.
  - intros _. split; [reflexivity|]. split; [reflexivity|]. split.
    { unfold foreign_rows. simpl. rewrite !filter_idempotent. reflexivity. }
    split; [intros a Ha; apply filter_In in Ha as [_ Hne]; lia|].
    split; [intros x Hx; apply filter_In in Hx as [_ Hne]; lia|].
    split; [intros ts Hts; apply filter_In in Hts as [_ Hne]; lia|].
    split; [intros t Ht; apply (remove_first_In _ _ _ Ht)|].
    split; [intros t Ht Hne; apply remove_first_keeps; [exact Ht | lia]|].
    intros Hnodup (t & Ht & Htid).
    clear Hfind Htutor Hnone.
    induction (tutors db) as [|r l IH]; simpl in *; [destruct Ht|].
    apply NoDup_cons in Hnodup as [Hfresh Hnodup].
    destruct (Z.eqb_spec (Tutor.id r) tutor_id) as [Hr|Hr].
    + apply Hfresh, list_elem_of_In, in_map_iff. exists t.
      split; [congruence | exact Ht].
    + destruct Ht as [->|Ht]; [contradiction | apply (IH Hnodup Ht)].
Qed.

(** Tutor A has a canceled booking and stays; in a store without bookings A
    goes with its block. *)
Lemma delete_tutor_cascade_witness :
  (delete_tutor Examples.env_ok true 1 Examples.db_a_canceled).2
  = Examples.db_a_canceled
  /\ weekly_availability (delete_tutor Examples.env_ok true 1 Examples.db_a).2 = [].
Proof.
  split.
  - apply (delete_tutor_cascade Examples.env_ok true 1 Examples.db_a_canceled).
    exists (Examples.booking 1 1 15 30 16 0 true).
    split; [left; reflexivity | reflexivity].
  - reflexivity.
Defined.

(** ** The availability listing *)

Section Listing.








End Listing.


